(** * visbrain: source projection, ROI localization and colorbar state

    A shallow embedding of
      - [visbrain/utils/cbar/CbarBase.py]   (module [Cbar]),
      - [visbrain/brain/base/projection.py] (module [Projection]),
      - [visbrain/objects/roi_obj.py]       (module [Roi]),
      - [visbrain/utils/others.py]          (module [Others]),
    together with the properties of these modules.

    Python objects are records, attribute assignment is explicit state
    passing, and a raised exception keeps the attributes that were
    assigned before it was raised: a method is a function from the object
    to an outcome paired with the object as the method left it. *)

From Stdlib Require Import ZArith QArith Qminmax Qround String List Lia.
From stdpp Require Import base list strings pretty.
Import ListNotations.

Local Open Scope Z_scope.

(** ** Python values, exceptions and methods *)

Module Py.

(** The exceptions raised by the embedded code (and by the numpy and
    pandas operations it calls). *)
Inductive exn : Type :=
| AssertionError
| ImportError (msg : string)
| ValueError (msg : string)
| IndexError
| KeyError (key : string)
| AttributeError
| TypeError
| OverflowError.

Inductive outcome (A : Type) : Type :=
| Return (a : A)
| Raise (e : exn).
Arguments Return {A} a.
Arguments Raise {A} e.

(** A method of an object of class [S] returning an [A]. *)
Definition method (S A : Type) : Type := S -> outcome A * S.

Definition ret {S A} (a : A) : method S A := fun self => (Return a, self).

Definition raise {S A} (e : exn) : method S A := fun self => (Raise e, self).

Definition bind {S A B} (m : method S A) (k : A -> method S B) : method S B :=
  fun self =>
    match m self with
    | (Return a, self') => k a self'
    | (Raise e, self') => (Raise e, self')
    end.

(** [self.attr = ...] *)
Definition setattr {S} (f : S -> S) : method S unit :=
  fun self => (Return tt, f self).

(** reading [self.attr] *)
Definition getattr {S A} (f : S -> A) : method S A :=
  fun self => (Return (f self), self).

(** [assert b] *)
Definition assert {S} (b : bool) : method S unit :=
  if b then ret tt else raise AssertionError.

(** A computation that does not touch the object. *)
Definition lift {S A} (o : outcome A) : method S A := fun self => (o, self).

(** Dynamically typed values, as far as the embedded code stores and
    compares them.  A float is modelled by a rational. *)
#[warnings="-register-all"]
Inductive pyval : Type :=
| PyNone
| PyBool (b : bool)
| PyInt (z : Z)
| PyFloat (q : Q)
| PyStr (s : string)
| PyTuple (l : list pyval)
| PyList (l : list pyval).

(** An insertion-ordered [dict] with string keys. *)
Definition dict (V : Type) : Type := list (string * V).

Definition keys {V} (d : dict V) : list string := map fst d.

Fixpoint get {V} (k : string) (d : dict V) : option V :=
  match d with
  | [] => None
  | (k', v) :: d' => if String.eqb k k' then Some v else get k d'
  end.

(** [d[k] = v]: replaces the value in place when [k] is present, appends
    the item otherwise. *)
Fixpoint set {V} (k : string) (v : V) (d : dict V) : dict V :=
  match d with
  | [] => [(k, v)]
  | (k', v') :: d' =>
      if String.eqb k k' then (k, v) :: d' else (k', v') :: set k v d'
  end.

End Py.

Import Py.

Declare Scope py_scope.
Delimit Scope py_scope with py.
Notation "x <- m ;; k" := (Py.bind m (fun x => k))
  (at level 100, m at next level, k at level 200, right associativity)
  : py_scope.
Notation "m ;; k" := (Py.bind m (fun _ => k))
  (at level 100, k at level 200, right associativity) : py_scope.
Local Open Scope py_scope.

(** ** [CbarBase]: the colorbar state *)

Module Cbar.

Record CbarBase : Type := mkCbarBase {
  (* Cmap/Clim/Vmin/Vmax/Under/Over *)
  _cmap : pyval; _clim : pyval;
  _vmin : pyval; _vmax : pyval;
  _under : pyval; _over : pyval;
  (* Cb text *)
  _cblabel : pyval; _cbtxtsz : pyval; _cbtxtsh : pyval;
  (* Text *)
  _txtcolor : pyval; _txtsz : pyval; _txtsh : pyval; _limtxt : pyval;
  (* Settings *)
  _config : pyval; _name : pyval; _bgcolor : pyval; _border : pyval;
  _bw : pyval; _ndigits : pyval; _width : pyval;
  _minmax : pyval
}.

(** [CbarBase.__init__]; Python supplies the defaults of the arguments
    that a call leaves out ([cmap='viridis'], [clim=(0, 1)], ...). *)
Definition __init__ (config cmap clim vmin vmax under over cblabel cbtxtsz
    cbtxtsh txtcolor txtsz txtsh width border bw limtxt bgcolor ndigits
    name : pyval) : CbarBase :=
  {| _cmap := cmap; _clim := clim; _vmin := vmin; _vmax := vmax;
     _under := under; _over := over;
     _cblabel := cblabel; _cbtxtsz := cbtxtsz; _cbtxtsh := cbtxtsh;
     _txtcolor := txtcolor; _txtsz := txtsz; _txtsh := txtsh;
     _limtxt := limtxt;
     _config := config; _name := name; _bgcolor := bgcolor;
     _border := border; _bw := bw; _ndigits := ndigits; _width := width;
     _minmax := clim |}.

(** The three tuple assignments at the head of [set_data]. *)
Definition assign_mapping (cmap clim vmin vmax under over : pyval)
    (self : CbarBase) : CbarBase :=
  {| _cmap := cmap; _clim := clim; _vmin := vmin; _vmax := vmax;
     _under := under; _over := over;
     _cblabel := _cblabel self; _cbtxtsz := _cbtxtsz self;
     _cbtxtsh := _cbtxtsh self;
     _txtcolor := _txtcolor self; _txtsz := _txtsz self;
     _txtsh := _txtsh self; _limtxt := _limtxt self;
     _config := _config self; _name := _name self;
     _bgcolor := _bgcolor self; _border := _border self; _bw := _bw self;
     _ndigits := _ndigits self; _width := _width self;
     _minmax := _minmax self |}.

Definition assign_minmax (v : pyval) (self : CbarBase) : CbarBase :=
  {| _cmap := _cmap self; _clim := _clim self; _vmin := _vmin self;
     _vmax := _vmax self; _under := _under self; _over := _over self;
     _cblabel := _cblabel self; _cbtxtsz := _cbtxtsz self;
     _cbtxtsh := _cbtxtsh self;
     _txtcolor := _txtcolor self; _txtsz := _txtsz self;
     _txtsh := _txtsh self; _limtxt := _limtxt self;
     _config := _config self; _name := _name self;
     _bgcolor := _bgcolor self; _border := _border self; _bw := _bw self;
     _ndigits := _ndigits self; _width := _width self;
     _minmax := v |}.

Definition assign_clim (v : pyval) (self : CbarBase) : CbarBase :=
  {| _cmap := _cmap self; _clim := v; _vmin := _vmin self;
     _vmax := _vmax self; _under := _under self; _over := _over self;
     _cblabel := _cblabel self; _cbtxtsz := _cbtxtsz self;
     _cbtxtsh := _cbtxtsh self;
     _txtcolor := _txtcolor self; _txtsz := _txtsz self;
     _txtsh := _txtsh self; _limtxt := _limtxt self;
     _config := _config self; _name := _name self;
     _bgcolor := _bgcolor self; _border := _border self; _bw := _bw self;
     _ndigits := _ndigits self; _width := _width self;
     _minmax := _minmax self |}.

(** [data.min()] and [data.max()] of a numpy array of floats: numpy
    refuses the reduction of an array without elements. *)
Definition arr_min (data : list Q) : outcome Q :=
  match data with
  | [] => Raise (ValueError "zero-size array to reduction operation minimum which has no identity")
  | x :: l => Return (fold_left Qmin l x)
  end.

Definition arr_max (data : list Q) : outcome Q :=
  match data with
  | [] => Raise (ValueError "zero-size array to reduction operation maximum which has no identity")
  | x :: l => Return (fold_left Qmax l x)
  end.

(** [CbarBase.set_data(data, cmap=None, clim=None, vmin=None, vmax=None,
    under=None, over=None)]: an argument left out arrives as [PyNone]. *)
Definition set_data (data : list Q)
    (cmap clim vmin vmax under over : pyval) : method CbarBase unit :=
  setattr (assign_mapping cmap clim vmin vmax under over) ;;
  lo <- lift (arr_min data) ;;
  hi <- lift (arr_max data) ;;
  setattr (assign_minmax (PyTuple [PyFloat lo; PyFloat hi])).

(** [CbarBase.autoscale] *)
Definition autoscale : method CbarBase unit :=
  setattr (fun self => assign_clim (_minmax self) self).

(** [CbarBase.to_kwargs] *)
Definition to_kwargs (self : CbarBase) : dict pyval :=
  let kwargs := [] in
  let kwargs := Py.set "cmap" (_cmap self) kwargs in
  let kwargs := Py.set "clim" (_clim self) kwargs in
  let kwargs := Py.set "vmin" (_vmin self) kwargs in
  let kwargs := Py.set "under" (_under self) kwargs in
  let kwargs := Py.set "vmax" (_vmax self) kwargs in
  let kwargs := Py.set "over" (_over self) kwargs in
  kwargs.

(** The parameters of [__init__] with their defaults, in the order of the
    signature. *)
Definition parameters : dict pyval :=
  [("config", PyNone); ("cmap", PyStr "viridis");
   ("clim", PyTuple [PyInt 0; PyInt 1]); ("vmin", PyNone); ("vmax", PyNone);
   ("under", PyStr "gray"); ("over", PyStr "red"); ("cblabel", PyStr "");
   ("cbtxtsz", PyInt 26); ("cbtxtsh", PyFloat (23 # 10));
   ("txtcolor", PyStr "white"); ("txtsz", PyInt 20);
   ("txtsh", PyFloat (12 # 10)); ("width", PyFloat (14 # 100));
   ("border", PyBool true); ("bw", PyFloat 2); ("limtxt", PyBool true);
   ("bgcolor", PyTuple [PyFloat (1 # 10); PyFloat (1 # 10); PyFloat (1 # 10)]);
   ("ndigits", PyInt 2); ("name", PyStr "Colorbar")]%string.

(** The call of [CbarBase] with the keyword arguments [kwargs]: a keyword
    that is no parameter of [__init__] is a [TypeError], and a parameter
    that [kwargs] leaves out takes its default. *)
Definition new (kwargs : dict pyval) : outcome CbarBase :=
  if forallb (fun k => existsb (String.eqb k) (Py.keys parameters))
             (Py.keys kwargs)
  then
    let arg k :=
      match Py.get k kwargs with
      | Some v => v
      | None => default PyNone (Py.get k parameters)
      end in
    Return (__init__ (arg "config") (arg "cmap") (arg "clim") (arg "vmin")
              (arg "vmax") (arg "under") (arg "over") (arg "cblabel")
              (arg "cbtxtsz") (arg "cbtxtsh") (arg "txtcolor") (arg "txtsz")
              (arg "txtsh") (arg "width") (arg "border") (arg "bw")
              (arg "limtxt") (arg "bgcolor") (arg "ndigits") (arg "name"))%string
  else Raise TypeError.

(** The parts of the colour machinery that live in [visbrain.utils.color]:
    [color2tuple(color, float)], which resolves a colour given by name,
    tuple or array to the tuple of its components, and
    [array2colormap(data, **kwargs)], which turns an array into one colour
    per element. *)
Section Colors.

Variables array color : Type.
Variable color2tuple : pyval -> list pyval.
Variable array2colormap : array -> dict pyval -> list color.

(** [CbarBase.to_dict] *)
Definition to_dict (self : CbarBase) : dict pyval :=
  let todict := [] in
  (* cmap/clim/vmin/vmax/under/over *)
  let todict := Py.set "cmap" (_cmap self) todict in
  let todict := Py.set "clim" (_clim self) todict in
  let todict := Py.set "vmin" (_vmin self) todict in
  let todict := Py.set "under" (PyList (color2tuple (_under self))) todict in
  let todict := Py.set "vmax" (_vmax self) todict in
  let todict := Py.set "over" (PyList (color2tuple (_over self))) todict in
  (* Cblabel *)
  let todict := Py.set "cblabel" (_cblabel self) todict in
  let todict := Py.set "cbtxtsz" (_cbtxtsz self) todict in
  let todict := Py.set "cbtxtsh" (_cbtxtsh self) todict in
  (* Text *)
  let todict :=
    Py.set "txtcolor" (PyList (color2tuple (_txtcolor self))) todict in
  let todict := Py.set "txtsz" (_txtsz self) todict in
  let todict := Py.set "txtsh" (_txtsh self) todict in
  (* Settings *)
  let todict := Py.set "border" (_border self) todict in
  let todict := Py.set "bw" (_bw self) todict in
  let todict := Py.set "name" (_name self) todict in
  let todict := Py.set "limtxt" (_limtxt self) todict in
  let todict :=
    Py.set "bgcolor" (PyList (color2tuple (_bgcolor self))) todict in
  let todict := Py.set "ndigits" (_ndigits self) todict in
  let todict := Py.set "width" (_width self) todict in
  todict.

(** The keyword arguments of the colour mapping, in the order in which
    [to_kwargs] stores them. *)
Definition mapping_keys : list string :=
  ["cmap"; "clim"; "vmin"; "under"; "vmax"; "over"]%string.

(** The configuration of the colour mapping that a snapshot of the colorbar
    holds: its entries for the six mapping keys (a key that the snapshot
    lacks is left out, and the call takes its default). *)
Definition mapping_of_snapshot (snapshot : dict pyval) : dict pyval :=
  omap (fun k => match Py.get k snapshot with
                 | Some v => Some (k, v)
                 | None => None
                 end) mapping_keys.

(** The colours of [data] under the configuration that a snapshot holds:
    [array2colormap(data, **config)]. *)
Definition colors_of_snapshot (data : array) (snapshot : dict pyval)
  : list color :=
  array2colormap data (mapping_of_snapshot snapshot).

End Colors.

Arguments colors_of_snapshot {array color} array2colormap data snapshot.

End Cbar.

(** ** numpy arrays *)

Module Np.

(** An [ndarray]: its shape and its elements in row-major order. *)
Record ndarray (A : Type) : Type := mkArray {
  shape : list nat;
  data : list A
}.
Arguments mkArray {A} shape data.
Arguments shape {A} _.
Arguments data {A} _.

Definition ndim {A} (a : ndarray A) : nat := length (shape a).

(** The position that index [i] denotes on an axis of length [n]: a
    negative index counts from the end, and an index outside
    [-n .. n-1] is an [IndexError]. *)
Definition index (n : nat) (i : Z) : outcome nat :=
  if (0 <=? i) && (i <? Z.of_nat n) then Return (Z.to_nat i)
  else if (- Z.of_nat n <=? i) && (i <? 0) then Return (Z.to_nat (i + Z.of_nat n))
  else Raise IndexError.

(** [a[idx] = x] for an array [idx] of integer indices (one axis). *)
Fixpoint set_at {A} (idx : list Z) (x : A) (a : list A) : outcome (list A) :=
  match idx with
  | [] => Return a
  | i :: idx' =>
      match index (length a) i with
      | Return p => set_at idx' x (<[p := x]> a)
      | Raise e => Raise e
      end
  end.

(** Position [i] of an axis of length [n] is among the indices [idx]. *)
Definition indexed (n : nat) (idx : list Z) (i : nat) : bool :=
  existsb (fun j => match index n j with
                    | Return p => Nat.eqb p i
                    | Raise _ => false
                    end) idx.

(** [a[b] = x] for a boolean array [b], which must have the length of
    [a]. *)
Definition set_where {A} (b : list bool) (x : A) (a : list A)
  : outcome (list A) :=
  if Nat.eqb (length b) (length a)
  then Return (zip_with (fun (bi : bool) ai => if bi then x else ai) b a)
  else Raise IndexError.

(** [b.sum()] of a boolean array. *)
Definition count_true (b : list bool) : nat := length (List.filter (fun x : bool => x) b).

(** A masked array ([numpy.ma]): every element carries the flag that
    masks it. *)
Definition MaskedArray : Type := list (Q * bool).

Definition ma_mask (m : MaskedArray) : list bool := map snd m.

(** Element [i] exists and is not masked. *)
Definition valid_at (m : MaskedArray) (i : nat) : bool :=
  match ma_mask m !! i with
  | Some false => true
  | _ => false
  end.

(** The result of a reduction of a masked array: the constant [masked]
    when every element is masked. *)
Inductive ma_scalar : Type :=
| Masked
| Unmasked (q : Q).

Definition compressed (m : MaskedArray) : list Q :=
  map fst (List.filter (fun e : Q * bool => negb (snd e)) m).

Definition ma_reduce (f : Q -> Q -> Q) (m : MaskedArray) : outcome ma_scalar :=
  match m with
  | [] => Raise (ValueError "zero-size array to reduction operation which has no identity")
  | _ :: _ =>
      match compressed m with
      | [] => Return Masked
      | x :: l => Return (Unmasked (fold_left f l x))
      end
  end.

Definition ma_min : MaskedArray -> outcome ma_scalar := ma_reduce Qmin.
Definition ma_max : MaskedArray -> outcome ma_scalar := ma_reduce Qmax.

End Np.

(** ** [Projections]: projection of the sources on a mesh *)

Module Projection.

Import Np.

(** A point of the scene, an RGBA colour. *)
Definition vertex : Type := (Q * Q * Q)%type.
Definition rgba : Type := list Q.

(** The mesh of a registered object: [mesh.get_vertices], and the buffers
    [mesh.mask], [mesh.color] and [mesh.mask_color] that the projection
    writes.  [len(mesh)] is the number of vertices. *)
Record BrainMesh : Type := mkMesh {
  get_vertices : list vertex;
  mask : list Z;
  color : list rgba;
  mask_color : rgba
}.

Definition mesh_len (m : BrainMesh) : nat := length (get_vertices m).

(** A registered object exposes its mesh. *)
Record BrainObj : Type := mkObj { mesh : BrainMesh }.

(** The source object of the scene ([self.sources]).  Its class is not in
    the files embedded here: the projection functions it offers are fields
    of the record, [_minmax] is the range that the projection caches on
    it. *)
Record SourceObj : Type := mkSources {
  project_modulation : list vertex -> pyval -> pyval -> MaskedArray;
  project_repartition : list vertex -> pyval -> pyval -> MaskedArray;
  is_masked : bool;
  get_masked_index : list vertex -> pyval -> pyval -> list Z;
  _minmax : option (ma_scalar * ma_scalar)
}.

Record Projections : Type := mkProjections {
  _proj_obj : dict BrainObj;
  _proj_radius : pyval;
  _proj_on : string;
  _proj_type : string;
  _proj_contribute : pyval;
  _proj_mask_color : rgba;
  _proj_data : option MaskedArray;
  _vsh : option (nat * nat);
  sources : SourceObj;
  cbobjs : dict Cbar.CbarBase
}.

(** Attribute assignments. *)
Definition set_proj_data (d : option MaskedArray) (self : Projections) :=
  {| _proj_obj := _proj_obj self; _proj_radius := _proj_radius self;
     _proj_on := _proj_on self; _proj_type := _proj_type self;
     _proj_contribute := _proj_contribute self;
     _proj_mask_color := _proj_mask_color self;
     _proj_data := d; _vsh := _vsh self;
     sources := sources self; cbobjs := cbobjs self |}.

Definition set_vsh (sh : nat * nat) (self : Projections) :=
  {| _proj_obj := _proj_obj self; _proj_radius := _proj_radius self;
     _proj_on := _proj_on self; _proj_type := _proj_type self;
     _proj_contribute := _proj_contribute self;
     _proj_mask_color := _proj_mask_color self;
     _proj_data := _proj_data self; _vsh := Some sh;
     sources := sources self; cbobjs := cbobjs self |}.

Definition set_sources_minmax (mm : ma_scalar * ma_scalar)
    (self : Projections) :=
  let s := sources self in
  {| _proj_obj := _proj_obj self; _proj_radius := _proj_radius self;
     _proj_on := _proj_on self; _proj_type := _proj_type self;
     _proj_contribute := _proj_contribute self;
     _proj_mask_color := _proj_mask_color self;
     _proj_data := _proj_data self; _vsh := _vsh self;
     sources :=
       {| project_modulation := project_modulation s;
          project_repartition := project_repartition s;
          is_masked := is_masked s;
          get_masked_index := get_masked_index s;
          _minmax := Some mm |};
     cbobjs := cbobjs self |}.

Definition set_proj_obj (d : dict BrainObj) (self : Projections) :=
  {| _proj_obj := d; _proj_radius := _proj_radius self;
     _proj_on := _proj_on self; _proj_type := _proj_type self;
     _proj_contribute := _proj_contribute self;
     _proj_mask_color := _proj_mask_color self;
     _proj_data := _proj_data self; _vsh := _vsh self;
     sources := sources self; cbobjs := cbobjs self |}.

Definition set_proj_on (key : string) (self : Projections) :=
  {| _proj_obj := _proj_obj self; _proj_radius := _proj_radius self;
     _proj_on := key; _proj_type := _proj_type self;
     _proj_contribute := _proj_contribute self;
     _proj_mask_color := _proj_mask_color self;
     _proj_data := _proj_data self; _vsh := _vsh self;
     sources := sources self; cbobjs := cbobjs self |}.

Definition set_mask (x : list Z) (m : BrainMesh) : BrainMesh :=
  {| get_vertices := get_vertices m; mask := x; color := color m;
     mask_color := mask_color m |}.

Definition set_color (x : list rgba) (m : BrainMesh) : BrainMesh :=
  {| get_vertices := get_vertices m; mask := mask m; color := x;
     mask_color := mask_color m |}.

Definition set_mask_color (x : rgba) (m : BrainMesh) : BrainMesh :=
  {| get_vertices := get_vertices m; mask := mask m; color := color m;
     mask_color := x |}.

(** [self._proj_obj[key]] *)
Definition proj_obj_item (key : string) : method Projections BrainObj :=
  fun self =>
    match Py.get key (_proj_obj self) with
    | Some o => (Return o, self)
    | None => (Raise (KeyError key), self)
    end.

(** [self._proj_obj[key].mesh.attr = ...]: the object registered under
    [key] is changed in place. *)
Definition setattr_mesh (key : string) (f : BrainMesh -> BrainMesh)
  : method Projections unit :=
  o <- proj_obj_item key ;;
  setattr (fun self =>
    set_proj_obj (Py.set key {| mesh := f (mesh o) |} (_proj_obj self)) self).

(** [isinstance(x, (int, float))]; [bool] is a subclass of [int]. *)
Definition is_int_or_float (x : pyval) : bool :=
  match x with
  | PyInt _ | PyFloat _ | PyBool _ => true
  | _ => false
  end.

Definition is_proj_type (t : string) : bool :=
  String.eqb t "activity" || String.eqb t "repartition".

Section Methods.

(** [visbrain.utils.array2colormap]; the projection hands [_proj_data]
    to it as it is. *)
Variable array2colormap : option MaskedArray -> dict pyval -> list rgba.

(** The message that the run logs before it projects,
    [log_str.format(...)] with [log_str = "Project {} onto the %s
    (radius=%f contribute=%r" % (self._proj_on, float(self._proj_radius),
    self._proj_contribute)], for the target, the radius, the contribute
    flag and the type of the projection.  The formatting of Python raises
    [OverflowError] on a radius that is too large for a float, and
    [KeyError], [IndexError] or [ValueError] on the braces that the target
    or the representation of the flag bring into [log_str]. *)
Variable log_message : string -> pyval -> pyval -> string -> outcome unit.

(** [Projections.__init__]; [mask_color] is [color2vb(project_mask_color)],
    and [sources] and [cbobjs] are the attributes that the top-level
    [Brain] class brings. *)
Definition __init__ (project_radius : pyval) (project_on : string)
    (project_contribute : pyval) (project_type : string)
    (mask_color : rgba) (srcs : SourceObj) (cbs : dict Cbar.CbarBase)
  : outcome Projections :=
  if negb (is_int_or_float project_radius) then Raise AssertionError
  else if negb (is_proj_type project_type) then Raise AssertionError
  else Return
    {| _proj_obj := []; _proj_radius := project_radius;
       _proj_on := project_on; _proj_type := project_type;
       _proj_contribute := project_contribute;
       _proj_mask_color := mask_color;
       _proj_data := None; _vsh := None;
       sources := srcs; cbobjs := cbs |}.

(** [Projections._get_obj_vertices] *)
Definition _get_obj_vertices (obj : string)
  : method Projections (list vertex) :=
  fun self =>
    match Py.get obj (_proj_obj self) with
    | Some o => (Return (get_vertices (mesh o)), self)
    | None =>
        let lst_obj := String.concat ", " (Py.keys (_proj_obj self)) in
        (Raise (ValueError (obj +:+ " not found. Use : " +:+ lst_obj)), self)
    end.

(** [Projections._clean_source_projection] *)
Definition _clean_source_projection : method Projections unit :=
  setattr (set_proj_data None).

(** [Projections._projection_to_color] *)
Definition _projection_to_color : method Projections unit :=
  fun self =>
    match Py.get "Projection" (cbobjs self) with
    | None => (Raise (KeyError "Projection"), self)
    | Some cb =>
        let kwargs := Cbar.to_kwargs cb in
        let color := array2colormap (_proj_data self) kwargs in
        setattr_mesh (_proj_on self) (set_color color) self
    end.

(** The section MASKED of [_run_source_projection]: the mask array of the
    mesh registered under [on], from the projection [mod_]. *)
Definition masked_section (on : string) (v : list vertex) (c : pyval)
    (mod_ : MaskedArray) : method Projections unit :=
  o <- proj_obj_item on ;;
  let mask := repeat 0 (mesh_len (mesh o)) in
  src <- getattr sources ;;
  mask <-
    (if is_masked src then
       r <- getattr _proj_radius ;;
       let mask_idx := get_masked_index src v r c in
       mask <- lift (set_at mask_idx 2 mask) ;;
       mc <- getattr _proj_mask_color ;;
       setattr_mesh on (set_mask_color mc) ;;
       ret mask
     else ret mask) ;;
  mask <-
    (if (0 <? count_true (ma_mask mod_))%nat
     then lift (set_where (map negb (ma_mask mod_)) 1 mask)
     else ret mask) ;;
  setattr_mesh on (set_mask mask).

(** [Projections._run_source_projection] *)
Definition _run_source_projection : method Projections unit :=
  (* CHECKING *)
  r <- getattr _proj_radius ;;
  assert (is_int_or_float r) ;;
  t <- getattr _proj_type ;;
  assert (is_proj_type t) ;;
  _clean_source_projection ;;
  (* VERTICES *)
  on <- getattr _proj_on ;;
  v <- _get_obj_vertices on ;;
  setattr (set_vsh (length v, 3%nat)) ;;
  (* MODULATIONS *)
  c <- getattr _proj_contribute ;;
  lift (log_message on r c t) ;;
  src <- getattr sources ;;
  let mod_ :=
    if String.eqb t "activity" then project_modulation src v r c
    else project_repartition src v r c in
  setattr (set_proj_data (Some mod_)) ;;
  lo <- lift (ma_min mod_) ;;
  hi <- lift (ma_max mod_) ;;
  setattr (set_sources_minmax (lo, hi)) ;;
  (* MASKED *)
  masked_section on v c mod_ ;;
  (* COLOR *)
  _projection_to_color.

End Methods.

(** The projection that [_run_source_projection] computes on the vertices
    [v]: the activity of the sources, or their repartition. *)
Definition projected (self : Projections) (v : list vertex) : MaskedArray :=
  if String.eqb (_proj_type self) "activity"
  then project_modulation (sources self) v (_proj_radius self)
         (_proj_contribute self)
  else project_repartition (sources self) v (_proj_radius self)
         (_proj_contribute self).

(** The mask array that the section MASKED of [_run_source_projection]
    computes from the projection [md] on the vertices [v]. *)
Definition mask_array (self : Projections) (v : list vertex)
    (md : MaskedArray) : outcome (list Z) :=
  let src := sources self in
  let zeros := repeat 0 (length v) in
  let mask_idx :=
    get_masked_index src v (_proj_radius self) (_proj_contribute self) in
  match (if is_masked src then set_at mask_idx 2 zeros else Return zeros) with
  | Return mask =>
      if (0 <? count_true (ma_mask md))%nat
      then set_where (map negb (ma_mask md)) 1 mask
      else Return mask
  | Raise e => Raise e
  end.

(** The mask of the mesh registered under [key], if any. *)
Definition mask_of (key : string) (self : Projections) : option (list Z) :=
  option_map (fun o => mask (mesh o)) (Py.get key (_proj_obj self)).

(** The colours of the mesh registered under [key], if any. *)
Definition color_of (key : string) (self : Projections)
  : option (list rgba) :=
  option_map (fun o => color (mesh o)) (Py.get key (_proj_obj self)).

End Projection.

(** ** pandas tables *)

Module Pd.

(** [a == b] on the scalars that a table cell holds; a missing value
    equals nothing. *)
Definition cell_eqb (a b : pyval) : bool :=
  match a, b with
  | PyInt x, PyInt y => x =? y
  | PyInt x, PyFloat q | PyFloat q, PyInt x => Qeq_bool (inject_Z x) q
  | PyFloat p, PyFloat q => Qeq_bool p q
  | PyStr s, PyStr t => String.eqb s t
  | PyBool x, PyBool y => Bool.eqb x y
  | _, _ => false
  end.

(** A [Series]: values under names. *)
Definition Series : Type := dict pyval.

(** A [DataFrame]: the column names, the labels of the rows, and the rows,
    each with one cell per column.  A missing cell (NaN or None) is
    [PyNone]. *)
Record DataFrame : Type := mkFrame {
  columns : list string;
  index : list Z;
  rows : list (list pyval)
}.

(** [pd.DataFrame({}, columns=cols)] *)
Definition empty (cols : list string) : DataFrame :=
  {| columns := cols; index := []; rows := [] |}.

(** [pd.DataFrame(d, columns=list(d.keys()))] for a dict of arrays, which
    must have one length. *)
Definition of_dict (d : dict (list pyval)) : outcome DataFrame :=
  let n := match d with [] => O | (_, c) :: _ => length c end in
  if forallb (fun kc => Nat.eqb (length (snd kc)) n) d
  then Return
    {| columns := Py.keys d;
       index := map Z.of_nat (seq 0 n);
       rows := map (fun i => map (fun kc => nth i (snd kc) PyNone) d)
                   (seq 0 n) |}
  else Raise (ValueError "All arrays must be of the same length").

Definition n_rows (df : DataFrame) : nat := length (index df).

(** The labels [0 .. m-1] that the rows of a table take by default. *)
Definition upto (m : nat) : list Z := map Z.of_nat (seq 0 m).

(** [df.iloc[i]]: the row at position [i], as a series. *)
Definition iloc (i : nat) (df : DataFrame) : outcome Series :=
  match rows df !! i with
  | Some r => Return (zip_with pair (columns df) r)
  | None => Raise IndexError
  end.

(** The cells of a new row: the value of the series under the name of
    each column, a missing cell where the series has none; [None] gives a
    row of missing cells. *)
Definition align (cols : list string) (value : option Series)
  : list pyval :=
  map (fun c => match value with
                | Some s => default PyNone (Py.get c s)
                | None => PyNone
                end) cols.

Fixpoint position (k : Z) (labels : list Z) : option nat :=
  match labels with
  | [] => None
  | l :: labels' =>
      if k =? l then Some O else option_map S (position k labels')
  end.

(** [df.loc[k] = value]: overwrites the row labelled [k], and appends a
    row with that label when there is none. *)
Definition loc_set (k : Z) (value : option Series) (df : DataFrame)
  : DataFrame :=
  let r := align (columns df) value in
  match position k (index df) with
  | Some p =>
      {| columns := columns df; index := index df;
         rows := <[p := r]> (rows df) |}
  | None =>
      {| columns := columns df; index := index df ++ [k];
         rows := rows df ++ [r] |}
  end.

(** The cells of row [r] after the assignment of [v] to the column [c]:
    every column of that name takes [v], and a new last column is added
    when there is none. *)
Definition set_cell (cols : list string) (c : string) (v : pyval)
    (r : list pyval) : list pyval :=
  if existsb (String.eqb c) cols
  then zip_with (fun name x => if String.eqb c name then v else x) cols r
  else r ++ [v].

(** [df[c] = values] for a list of values.  A table without rows takes
    the rows of the list; otherwise the list must have one value per
    row. *)
Definition set_column (c : string) (values : list pyval) (df : DataFrame)
  : outcome DataFrame :=
  let df :=
    match index df, values with
    | [], _ :: _ =>
        {| columns := columns df;
           index := map Z.of_nat (seq 0 (length values));
           rows := map (fun _ => map (fun _ => PyNone) (columns df)) values |}
    | _, _ => df
    end in
  if Nat.eqb (length values) (n_rows df)
  then Return
    {| columns := if existsb (String.eqb c) (columns df)
                  then columns df else columns df ++ [c];
       index := index df;
       rows := zip_with (set_cell (columns df) c) values (rows df) |}
  else Raise (ValueError "Length of values does not match length of index").

(** The positions of the columns named [c]. *)
Definition positions (c : string) (cols : list string) : list nat :=
  List.filter (fun i => String.eqb c (nth i cols ""%string))
              (seq 0 (length cols)).

(** [df[names]] for a list of names: the columns of each name, in the
    order of the list. *)
Definition select (names : list string) (df : DataFrame)
  : outcome DataFrame :=
  if forallb (fun c => existsb (String.eqb c) (columns df)) names
  then
    let ps := concat (map (fun c => positions c (columns df)) names) in
    Return
      {| columns := map (fun p => nth p (columns df) ""%string) ps;
         index := index df;
         rows := map (fun r => map (fun p => nth p r PyNone) ps) (rows df) |}
  else Raise (KeyError "not in index").

(** [df[c]] for one name without duplicate. *)
Definition column (c : string) (df : DataFrame) : outcome (list pyval) :=
  match positions c (columns df) with
  | p :: _ => Return (map (fun r => nth p r PyNone) (rows df))
  | [] => Raise (KeyError c)
  end.

Definition map_cells (f : pyval -> pyval) (df : DataFrame) : DataFrame :=
  {| columns := columns df; index := index df;
     rows := map (map f) (rows df) |}.

(** [df.fillna(v, inplace=True)] *)
Definition fillna (v : pyval) : DataFrame -> DataFrame :=
  map_cells (fun x => match x with PyNone => v | _ => x end).

(** [df.replace(k, v, inplace=True)] *)
Definition replace (k v : pyval) : DataFrame -> DataFrame :=
  map_cells (fun x => if cell_eqb x k then v else x).

End Pd.

(** ** [RoiObj]: the labelled volume *)

Module Roi.

Import Np.

(** The array of labels: a plain array, or a structured array with named
    fields. *)
Inductive label_array : Type :=
| PlainLabels (l : list pyval)
| StructLabels (fields : dict (list pyval)).

(** [len(label)] *)
Definition label_len (label : label_array) : nat :=
  match label with
  | PlainLabels l => length l
  | StructLabels [] => O
  | StructLabels ((_, c) :: _) => length c
  end.

(** A surface: vertices, and faces that index them. *)
Definition vertex : Type := (Q * Q * Q)%type.
Definition face : Type := (Z * Z * Z)%type.
Definition rgba : Type := list Q.

Record BrainMesh : Type := mkMesh {
  vertices : list vertex;
  faces : list face;
  mask : pyval;
  color : option (list rgba)
}.

(** An attribute that has not been assigned yet is [None]: reading it
    raises [AttributeError]. *)
Record RoiObj : Type := mkRoi {
  _offset : option Z;
  vol : option (ndarray Z);
  _n_roi : option nat;
  hdr : option (ndarray Q);
  system : option string;
  ref : option Pd.DataFrame;
  analysis : option Pd.DataFrame;
  mesh : option BrainMesh
}.

Definition fresh : RoiObj :=
  {| _offset := None; vol := None; _n_roi := None; hdr := None;
     system := None; ref := None; analysis := None; mesh := None |}.

Definition attr {A} (f : RoiObj -> option A) : method RoiObj A :=
  fun self =>
    match f self with
    | Some a => (Return a, self)
    | None => (Raise AttributeError, self)
    end.

Definition set_offset (x : Z) (self : RoiObj) : RoiObj :=
  {| _offset := Some x; vol := vol self; _n_roi := _n_roi self;
     hdr := hdr self; system := system self; ref := ref self;
     analysis := analysis self; mesh := mesh self |}.

Definition set_vol (x : ndarray Z) (self : RoiObj) : RoiObj :=
  {| _offset := _offset self; vol := Some x; _n_roi := _n_roi self;
     hdr := hdr self; system := system self; ref := ref self;
     analysis := analysis self; mesh := mesh self |}.

Definition set_n_roi (x : nat) (self : RoiObj) : RoiObj :=
  {| _offset := _offset self; vol := vol self; _n_roi := Some x;
     hdr := hdr self; system := system self; ref := ref self;
     analysis := analysis self; mesh := mesh self |}.

Definition set_hdr (x : ndarray Q) (self : RoiObj) : RoiObj :=
  {| _offset := _offset self; vol := vol self; _n_roi := _n_roi self;
     hdr := Some x; system := system self; ref := ref self;
     analysis := analysis self; mesh := mesh self |}.

Definition set_system (x : string) (self : RoiObj) : RoiObj :=
  {| _offset := _offset self; vol := vol self; _n_roi := _n_roi self;
     hdr := hdr self; system := Some x; ref := ref self;
     analysis := analysis self; mesh := mesh self |}.

Definition set_ref (x : Pd.DataFrame) (self : RoiObj) : RoiObj :=
  {| _offset := _offset self; vol := vol self; _n_roi := _n_roi self;
     hdr := hdr self; system := system self; ref := Some x;
     analysis := analysis self; mesh := mesh self |}.

Definition set_analysis (x : Pd.DataFrame) (self : RoiObj) : RoiObj :=
  {| _offset := _offset self; vol := vol self; _n_roi := _n_roi self;
     hdr := hdr self; system := system self; ref := ref self;
     analysis := Some x; mesh := mesh self |}.

Definition set_mesh (x : BrainMesh) (self : RoiObj) : RoiObj :=
  {| _offset := _offset self; vol := vol self; _n_roi := _n_roi self;
     hdr := hdr self; system := system self; ref := ref self;
     analysis := analysis self; mesh := Some x |}.

(** [np.eye(4)] *)
Definition eye4 : ndarray Q :=
  mkArray [4; 4]%nat
    [1; 0; 0; 0;
     0; 1; 0; 0;
     0; 0; 1; 0;
     0; 0; 0; 1]%Q.

(** [a[i, j, k]] for an array of three dimensions. *)
Definition getitem3 {A} (a : ndarray A) (i j k : Z) : outcome A :=
  match shape a with
  | [n0; n1; n2] =>
      match index n0 i, index n1 j, index n2 k with
      | Return p0, Return p1, Return p2 =>
          match data a !! ((p0 * n1 + p1) * n2 + p2)%nat with
          | Some x => Return x
          | None => Raise IndexError
          end
      | _, _, _ => Raise IndexError
      end
  | _ => Raise IndexError
  end.

(** [sh[i]] of the shape tuple. *)
Definition dim (sh : list nat) (i : nat) : outcome Z :=
  match sh !! i with
  | Some n => Return (Z.of_nat n)
  | None => Raise IndexError
  end.

(** The comparison of the shape with an index, one axis after the other
    as [and] evaluates it. *)
Definition compare_shape (cmp : Z -> Z -> bool) (idx : list Z)
  : method RoiObj bool :=
  assert (Nat.eqb (length idx) 3) ;;
  v <- attr vol ;;
  let sh := shape v in
  s0 <- lift (dim sh 0) ;;
  if negb (cmp s0 (nth 0 idx 0)) then ret false else
  s1 <- lift (dim sh 1) ;;
  if negb (cmp s1 (nth 1 idx 0)) then ret false else
  s2 <- lift (dim sh 2) ;;
  ret (cmp s2 (nth 2 idx 0)).

(** [RoiObj.__ge__], [__gt__], [__le__] and [__lt__] *)
Definition __ge__ : list Z -> method RoiObj bool := compare_shape Z.geb.
Definition __gt__ : list Z -> method RoiObj bool := compare_shape Z.gtb.
Definition __le__ : list Z -> method RoiObj bool := compare_shape Z.leb.
Definition __lt__ : list Z -> method RoiObj bool := compare_shape Z.ltb.


(** [RoiObj.__getitem__] for an integer index. *)
Definition __getitem__ (i : nat) : method RoiObj Pd.Series :=
  r <- attr ref ;;
  lift (Pd.iloc i r).

(** [RoiObj._struct_array_to_dict] *)
Definition _struct_array_to_dict (arr : label_array) : dict (list pyval) :=
  match arr with
  | PlainLabels l => [("label"%string, l)]
  | StructLabels fields => fold_left (fun d kc => Py.set (fst kc) (snd kc) d) fields []
  end.

(** The position of the first element that satisfies [p]:
    [np.where(...)[0][0]], if any. *)
Fixpoint first_where {A} (p : A -> bool) (l : list A) : option nat :=
  match l with
  | [] => None
  | x :: l' => if p x then Some O else option_map S (first_where p l')
  end.

(** [RoiObj._find_roi_label] *)
Definition _find_roi_label (vol_idx : Z) : method RoiObj (option Pd.Series) :=
  r <- attr ref ;;
  col <- lift (Pd.column "index" r) ;;
  match first_where (fun x => Pd.cell_eqb x (PyInt vol_idx)) col with
  | Some p => s <- __getitem__ p ;; ret (Some s)
  | None => ret None
  end.

(** [for k, x in enumerate(l, start)] *)
Fixpoint for_each {St A} (body : nat -> A -> method St unit) (start : nat)
    (l : list A) : method St unit :=
  match l with
  | [] => ret tt
  | x :: l' => body start x ;; for_each body (S start) l'
  end.

Definition opt {A} (e : exn) (o : option A) : outcome A :=
  match o with
  | Some a => Return a
  | None => Raise e
  end.

Definition is_predefined (name : string) : bool :=
  existsb (String.eqb name) ["brodmann"; "talairach"; "aal"]%string.

Definition update_analysis (f : Pd.DataFrame -> Pd.DataFrame)
  : method RoiObj unit :=
  a <- attr analysis ;;
  setattr (set_analysis (f a)).

(** [self.analysis[c] = values] *)
Definition analysis_set_column (c : string) (values : list pyval)
  : method RoiObj unit :=
  a <- attr analysis ;;
  a <- lift (Pd.set_column c values a) ;;
  setattr (set_analysis a).

Section Methods.

(** What the methods take from the rest of visbrain, numpy and vispy:
    - [is_pandas_installed()];
    - [load_predefined_roi(name)], the volume, labels, index, transform
      and system of a predefined atlas;
    - [mni2tal(xyz)];
    - [solve_voxel hdr x], the voxel
      [np.round(np.linalg.lstsq(hdr, x)[0][0:-1]).astype(int)] of the
      homogeneous point [x];
    - [smooth_3d(vol, smooth)] and vispy's [isosurface(vol, level=.5)];
    - [random_uniform n], the draw [np.random.uniform(.1, .9, (n, 4))];
    - [as_dtype l x], the element [x] of the list [l] as [np.asarray(l)]
      holds it: numpy converts the elements of a list to one dtype. *)
Variable is_pandas_installed : bool.
Variable load_predefined_roi :
  string -> ndarray Z * label_array * list Z * ndarray Q * string.
Variable mni2tal : list vertex -> list vertex.
Variable solve_voxel : ndarray Q -> list Q -> list Z.
Variable smooth_3d : ndarray Z -> pyval -> ndarray Q.
Variable isosurface : ndarray Q -> list vertex * list face.
Variable random_uniform : nat -> list rgba.
Variable as_dtype : list pyval -> pyval -> pyval.

(** [np.asarray(label)]: a structured array is an array already. *)
Definition asarray (label : label_array) : label_array :=
  match label with
  | PlainLabels l => PlainLabels (map (as_dtype l) l)
  | StructLabels fields => StructLabels fields
  end.

(** [RoiObj.change_roi_object] *)
Definition change_roi_object (name : string) (vol' : option (ndarray Z))
    (label : option label_array) (index' : option (list Z))
    (hdr' : option (ndarray Q)) (system' : string) : method RoiObj unit :=
  (* Test if pandas is installed *)
  if negb is_pandas_installed
  then raise (ImportError "In order to work properly, pandas package should be installed using *pip install pandas*")
  else
  (* PREDEFINED *)
  let '(vol', label, index', hdr', system') :=
    if is_predefined name
    then let '(v, l, i, h, s) := load_predefined_roi name in
         (Some v, Some l, Some i, Some h, s)
    else (vol', label, index', hdr', system') in
  setattr (set_offset (if String.eqb name "talairach" then -1 else 0)) ;;
  (* CHECKING *)
  v <- lift (opt AttributeError vol') ;;
  assert (Nat.eqb (ndim v) 3) ;;
  idx <- lift (opt TypeError index') ;;
  lab <- lift (opt TypeError label) ;;
  assert (Nat.eqb (length idx) (label_len lab)) ;;
  let lab := asarray lab in
  setattr (set_vol v) ;;
  setattr (set_n_roi (length idx)) ;;
  setattr (set_hdr (default eye4 hdr')) ;;
  h <- attr hdr ;;
  assert (bool_decide (shape h = [4; 4]%nat)) ;;
  assert (String.eqb system' "mni" || String.eqb system' "tal") ;;
  setattr (set_system system') ;;
  (* REFERENCE *)
  let label_dict := _struct_array_to_dict lab in
  let label_dict := Py.set "index" (map PyInt idx) label_dict in
  let cols := Py.keys label_dict in
  r <- lift (Pd.of_dict label_dict) ;;
  setattr (set_ref r) ;;
  setattr (set_analysis (Pd.empty cols)).

(** The body of the loop over the sources of [localize_sources]. *)
Definition locate (k : nat) (p : vertex) : method RoiObj unit :=
  let '(x, y, z) := p in
  h <- attr hdr ;;
  (* Apply HDR transformation *)
  let sub := solve_voxel h [x; y; z; 1%Q] in
  (* Find where is the point if inside the volume *)
  inside <- __ge__ sub ;;
  location <-
    (if inside : bool then
       v <- attr vol ;;
       lbl <- lift (getitem3 v (nth 0 sub 0) (nth 1 sub 0) (nth 2 sub 0)) ;;
       off <- attr _offset ;;
       _find_roi_label (lbl + off)
     else ret None) ;;
  update_analysis (Pd.loc_set (Z.of_nat k) location).

(** [RoiObj.localize_sources]; the rows of [xyz] are points, so that the
    check of its shape holds. *)
Definition localize_sources (xyz : list vertex)
    (source_name : option (list string)) (replace_bad : bool)
    (bad_patterns : list pyval) (replace_with : pyval)
  : method RoiObj Pd.DataFrame :=
  let n_sources := length xyz in
  sys <- attr system ;;
  let xyz := if String.eqb sys "tal" then mni2tal xyz else xyz in
  (* Check source_name *)
  let source_name :=
    match source_name with
    | None => map (fun k : nat => "s" +:+ pretty k) (seq 0 n_sources)
    | Some names => names
    end in
  assert (Nat.eqb (length source_name) n_sources) ;;
  (* Loop over sources *)
  (if Nat.eqb (length xyz) n_sources then ret tt
   else raise (ValueError "all the input array dimensions except for the concatenation axis must match exactly")) ;;
  for_each locate 0 xyz ;;
  (* Add Text and (X, Y, Z) to the table *)
  a <- attr analysis ;;
  let new_col : list string :=
    ["Text"%string] ++ Pd.columns a ++ ["X"%string; "Y"%string; "Z"%string] in
  analysis_set_column "Text" (map PyStr source_name) ;;
  analysis_set_column "X" (map (fun p : vertex => PyFloat p.1.1) xyz) ;;
  analysis_set_column "Y" (map (fun p : vertex => PyFloat p.1.2) xyz) ;;
  analysis_set_column "Z" (map (fun p : vertex => PyFloat p.2) xyz) ;;
  a <- attr analysis ;;
  a <- lift (Pd.select new_col a) ;;
  setattr (set_analysis a) ;;
  (if replace_bad then
     (* Replace NaN values *)
     update_analysis (Pd.fillna replace_with) ;;
     (* Replace bad patterns *)
     for_each (fun _ k => update_analysis (Pd.replace k replace_with))
              0 bad_patterns
   else ret tt) ;;
  attr analysis.

(** The defaults of [localize_sources]. *)
Definition default_bad_patterns : list pyval :=
  [PyInt (-1); PyStr "undefined"; PyStr "None"].
Definition default_replace_with : pyval := PyStr "Not found".

(** The value of a voxel after [_get_roi_vertices] has put the voxels that
    [level] rejects to zero. *)
Definition keep_level (level : pyval) (x : Z) : Z :=
  match level with
  | PyInt l => if x =? l then x else 0
  | PyBool b => if x =? (if b then 1 else 0) then x else 0
  | PyFloat q => if Qle_bool (inject_Z x) q then x else 0
  | PyList ks | PyTuple ks =>
      if forallb (fun k => negb (Pd.cell_eqb (PyInt x) k)) ks then 0 else x
  | _ => x
  end.

(** [RoiObj._get_roi_vertices] *)
Definition _get_roi_vertices (vol : ndarray Z) (level smooth : pyval)
  : list vertex * list face :=
  let vol := mkArray (shape vol) (map (keep_level level) (data vol)) in
  isosurface (smooth_3d vol smooth).

Definition flat (fs : list face) : list Z :=
  concat (map (fun f : face => [f.1.1; f.1.2; f.2]) fs).

(** [faces.max()] of an array with elements. *)
Definition faces_max (fs : list face) : Z :=
  match flat fs with
  | [] => 0
  | x :: l => fold_left Z.max l x
  end.

(** [f + d] *)
Definition shift (d : Z) (fs : list face) : list face :=
  map (fun f : face => (f.1.1 + d, f.1.2 + d, f.2 + d)) fs.

(** [col_unique[..., -1] = 1.] on one row. *)
Definition opaque (c : rgba) : rgba := <[pred (length c) := 1%Q]> c.

(** One turn of the loop over the levels of [get_roi_vertices]. *)
Definition add_level (vol : ndarray Z) (smooth : pyval)
    (col_unique : list rgba)
    (acc : list vertex * list face * list rgba) (ik : nat * pyval)
  : list vertex * list face * list rgba :=
  let '(vert, faces, color) := acc in
  let '(i, k) := ik in
  let '(v, f) := _get_roi_vertices vol k smooth in
  (* Concatenate vertices / faces *)
  let faces :=
    match faces with
    | [] => f
    | _ :: _ => faces ++ shift (faces_max faces + 1) f
    end in
  let vert := match vert with [] => v | _ :: _ => vert ++ v end in
  (* Concatenate color *)
  let col := repeat (nth i col_unique []) (length v) in
  let color := match color with [] => col | _ :: _ => color ++ col end in
  (vert, faces, color).

(** The surface that [get_roi_vertices] computes with [unique_color]:
    its locals [vert], [faces] and [color] after the loop. *)
Definition unique_color_surface (vol : ndarray Z) (levels : list pyval)
    (smooth : pyval) : list vertex * list face * list rgba :=
  (* Generate a (n_levels, 4) array of unique colors *)
  let col_unique := map opaque (random_uniform (length levels)) in
  fold_left (add_level vol smooth col_unique)
            (zip_with pair (seq 0 (length levels)) levels) ([], [], []).

(** The elements that [enumerate(level)] goes through. *)
Definition iterate (level : pyval) : outcome (list pyval) :=
  match level with
  | PyList ks | PyTuple ks => Return ks
  | PyStr s => Return (map (fun c => PyStr (String c "")) (list_ascii_of_string s))
  | _ => Raise TypeError
  end.

(** [RoiObj.get_roi_vertices] *)
Definition get_roi_vertices (level : pyval) (unique_color : bool)
    (smooth : pyval) (plot : bool) : method RoiObj unit :=
  (* Get vertices / faces *)
  surface <-
    (if negb unique_color then
       v <- attr vol ;;
       let '(vert, faces) := _get_roi_vertices v level smooth in
       ret (vert, faces, [])
     else
       assert (negb (match level with PyFloat _ => true | _ => false end)) ;;
       levels <-
         lift (match level with
               | PyInt _ | PyBool _ => Return [level]
               | _ => iterate level
               end) ;;
       match levels with
       | [] => ret ([], [], [])
       | _ :: _ =>
           v <- attr vol ;;
           ret (unique_color_surface v levels smooth)
       end) ;;
  let '(vert, faces, color) := surface in
  m <- getattr mesh ;;
  match plot, vert, m with
  | true, _ :: _, None =>
      setattr (set_mesh {| vertices := vert; faces := faces;
                           mask := if unique_color then PyFloat 1 else PyNone;
                           color := if unique_color then Some color
                                    else None |})
  | _, _, _ => ret tt
  end.

End Methods.





(** The object [s'] is the object [s] but for its localization table. *)
Definition same_but_analysis (s s' : RoiObj) : Prop :=
  s' = s \/ exists a, s' = set_analysis a s.

End Roi.

(** ** Collaborators and concrete scenes

    The source object, the colour mapping and the solver of the affine
    transform belong to files that are not embedded above.  The
    definitions of this module stand for them in concrete scenes. *)

Module Scene.

Import Np.

(** *** The colour mapping *)

(** Modelled from the spec: [color2tuple] of [visbrain.utils.color] is
    missing; the serializable snapshot has its colours "resolved to
    concrete RGBA tuples".  A colour that is a sequence of components
    resolves to these components, any other colour through the table
    [named]. *)
Definition color2tuple (named : pyval -> list pyval) (c : pyval)
  : list pyval :=
  match c with
  | PyTuple l | PyList l => l
  | _ => named c
  end.

Definition number (x : pyval) : option Q :=
  match x with
  | PyInt z => Some (inject_Z z)
  | PyFloat q => Some q
  | _ => None
  end.

(** Modelled from the spec: [array2colormap] of [visbrain.utils.color] is
    missing.  "values within clim map through cmap; values below vmin get
    under color; values above vmax get over color; values outside clim are
    clamped for color-scale purposes".  [ramp cmap lo hi x] is the colour
    of the colormap [cmap] for [x] on the scale from [lo] to [hi]. *)
Definition array2colormap (named : pyval -> list pyval)
    (ramp : pyval -> Q -> Q -> Q -> list pyval)
    (values : list Q) (kwargs : dict pyval) : list (list pyval) :=
  let arg k := default PyNone (Py.get k kwargs) in
  let '(lo, hi) :=
    match arg "clim"%string with
    | PyTuple [a; b] | PyList [a; b] =>
        (default 0%Q (number a), default 1%Q (number b))
    | _ => (0%Q, 1%Q)
    end in
  let below x :=
    match number (arg "vmin"%string) with
    | Some m => negb (Qle_bool m x)
    | None => false
    end in
  let above x :=
    match number (arg "vmax"%string) with
    | Some M => negb (Qle_bool x M)
    | None => false
    end in
  map (fun x =>
         if below x then color2tuple named (arg "under"%string)
         else if above x then color2tuple named (arg "over"%string)
         else ramp (arg "cmap"%string) lo hi (Qmax lo (Qmin hi x))) values.

(** A table of two colour names and a grey ramp. *)
Definition named (c : pyval) : list pyval :=
  match c with
  | PyStr "red" => [PyFloat 1; PyFloat 0; PyFloat 0; PyFloat 1]
  | PyStr "gray" => [PyFloat (1 # 2); PyFloat (1 # 2); PyFloat (1 # 2); PyFloat 1]
  | _ => [PyFloat 1; PyFloat 1; PyFloat 1; PyFloat 1]
  end.

Definition grey_ramp (cmap : pyval) (lo hi x : Q) : list pyval :=
  let t := ((x - lo) / (hi - lo))%Q in
  [PyFloat t; PyFloat t; PyFloat t; PyFloat 1].

(** The colorbar that [CbarBase()] builds with its defaults. *)
Definition default_cbar : Cbar.CbarBase :=
  Cbar.__init__ PyNone (PyStr "viridis") (PyTuple [PyInt 0; PyInt 1])
    PyNone PyNone (PyStr "gray") (PyStr "red") (PyStr "")
    (PyInt 26) (PyFloat (23 # 10)) (PyStr "white") (PyInt 20)
    (PyFloat (12 # 10)) (PyFloat (14 # 100)) (PyBool true) (PyFloat 2)
    (PyBool true) (PyTuple [PyFloat (1 # 10); PyFloat (1 # 10); PyFloat (1 # 10)])
    (PyInt 2) (PyStr "Colorbar").

(** *** The source object *)

(** Modelled from the spec: the class of the source object is missing.
    The source set is an "ordered sequence of (3D position, scalar
    activity, is-masked flag) tuples". *)
Definition source : Type := (Projection.vertex * Q * bool)%type.

Definition dist2 (a b : Projection.vertex) : Q :=
  ((a.1.1 - b.1.1) * (a.1.1 - b.1.1) + (a.1.2 - b.1.2) * (a.1.2 - b.1.2)
   + (a.2 - b.2) * (a.2 - b.2))%Q.

(** The source [s] is within the radius [r] of the point [p]. *)
Definition within (r : pyval) (p : Projection.vertex) (s : source) : bool :=
  let r := default 0%Q (number r) in
  Qle_bool (dist2 p s.1.1) (r * r).

Definition Qsum (l : list Q) : Q := fold_right Qplus 0%Q l.

(** Modelled from the spec: "repartition: for each vertex, count
    contributing sources within radius"; the validity mask "marks vertices
    with no contributing source". *)
Definition project_repartition (xyz : list source)
    (v : list Projection.vertex) (r c : pyval) : MaskedArray :=
  map (fun p =>
         let n := length (List.filter (within r p) xyz) in
         (inject_Z (Z.of_nat n), Nat.eqb n 0)) v.

(** Modelled from the spec: "activity: for each vertex, aggregate scalar
    activity from all sources within radius", "invalid where no source is
    within radius". *)
Definition project_modulation (xyz : list source)
    (v : list Projection.vertex) (r c : pyval) : MaskedArray :=
  map (fun p =>
         let near := List.filter (within r p) xyz in
         (Qsum (map (fun s : source => s.1.2) near),
          Nat.eqb (length near) 0)) v.

(** Modelled from the spec: "find vertices reached by those masked
    sources within radius". *)
Definition get_masked_index (xyz : list source)
    (v : list Projection.vertex) (r c : pyval) : list Z :=
  map Z.of_nat
    (List.filter
       (fun i => match v !! i with
                 | Some p => existsb (fun s : source => s.2 && within r p s) xyz
                 | None => false
                 end)
       (seq 0 (length v))).

Definition sources_of (xyz : list source) : Projection.SourceObj :=
  {| Projection.project_modulation := project_modulation xyz;
     Projection.project_repartition := project_repartition xyz;
     Projection.is_masked := existsb (fun s : source => s.2) xyz;
     Projection.get_masked_index := get_masked_index xyz;
     Projection._minmax := None |}.

(** The colours of the projection, as arrays of floats. *)
Definition projection_colormap (d : option MaskedArray)
    (kwargs : dict pyval) : list Projection.rgba :=
  map (map (fun x => default 0%Q (number x)))
      (array2colormap named grey_ramp
         (match d with Some m => map fst m | None => [] end) kwargs).

(** The log message of a run in the scenes below: their target, radius
    and contribute flag bring neither a brace nor an overflow, and the
    formatting returns. *)
Definition log_message (on : string) (r c : pyval) (t : string)
  : outcome unit :=
  Return tt.

(** Four vertices on a line and one source at distance 2 from the first
    vertex only, projected on the mesh registered as ["brain"]. *)
Definition line : list Projection.vertex :=
  [(0, 0, 0); (5, 0, 0); (10, 0, 0); (15, 0, 0)]%Q.

Definition line_mesh : Projection.BrainMesh :=
  {| Projection.get_vertices := line;
     Projection.mask := [0; 0; 0; 0];
     Projection.color := [];
     Projection.mask_color := [1 # 2; 1 # 2; 1 # 2; 1]%Q |}.

Definition line_scene (xyz : list source) (radius : pyval)
    (type : string) : Projection.Projections :=
  {| Projection._proj_obj := [("brain"%string, {| Projection.mesh := line_mesh |})];
     Projection._proj_radius := radius;
     Projection._proj_on := "brain";
     Projection._proj_type := type;
     Projection._proj_contribute := PyBool false;
     Projection._proj_mask_color := [1; 1 # 2; 0; 1]%Q;
     Projection._proj_data := None;
     Projection._vsh := None;
     Projection.sources := sources_of xyz;
     Projection.cbobjs := [("Projection"%string, default_cbar)] |}.

Definition one_source : list source := [((-2, 0, 0), 1, false)]%Q.

(** The same line with a masked source and one more source next to the
    last vertex. *)
Definition three_sources : list source :=
  [((-2, 0, 0), 1, false); ((16, 0, 0), 1, true); ((14, 0, 0), 1, false)]%Q.

(** *** The labelled volume *)

(** [np.round(x).astype(int)]: to the nearest integer, a half to the even
    one. *)
Definition np_round (q : Q) : Z :=
  let f := Qfloor q in
  match ((q - inject_Z f) ?= (1 # 2))%Q with
  | Lt => f
  | Gt => f + 1
  | Eq => if Z.even f then f else f + 1
  end.

(** The voxel of a point under the transform [np.eye(4)], for which the
    least-squares solution is the point itself. *)
Definition identity_voxel (h : ndarray Q) (x : list Q) : list Z :=
  map np_round (take 3 x).

(** A volume of shape (10, 10, 10) filled with the label 1, except for
    the voxel (5, 5, 5), which has the label 2; its labels are "A" for 1
    and "B" for 2. *)
Definition vol10 : ndarray Z :=
  mkArray [10; 10; 10]%nat (<[555%nat := 2]> (repeat 1 1000)).

Definition labels10 : Roi.label_array :=
  Roi.PlainLabels [PyStr "A"; PyStr "B"].

(** [np.asarray] on the labels of the scenes below: they are strings, and
    the array holds them as they are. *)
Definition as_dtype (l : list pyval) (x : pyval) : pyval := x.

Definition no_atlas (name : string)
  : ndarray Z * Roi.label_array * list Z * ndarray Q * string :=
  (mkArray [0; 0; 0]%nat [], Roi.PlainLabels [], [], Roi.eye4, "mni"%string).

(** [RoiObj('custom', vol=vol10, label=labels10, index=[1, 2])] *)
Definition load10 : method Roi.RoiObj unit :=
  Roi.change_roi_object true no_atlas as_dtype "custom"
    (Some vol10) (Some labels10)
    (Some [1; 2]) None "mni".

Definition roi10 : Roi.RoiObj := snd (load10 Roi.fresh).





(** [localize_sources(xyz)] with its defaults. *)
Definition localize (xyz : list Roi.vertex)
  : method Roi.RoiObj Pd.DataFrame :=
  Roi.localize_sources (fun x => x) identity_voxel xyz None true
    Roi.default_bad_patterns Roi.default_replace_with.



(** *** The serializable snapshot *)

(** [np.around(x, 2)] on a component of a colour. *)
Definition around2 (x : pyval) : pyval :=
  match x with
  | PyFloat q => PyFloat (Qred (inject_Z (np_round (q * 100)) / 100))
  | PyInt z => PyFloat (inject_Z z)
  | _ => x
  end.

(** [color2tuple(color, float)] of [visbrain.utils.color], which is not
    among the files embedded above, with its defaults [rmalpha=True] and
    [roundto=2]: the red, green and blue components of the colour, rounded
    to two digits; the alpha component is left out. *)
Definition rgb_digits (c : pyval) : list pyval :=
  map around2 (take 3 (color2tuple named c)).

(** The colours of the mapping as RGBA: a colour that is given by three
    components is opaque. *)
Definition with_alpha (c : list pyval) : list pyval :=
  match c with
  | [r; g; b] => [r; g; b; PyFloat 1]
  | _ => c
  end.

Definition rgba_colormap (values : list Q) (kwargs : dict pyval)
  : list (list pyval) :=
  map with_alpha (array2colormap named grey_ramp values kwargs).

(** The default colorbar after [vmin=0.], [vmax=1.] and a translucent
    [under=(.1, .2, .3, .5)] have been assigned. *)
Definition translucent_cbar : Cbar.CbarBase :=
  Cbar.assign_mapping (PyStr "viridis") (PyTuple [PyInt 0; PyInt 1])
    (PyFloat 0) (PyFloat 1)
    (PyTuple [PyFloat (1 # 10); PyFloat (1 # 5); PyFloat (3 # 10);
              PyFloat (1 # 2)])
    (PyStr "red") default_cbar.




End Scene.

(** ** [visbrain/utils/others.py]: utility functions *)

Module Others.

Import Stdlib.Strings.Ascii.

(** [msg[-1]] *)
Fixpoint last_char (msg : string) : option ascii :=
  match msg with
  | EmptyString => None
  | String c EmptyString => Some c
  | String _ msg' => last_char msg'
  end.

(** [Profiler._new_msg] *)
Definition _new_msg (msg : string) : outcome string :=
  match last_char msg with
  | None => Raise IndexError
  | Some c => Return (msg +:+ (if Ascii.eqb c " "%char then "" else " "))
  end.

(** The state of the [logging] module that [set_log_level] works on: the
    formats of the handlers of the root logger, and the level of the logger
    ['visbrain']. *)
Record Logging : Type := mkLogging {
  root_handlers : list string;
  level : Z
}.

(** [logging.basicConfig(format=format)]: configures the root logger when
    it has no handler yet. *)
Definition basicConfig (format : string) (log : Logging) : Logging :=
  match root_handlers log with
  | [] => {| root_handlers := [format]; level := level log |}
  | _ :: _ => log
  end.

(** [logger.setLevel(verbose)] *)
Definition setLevel (verbose : Z) (log : Logging) : Logging :=
  {| root_handlers := root_handlers log; level := verbose |}.

Definition logging_types : dict Z :=
  [("DEBUG", 10); ("INFO", 20); ("WARNING", 30); ("ERROR", 40);
   ("CRITICAL", 50)]%string.

Section SetLogLevel.

(** [str.upper] *)
Variable upper : string -> string.

(** [set_log_level(verbose)] *)
Definition set_log_level (verbose : pyval) : method Logging unit :=
  let verbose :=
    match verbose with
    | PyBool b => PyStr (if b then "INFO" else "WARNING")
    | _ => verbose
    end in
  match verbose with
  | PyStr s =>
      let verbose := upper s in
      match Py.get verbose logging_types with
      | None => raise (ValueError "verbose must be of a valid type")
      | Some verbose =>
          let format := "%(levelname)s : %(message)s"%string in
          setattr (basicConfig format) ;;
          setattr (setLevel verbose)
      end
  | _ => ret tt
  end.

End SetLogLevel.

(** [str.upper] on the letters of ASCII. *)
Fixpoint ascii_upper (s : string) : string :=
  match s with
  | EmptyString => EmptyString
  | String c s' =>
      let n := nat_of_ascii c in
      String (if (97 <=? n)%nat && (n <=? 122)%nat
              then ascii_of_nat (n - 32) else c)
             (ascii_upper s')
  end.

End Others.

(** * Properties *)

(** ** The colorbar state *)

Section FoldSelect.

(** A binary choice that selects one of its operands, folded over a
    list, returns an element that is related to every other one. *)
Context {T : Type}.
Variable pick : T -> T -> T.
Variable rel : T -> T -> Prop.
Hypothesis pick_selects : forall x y, pick x y = x \/ pick x y = y.
Hypothesis pick_l : forall x y, rel (pick x y) x.
Hypothesis pick_r : forall x y, rel (pick x y) y.
Hypothesis rel_trans : forall x y z, rel x y -> rel y z -> rel x z.

Lemma fold_pick_In (l : list T) (x : T) :
  In (fold_left pick l x) (x :: l).
Proof.
  revert x. induction l as [|y l IH]; intros x; simpl.
  - now left.
  - destruct (IH (pick x y)) as [H|H].
    + destruct (pick_selects x y) as [E|E]; rewrite E in *; auto.
    + auto.
Qed.

Lemma fold_pick_init (l : list T) (x : T) :
  rel (fold_left pick l x) x.
Proof.
  revert x. induction l as [|y l IH]; intros x; simpl.
  - destruct (pick_selects x x) as [E|E]; rewrite <- E at 1; apply pick_l.
  - eapply rel_trans; [apply IH | apply pick_l].
Qed.

Lemma fold_pick_bound (l : list T) (x y : T) :
  In y (x :: l) -> rel (fold_left pick l x) y.
Proof.
  revert x. induction l as [|z l IH]; intros x [E|H].
  - subst. apply fold_pick_init.
  - destruct H.
  - subst. apply fold_pick_init.
  - simpl. destruct H as [E|H].
    + subst. eapply rel_trans; [apply fold_pick_init | apply pick_r].
    + apply IH. now right.
Qed.

End FoldSelect.

Lemma Qmin_selects (x y : Q) : Qmin x y = x \/ Qmin x y = y.
Proof.
  unfold Qmin, GenericMinMax.gmin. destruct (x ?= y)%Q; auto.
Qed.

Lemma Qmax_selects (x y : Q) : Qmax x y = x \/ Qmax x y = y.
Proof.
  unfold Qmax, GenericMinMax.gmax. destruct (x ?= y)%Q; auto.
Qed.

(** [data.min()] is an element of [data] below all the others. *)
Lemma arr_min_least (data : list Q) (lo : Q) :
  Cbar.arr_min data = Return lo ->
  In lo data /\ forall x, In x data -> (lo <= x)%Q.
Proof.
  destruct data as [|x l]; simpl; intros H; [discriminate|].
  injection H as <-. split.
  - apply fold_pick_In, Qmin_selects.
  - intros y Hy.
    apply (fold_pick_bound Qmin Qle Qmin_selects Q.le_min_l Q.le_min_r
             Qle_trans l x y Hy).
Qed.

(** [data.max()] is an element of [data] above all the others. *)
Lemma arr_max_greatest (data : list Q) (hi : Q) :
  Cbar.arr_max data = Return hi ->
  In hi data /\ forall x, In x data -> (x <= hi)%Q.
Proof.
  destruct data as [|x l]; simpl; intros H; [discriminate|].
  injection H as <-. split.
  - apply fold_pick_In, Qmax_selects.
  - intros y Hy.
    apply (fold_pick_bound Qmax (fun a b => (b <= a)%Q) Qmax_selects
             Q.le_max_l Q.le_max_r
             (fun a b c H1 H2 => Qle_trans _ _ _ H2 H1) l x y Hy).
Qed.

(** C8.  For every data array with elements, [set_data(data, ...)] returns
    and leaves the pair [(data.min(), data.max())] in the cached range
    [_minmax], where [data.min()] is a least and [data.max()] a greatest
    element of the array; [autoscale()] after it returns and makes the
    active [_clim] that very pair. *)
Theorem set_data_autoscale_range
    (data : list Q) (cmap clim vmin vmax under over : pyval)
    (self : Cbar.CbarBase) :
  data <> [] ->
  exists lo hi self' self'',
    Cbar.arr_min data = Return lo /\
    Cbar.arr_max data = Return hi /\
    (In lo data /\ forall x, In x data -> (lo <= x)%Q) /\
    (In hi data /\ forall x, In x data -> (x <= hi)%Q) /\
    Cbar.set_data data cmap clim vmin vmax under over self
      = (Return tt, self') /\
    Cbar._minmax self' = PyTuple [PyFloat lo; PyFloat hi] /\
    Cbar.autoscale self' = (Return tt, self'') /\
    Cbar._clim self'' = PyTuple [PyFloat lo; PyFloat hi] /\
    Cbar._minmax self'' = PyTuple [PyFloat lo; PyFloat hi].
Proof.
  intros Hdata. destruct data as [|x l]; [congruence|].
  destruct (Cbar.arr_min (x :: l)) as [lo|] eqn:Hlo; [|discriminate].
  destruct (Cbar.arr_max (x :: l)) as [hi|] eqn:Hhi; [|discriminate].
  exists lo, hi. eexists. eexists.
  split; [reflexivity|]. split; [reflexivity|].
  split; [now apply arr_min_least|]. split; [now apply arr_max_greatest|].
  unfold Cbar.set_data, Cbar.autoscale, Py.bind, Py.setattr, Py.lift.
  rewrite Hlo, Hhi. simpl. repeat split; reflexivity.
Qed.

Lemma set_data_autoscale_range_witness :
  [3; 1; 2]%Q <> [] /\
  exists lo hi self' self'',
    Cbar.arr_min [3; 1; 2]%Q = Return lo /\
    Cbar.arr_max [3; 1; 2]%Q = Return hi /\
    (In lo [3; 1; 2]%Q /\ forall x, In x [3; 1; 2]%Q -> (lo <= x)%Q) /\
    (In hi [3; 1; 2]%Q /\ forall x, In x [3; 1; 2]%Q -> (x <= hi)%Q) /\
    Cbar.set_data [3; 1; 2]%Q (PyStr "plasma") PyNone PyNone PyNone PyNone
      PyNone Scene.default_cbar = (Return tt, self') /\
    Cbar._minmax self' = PyTuple [PyFloat lo; PyFloat hi] /\
    Cbar.autoscale self' = (Return tt, self'') /\
    Cbar._clim self'' = PyTuple [PyFloat lo; PyFloat hi] /\
    Cbar._minmax self'' = PyTuple [PyFloat lo; PyFloat hi].
Proof.
  split; [discriminate|].
  apply (set_data_autoscale_range [3; 1; 2]%Q). discriminate.
Defined.

(** The range that [set_data] caches on this array. *)
Example set_data_example :
  Cbar._minmax
    (snd (Cbar.set_data [3; 1; 2]%Q PyNone PyNone PyNone PyNone PyNone PyNone
            Scene.default_cbar))
  = PyTuple [PyFloat 1; PyFloat 3].
Proof. reflexivity. Qed.

(** C10.  Whatever the colorbar held, after [set_data] the six fields
    [_cmap], [_clim], [_vmin], [_vmax], [_under] and [_over] are the
    arguments of the call, also when the call raises on an array without
    elements: an argument that the call leaves out, which arrives as
    [None], puts [None] in its field.  The text and style fields keep
    their values, and [_minmax] alone comes from the data. *)
Theorem set_data_overwrites_mapping
    (data : list Q) (cmap clim vmin vmax under over : pyval)
    (self : Cbar.CbarBase) :
  let after := snd (Cbar.set_data data cmap clim vmin vmax under over self) in
  let omitted :=
    snd (Cbar.set_data data PyNone PyNone PyNone PyNone PyNone PyNone self) in
  (Cbar._cmap after = cmap /\ Cbar._clim after = clim /\
   Cbar._vmin after = vmin /\ Cbar._vmax after = vmax /\
   Cbar._under after = under /\ Cbar._over after = over) /\
  (Cbar._cmap omitted = PyNone /\ Cbar._clim omitted = PyNone /\
   Cbar._vmin omitted = PyNone /\ Cbar._vmax omitted = PyNone /\
   Cbar._under omitted = PyNone /\ Cbar._over omitted = PyNone) /\
  Cbar._minmax after =
    match Cbar.arr_min data, Cbar.arr_max data with
    | Return lo, Return hi => PyTuple [PyFloat lo; PyFloat hi]
    | _, _ => Cbar._minmax self
    end /\
  (Cbar._cblabel after = Cbar._cblabel self /\
   Cbar._cbtxtsz after = Cbar._cbtxtsz self /\
   Cbar._cbtxtsh after = Cbar._cbtxtsh self /\
   Cbar._txtcolor after = Cbar._txtcolor self /\
   Cbar._txtsz after = Cbar._txtsz self /\
   Cbar._txtsh after = Cbar._txtsh self /\
   Cbar._limtxt after = Cbar._limtxt self /\
   Cbar._config after = Cbar._config self /\
   Cbar._name after = Cbar._name self /\
   Cbar._bgcolor after = Cbar._bgcolor self /\
   Cbar._border after = Cbar._border self /\
   Cbar._bw after = Cbar._bw self /\
   Cbar._ndigits after = Cbar._ndigits self /\
   Cbar._width after = Cbar._width self).
Proof.
  unfold Cbar.set_data, Py.bind, Py.setattr, Py.lift.
  destruct data as [|x l]; simpl; repeat split; reflexivity.
Qed.

(** A colorbar configured with the defaults of [CbarBase()] loses its
    colormap, limits and colours to a bare [set_data(data)]. *)
Example set_data_forgets_defaults :
  let after :=
    snd (Cbar.set_data [3; 1; 2]%Q PyNone PyNone PyNone PyNone PyNone PyNone
           Scene.default_cbar) in
  Cbar._cmap Scene.default_cbar = PyStr "viridis" /\
  Cbar._cmap after = PyNone /\ Cbar._clim after = PyNone /\
  Cbar._under after = PyNone /\ Cbar._over after = PyNone.
Proof. repeat split; reflexivity. Qed.

(** Reading a [dict] after an assignment. *)
Lemma get_set_eq {V} (k : string) (v : V) (d : dict V) :
  Py.get k (Py.set k v d) = Some v.
Proof.
  induction d as [|[k' v'] d IH]; simpl.
  - now rewrite String.eqb_refl.
  - destruct (String.eqb k k') eqn:E; simpl.
    + now rewrite String.eqb_refl.
    + now rewrite E.
Qed.

Lemma get_set_ne {V} (k k' : string) (v : V) (d : dict V) :
  k <> k' -> Py.get k' (Py.set k v d) = Py.get k' d.
Proof.
  intros Hne. induction d as [|[k0 v0] d IH]; simpl.
  - destruct (String.eqb k' k) eqn:E; [|reflexivity].
    apply String.eqb_eq in E. congruence.
  - destruct (String.eqb k k0) eqn:E; simpl.
    + apply String.eqb_eq in E. subst k0.
      destruct (String.eqb k' k) eqn:E'; [|reflexivity].
      apply String.eqb_eq in E'. congruence.
    + now rewrite IH.
Qed.

Lemma set_set {V} (k : string) (v w : V) (d : dict V) :
  Py.set k w (Py.set k v d) = Py.set k w d.
Proof.
  induction d as [|[k' v'] d IH]; simpl.
  - now rewrite String.eqb_refl.
  - destruct (String.eqb k k') eqn:E; simpl.
    + now rewrite String.eqb_refl.
    + now rewrite E, IH.
Qed.

(** C9 (amended).  The snapshot [to_kwargs()], which the projection hands
    to the colour mapping, holds [cmap], [clim], [vmin], [under], [vmax]
    and [over] as the colorbar has them: the configuration built from it
    gives every input the colours of the colorbar itself, and so does the
    colorbar that [CbarBase] builds from its entries.  The serializable
    snapshot [to_dict()] keeps [cmap], [clim], [vmin] and [vmax], and holds
    for [under] and [over] the list that [color2tuple] returns: the
    configuration built from it maps with these lists for colours. *)
Theorem export_round_trip_snapshots {array color : Type}
    (color2tuple : pyval -> list pyval)
    (array2colormap : array -> dict pyval -> list color)
    (self : Cbar.CbarBase) (data : array) :
  let config (under over : pyval) : dict pyval :=
    [("cmap", Cbar._cmap self); ("clim", Cbar._clim self);
     ("vmin", Cbar._vmin self); ("under", under);
     ("vmax", Cbar._vmax self); ("over", over)]%string in
  Cbar.to_kwargs self = config (Cbar._under self) (Cbar._over self) /\
  Cbar.colors_of_snapshot array2colormap data (Cbar.to_kwargs self)
  = array2colormap data (config (Cbar._under self) (Cbar._over self)) /\
  (exists cb,
     Cbar.new (Cbar.to_kwargs self) = Return cb /\
     Cbar.to_kwargs cb = Cbar.to_kwargs self /\
     Cbar.colors_of_snapshot array2colormap data (Cbar.to_kwargs cb)
     = array2colormap data (config (Cbar._under self) (Cbar._over self))) /\
  Cbar.colors_of_snapshot array2colormap data (Cbar.to_dict color2tuple self)
  = array2colormap data
      (config (PyList (color2tuple (Cbar._under self)))
              (PyList (color2tuple (Cbar._over self)))).
Proof.
  intros config. subst config. cbv beta.
  split; [reflexivity|]. split; [reflexivity|]. split; [|reflexivity].
  eexists. split; [reflexivity|]. split; reflexivity.
Qed.

(** The snapshot [to_kwargs()] of a colorbar with [vmin], [vmax] and a
    translucent colour for the values under [vmin], on a value under
    [vmin], a value of the range and a value over [vmax]. *)
Example export_round_trip_example :
  Cbar.colors_of_snapshot Scene.rgba_colormap [-1; 1 # 2; 2]%Q
    (Cbar.to_kwargs Scene.translucent_cbar)
  = [[PyFloat (1 # 10); PyFloat (1 # 5); PyFloat (3 # 10); PyFloat (1 # 2)];
     [PyFloat (1 # 2); PyFloat (1 # 2); PyFloat (1 # 2); PyFloat 1];
     [PyFloat 1; PyFloat 0; PyFloat 0; PyFloat 1]].
Proof. vm_compute. reflexivity. Qed.

(** C9, as stated, fails on the serializable snapshot.  [color2tuple]
    leaves the alpha component of a colour out: for a colorbar with the
    translucent colour (0.1, 0.2, 0.3, 0.5) under [vmin = 0], the snapshot
    [to_dict()] holds [0.1, 0.2, 0.3], and the value -1 gets this colour,
    opaque, from the configuration of the snapshot, where the colorbar
    itself gives it the translucent one. *)
Lemma export_resolved_counterexample :
  let cb := Scene.translucent_cbar in
  let snapshot := Cbar.to_dict Scene.rgb_digits cb in
  Py.get "under" (Cbar.to_kwargs cb)
  = Some (PyTuple [PyFloat (1 # 10); PyFloat (1 # 5); PyFloat (3 # 10);
                   PyFloat (1 # 2)]) /\
  Py.get "under" snapshot
  = Some (PyList [PyFloat (1 # 10); PyFloat (1 # 5); PyFloat (3 # 10)]) /\
  Scene.rgba_colormap [-1]%Q (Cbar.to_kwargs cb)
  = [[PyFloat (1 # 10); PyFloat (1 # 5); PyFloat (3 # 10); PyFloat (1 # 2)]] /\
  Cbar.colors_of_snapshot Scene.rgba_colormap [-1]%Q snapshot
  = [[PyFloat (1 # 10); PyFloat (1 # 5); PyFloat (3 # 10); PyFloat 1]] /\
  Cbar.colors_of_snapshot Scene.rgba_colormap [-1]%Q snapshot
  <> Scene.rgba_colormap [-1]%Q (Cbar.to_kwargs cb).
Proof.
  vm_compute. repeat split; try reflexivity. discriminate.
Qed.

(** ** The projection *)

Lemma append_nil_r (s : string) : s +:+ "" = s.
Proof.
  induction s as [|a s' IH]; [reflexivity|].
  change (String a (s' +:+ "") = String a s'). now f_equal.
Qed.

Lemma append_assoc (s1 s2 s3 : string) :
  (s1 +:+ s2) +:+ s3 = s1 +:+ s2 +:+ s3.
Proof.
  induction s1 as [|a s' IH]; [reflexivity|].
  change (String a ((s' +:+ s2) +:+ s3) = String a (s' +:+ s2 +:+ s3)).
  now f_equal.
Qed.

(** A key of a list of strings occurs in their concatenation. *)
Lemma concat_lists (sep k : string) (ks : list string) :
  In k ks ->
  exists pre post, String.concat sep ks = pre +:+ k +:+ post.
Proof.
  induction ks as [|k0 ks IH]; intros Hin; [destruct Hin|].
  destruct Hin as [->|Hin].
  - destruct ks as [|k1 ks].
    + exists ""%string, ""%string. simpl.
      now rewrite append_nil_r.
    + exists ""%string, (sep +:+ String.concat sep (k1 :: ks)). reflexivity.
  - destruct (IH Hin) as (pre & post & E).
    destruct ks as [|k1 ks]; [destruct Hin|].
    exists (k0 +:+ sep +:+ pre), post.
    change (String.concat sep (k0 :: k1 :: ks))
      with (k0 +:+ sep +:+ String.concat sep (k1 :: ks)).
    rewrite E. now rewrite !append_assoc.
Qed.

(** C6.  With a checked radius and type, the lookup of a registered id
    returns the vertices of the mesh of that object.  For an id that is
    not registered the lookup raises a [ValueError] whose message is the
    id, [" not found. Use : "] and the registered ids joined by [", "], so
    that every registered id occurs in it; [_run_source_projection] on
    such a target raises this error and leaves the registered objects,
    hence the mask and colour buffers of every mesh, as they were. *)
Theorem get_obj_vertices_lookup
    (array2colormap : option Np.MaskedArray -> dict pyval -> list Projection.rgba)
    (log_message : string -> pyval -> pyval -> string -> outcome unit)
    (self : Projection.Projections) (obj : string) :
  Projection.is_int_or_float (Projection._proj_radius self) = true ->
  Projection.is_proj_type (Projection._proj_type self) = true ->
  let objs := Projection._proj_obj self in
  let msg := obj +:+ " not found. Use : " +:+ String.concat ", " (Py.keys objs) in
  match Py.get obj objs with
  | Some o =>
      Projection._get_obj_vertices obj self
      = (Return (Projection.get_vertices (Projection.mesh o)), self)
  | None =>
      Projection._get_obj_vertices obj self = (Raise (ValueError msg), self) /\
      (forall k, In k (Py.keys objs) ->
         exists pre post,
           msg = obj +:+ " not found. Use : " +:+ pre +:+ k +:+ post) /\
      let after :=
        Projection._run_source_projection array2colormap log_message
          (Projection.set_proj_on obj self) in
      fst after = Raise (ValueError msg) /\
      Projection._proj_obj (snd after) = objs
  end.
Proof.
  intros Hr Ht objs msg.
  destruct (Py.get obj objs) as [o|] eqn:Hget.
  - unfold Projection._get_obj_vertices. fold objs. now rewrite Hget.
  - split; [|split].
    + unfold Projection._get_obj_vertices. fold objs. now rewrite Hget.
    + intros k Hk. destruct (concat_lists ", " k _ Hk) as (pre & post & E).
      exists pre, post. unfold msg. now rewrite E.
    + unfold Projection._run_source_projection, Py.bind, Py.getattr,
        Py.assert, Projection._clean_source_projection, Py.setattr.
      cbn. rewrite Hr. cbn. rewrite Ht. cbn.
      unfold Projection._get_obj_vertices. cbn. fold objs.
      rewrite Hget. split; reflexivity.
Qed.

Lemma get_obj_vertices_lookup_witness :
  let self := Scene.line_scene Scene.one_source (PyInt 3) "repartition" in
  Projection.is_int_or_float (Projection._proj_radius self) = true /\
  Projection.is_proj_type (Projection._proj_type self) = true /\
  Projection._get_obj_vertices "roi" self
  = (Raise (ValueError "roi not found. Use : brain"), self) /\
  (forall k, In k ["brain"%string] ->
     exists pre post,
       "roi not found. Use : brain"%string
       = "roi" +:+ " not found. Use : " +:+ pre +:+ k +:+ post) /\
  fst (Projection._run_source_projection Scene.projection_colormap
        Scene.log_message
         (Projection.set_proj_on "roi" self))
  = Raise (ValueError "roi not found. Use : brain") /\
  Projection._proj_obj
    (snd (Projection._run_source_projection Scene.projection_colormap
          Scene.log_message
            (Projection.set_proj_on "roi" self)))
  = [("brain"%string, {| Projection.mesh := Scene.line_mesh |})].
Proof.
  intros self. split; [reflexivity|]. split; [reflexivity|].
  pose proof (get_obj_vertices_lookup Scene.projection_colormap
        Scene.log_message self "roi"
                eq_refl eq_refl) as H.
  cbv beta zeta in H. change (Py.get "roi" (Projection._proj_obj self))
    with (@None Projection.BrainObj) in H.
  destruct H as (H1 & H2 & H3 & H4).
  split; [exact H1|]. split; [exact H2|]. split; [exact H3 | exact H4].
Defined.

(** The lookup of the registered mesh of the scene. *)
Example get_obj_vertices_registered :
  fst (Projection._get_obj_vertices "brain"
         (Scene.line_scene Scene.one_source (PyInt 3) "repartition"))
  = Return Scene.line.
Proof. reflexivity. Qed.

(** *** Running a method step by step *)

Section Exec.

Context {St A B : Type}.

Lemma bind_unfold (m : method St A) (k : A -> method St B) (s : St) :
  Py.bind m k s
  = match m s with
    | (Return a, s') => k a s'
    | (Raise e, s') => (Raise e, s')
    end.
Proof. reflexivity. Qed.

Lemma bind_assoc {C} (m : method St A) (f : A -> method St B)
    (k : B -> method St C) (s : St) :
  Py.bind (Py.bind m f) k s = Py.bind m (fun x => Py.bind (f x) k) s.
Proof. unfold Py.bind. destruct (m s) as [[a|e] s']; reflexivity. Qed.

End Exec.

(** The scrutinee [b] holds no other case distinction. *)
Ltac atomic b :=
  lazymatch b with
  | context [if _ then _ else _] => fail
  | context [match _ with Some _ => _ | None => _ end] => fail
  | context [match _ with Return _ => _ | Raise _ => _ end] => fail
  | _ => idtac
  end.

(** Case distinction on a test, lookup or outcome that blocks the run. *)
Ltac split1 :=
  match goal with
  | |- context [if ?b then _ else _] => atomic b; destruct b eqn:?
  | |- context [match ?o with Some _ => _ | None => _ end] =>
      atomic o; destruct o eqn:?
  | |- context [match ?o with Return _ => _ | Raise _ => _ end] =>
      atomic o; destruct o eqn:?
  end.

(** Rewriting with the equations that earlier case distinctions left. *)
Ltac use_eqs :=
  repeat match goal with
         | H : ?l = _ |- context [?l] => rewrite H
         end.

(** Reduction of the attribute reads and writes of a [Projections]. *)
Ltac norm :=
  unfold Projection.mesh_len;
  cbn beta iota zeta delta
    [fst snd negb Projection.set_proj_data Projection.set_vsh
     Projection.set_sources_minmax Projection.set_proj_obj
     Projection.set_proj_on Projection._proj_obj
     Projection._proj_radius Projection._proj_on Projection._proj_type
     Projection._proj_contribute Projection._proj_mask_color
     Projection._proj_data Projection._vsh Projection.sources
     Projection.cbobjs Projection.project_modulation
     Projection.project_repartition Projection.is_masked
     Projection.get_masked_index Projection._minmax Projection.mesh
     Projection.get_vertices Projection.mask Projection.color
     Projection.mask_color Projection.set_mask Projection.set_color
     Projection.set_mask_color].

Ltac exec1 := first [rewrite bind_assoc | rewrite bind_unfold]; norm.

Ltac unfold_methods :=
  unfold Projection.masked_section, Projection._projection_to_color,
    Projection.setattr_mesh, Projection.proj_obj_item,
    Projection._get_obj_vertices, Projection._clean_source_projection,
    Py.getattr, Py.setattr, Py.assert, Py.lift, Py.ret, Py.raise.

(** The run of a method in a goal [m self = (o, self') -> _], up to the
    pairs of outcome and object that it can end with. *)
Ltac first_run :=
  repeat (lazymatch goal with
          | |- (_, _) = _ -> _ => fail
          | _ => first [exec1 | progress rewrite ?get_set_eq
                       | progress use_eqs | split1]; norm
          end).

(** The run of a method along the equations of an earlier run. *)
Ltac run_along :=
  unfold_methods; norm;
  repeat (first [exec1 | progress use_eqs | progress rewrite ?get_set_eq];
          norm).

(** The object that one projection leaves is a fixed point of the
    projection. *)
Lemma run_twice
    (array2colormap : option Np.MaskedArray -> dict pyval -> list Projection.rgba)
    (log_message : string -> pyval -> pyval -> string -> outcome unit)
    (self : Projection.Projections) :
  Projection._run_source_projection array2colormap log_message
    (snd (Projection._run_source_projection array2colormap log_message self))
  = Projection._run_source_projection array2colormap log_message self.
Proof.
  destruct (Projection._run_source_projection array2colormap log_message self)
    as [o1 s1] eqn:H1.
  cbn [snd]. revert H1.
  destruct self as [objs r on t c mc d vsh [pm pr im gmi mm] cbs].
  unfold Projection._run_source_projection at 1. unfold_methods.
  first_run.
  all: let H := fresh in
       intros H; injection H as <- <-;
       unfold Projection._run_source_projection; run_along;
       rewrite ?set_set; reflexivity.
Qed.

(** C4.  A second [_run_source_projection] on the object that a first one
    left, with the registered objects, the sources, the colorbar, the
    radius, the contribute flag and the type unchanged, ends as the first
    (it returns, or raises the same exception), and leaves the mask array
    and the colour array of the target mesh, and the whole object, as the
    first left them. *)
Theorem run_projection_idempotent
    (array2colormap : option Np.MaskedArray -> dict pyval -> list Projection.rgba)
    (log_message : string -> pyval -> pyval -> string -> outcome unit)
    (self : Projection.Projections) :
  let run := Projection._run_source_projection array2colormap log_message in
  let once := run self in
  let twice := run (snd once) in
  let on := Projection._proj_on self in
  fst twice = fst once /\
  Projection.mask_of on (snd twice) = Projection.mask_of on (snd once) /\
  Projection.color_of on (snd twice) = Projection.color_of on (snd once) /\
  snd twice = snd once.
Proof.
  intros run once twice on. unfold twice, once, run.
  rewrite run_twice. repeat split; reflexivity.
Qed.

(** Two projections of the scene with a masked source. *)
Example run_projection_twice :
  let run := Projection._run_source_projection Scene.projection_colormap
        Scene.log_message in
  let once := run (Scene.line_scene Scene.three_sources (PyInt 3) "activity") in
  fst once = Return tt /\
  Projection.mask_of "brain" (snd once) = Some [1; 0; 0; 1] /\
  Projection.mask_of "brain" (snd (run (snd once))) = Some [1; 0; 0; 1].
Proof. vm_compute. repeat split; reflexivity. Qed.

(** *** The mask array *)

Lemma length_zeros {A} (x : A) (n : nat) : length (repeat x n) = n.
Proof. induction n as [|n IH]; simpl; congruence. Qed.

Lemma lookup_zeros {A} (x : A) (n i : nat) :
  (i < n)%nat -> repeat x n !! i = Some x.
Proof.
  revert i. induction n as [|n IH]; intros [|i] Hi; simpl; try lia; auto.
  apply IH. lia.
Qed.

Lemma index_bound (n : nat) (j : Z) (p : nat) :
  Np.index n j = Return p -> (p < n)%nat.
Proof.
  unfold Np.index.
  destruct ((0 <=? j) && (j <? Z.of_nat n)) eqn:E1.
  - intros H. injection H as <-. apply andb_prop in E1 as [H1 H2]. lia.
  - destruct ((- Z.of_nat n <=? j) && (j <? 0)) eqn:E2; [|discriminate].
    intros H. injection H as <-. apply andb_prop in E2 as [H1 H2]. lia.
Qed.

(** [a[idx] = x] leaves an array of the same length that holds [x] at the
    positions that [idx] denotes, and the elements of [a] elsewhere. *)
Lemma set_at_spec {A} (idx : list Z) (x : A) (a r : list A) :
  Np.set_at idx x a = Return r ->
  length r = length a /\
  forall i, r !! i = if Np.indexed (length a) idx i then Some x else a !! i.
Proof.
  revert a. induction idx as [|j idx IH]; intros a; simpl.
  - intros H. injection H as <-. auto.
  - destruct (Np.index (length a) j) as [p|e] eqn:Hp; [|discriminate].
    intros H. apply IH in H as [Hlen Hget].
    rewrite length_insert in Hlen, Hget. split; [exact Hlen|].
    intros i. rewrite Hget.
    destruct (Nat.eqb p i) eqn:Hpi; simpl.
    + apply Nat.eqb_eq in Hpi. subst i.
      destruct (Np.indexed (length a) idx p); [reflexivity|].
      apply list_lookup_insert_eq. eapply index_bound; eauto.
    + apply Nat.eqb_neq in Hpi.
      destruct (Np.indexed (length a) idx i); [reflexivity|].
      now apply list_lookup_insert_ne.
Qed.

(** [a[b] = x] returns when [b] has the length of [a], and leaves [x]
    where [b] holds and the elements of [a] elsewhere. *)
Lemma set_where_spec {A} (b : list bool) (x : A) (a r : list A) :
  Np.set_where b x a = Return r ->
  length b = length a /\ length r = length a /\
  forall (i : nat) (bi : bool) (ai : A),
    b !! i = Some bi -> a !! i = Some ai ->
    r !! i = Some (if bi then x else ai).
Proof.
  unfold Np.set_where.
  destruct (Nat.eqb (length b) (length a)) eqn:E; [|discriminate].
  apply Nat.eqb_eq in E. intros H. injection H as <-.
  split; [exact E|]. split.
  - rewrite length_zip_with. lia.
  - intros i bi ai Hb Ha. rewrite lookup_zip_with, Hb, Ha. reflexivity.
Qed.

(** What a projection that returns has computed: the projection [md] on
    the vertices of the target mesh, and the mask array of that mesh. *)
Lemma run_returns_mask
    (array2colormap : option Np.MaskedArray -> dict pyval -> list Projection.rgba)
    (log_message : string -> pyval -> pyval -> string -> outcome unit)
    (self self' : Projection.Projections) :
  Projection._run_source_projection array2colormap log_message self = (Return tt, self') ->
  exists o m,
    Py.get (Projection._proj_on self) (Projection._proj_obj self) = Some o /\
    Projection.mask_array self (Projection.get_vertices (Projection.mesh o))
      (Projection.projected self (Projection.get_vertices (Projection.mesh o)))
    = Return m /\
    Projection.mask_of (Projection._proj_on self) self' = Some m /\
    Projection._proj_data self'
    = Some (Projection.projected self
              (Projection.get_vertices (Projection.mesh o))).
Proof.
  revert self'.
  destruct self as [objs r on t c mc d vsh [pm pr im gmi mm] cbs].
  intros self'.
  unfold Projection._run_source_projection. unfold_methods.
  first_run.
  all: let H := fresh in intros H; try discriminate H; injection H as <-.
  all: match goal with
       | Ho : Py.get _ _ = Some ?b |- _ => exists b
       end.
  all: eexists; split; [use_eqs; reflexivity|].
  all: unfold Projection.mask_array, Projection.mask_of, Projection.projected.
  all: norm; use_eqs; norm.
  all: split; [use_eqs; reflexivity|].
  all: rewrite ?get_set_eq; split; reflexivity.
Qed.

(** The mask array after the masked indices: 2 at the vertices that the
    indices denote, 0 elsewhere. *)
Lemma masked_stage (masked : bool) (idx : list Z) (n : nat) (m1 : list Z) :
  (if masked then Np.set_at idx 2 (repeat 0 n) else Return (repeat 0 n))
  = Return m1 ->
  length m1 = n /\
  forall i, (i < n)%nat ->
    m1 !! i = Some (if masked && Np.indexed n idx i then 2 else 0).
Proof.
  destruct masked; simpl.
  - intros H. apply set_at_spec in H as [Hlen Hget].
    rewrite length_zeros in Hlen, Hget. split; [exact Hlen|].
    intros i Hi. rewrite Hget.
    destruct (Np.indexed n idx i); [reflexivity|]. now apply lookup_zeros.
  - intros H. injection H as <-. split; [apply length_zeros|].
    intros i Hi. now apply lookup_zeros.
Qed.

(** The mask array that [mask_array] returns, vertex by vertex. *)
Lemma mask_array_rule (self : Projection.Projections)
    (v : list Projection.vertex) (md : Np.MaskedArray) (m : list Z) :
  Projection.mask_array self v md = Return m ->
  length m = length v /\
  forall i, (i < length v)%nat ->
    m !! i =
    Some (if (0 <? Np.count_true (Np.ma_mask md))%nat && Np.valid_at md i
          then 1
          else if Projection.is_masked (Projection.sources self)
                  && Np.indexed (length v)
                       (Projection.get_masked_index (Projection.sources self)
                          v (Projection._proj_radius self)
                          (Projection._proj_contribute self)) i
               then 2 else 0).
Proof.
  unfold Projection.mask_array.
  set (idx := Projection.get_masked_index _ _ _ _).
  set (masked := Projection.is_masked _).
  destruct (if masked then _ else _) as [m1|e] eqn:H1; [|discriminate].
  apply masked_stage in H1 as [Hlen1 Hget1].
  destruct (0 <? Np.count_true (Np.ma_mask md))%nat eqn:Hcount; simpl.
  - intros H. apply set_where_spec in H as (Hlenb & Hlen & Hget).
    split; [congruence|]. intros i Hi.
    rewrite length_map in Hlenb.
    assert (Hb : is_Some (Np.ma_mask md !! i))
      by (apply lookup_lt_is_Some; lia).
    destruct Hb as [b Hb].
    assert (Hnb : map negb (Np.ma_mask md) !! i = Some (negb b)).
    { change (map negb (Np.ma_mask md)) with (negb <$> Np.ma_mask md).
      now rewrite list_lookup_fmap, Hb. }
    rewrite (Hget i (negb b) _ Hnb (Hget1 i Hi)).
    unfold Np.valid_at. rewrite Hb. now destruct b.
  - intros H. injection H as <-. split; [exact Hlen1|].
    intros i Hi. now apply Hget1.
Qed.

(** C1 (amended).  After [_run_source_projection] has returned, the mask
    array of the target mesh has one element per vertex.  When the
    validity mask of the projection is True for at least one vertex, the
    element is 1 for every vertex where it is False, that is, for every
    vertex that has a contributing source, whether a masked source reaches
    the vertex or not.  Every other vertex has 2 if the source set has
    masked sources and the vertex is among their masked indices, and 0
    otherwise.  In particular, when no vertex receives any contribution,
    no vertex has 1: each has 0 or 2. *)
Theorem projection_mask_rule
    (array2colormap : option Np.MaskedArray -> dict pyval -> list Projection.rgba)
    (log_message : string -> pyval -> pyval -> string -> outcome unit)
    (self self' : Projection.Projections) :
  Projection._run_source_projection array2colormap log_message self = (Return tt, self') ->
  exists o m,
    Py.get (Projection._proj_on self) (Projection._proj_obj self) = Some o /\
    Projection.mask_of (Projection._proj_on self) self' = Some m /\
    let v := Projection.get_vertices (Projection.mesh o) in
    let md := Projection.projected self v in
    let src := Projection.sources self in
    let mask_idx :=
      Projection.get_masked_index src v (Projection._proj_radius self)
        (Projection._proj_contribute self) in
    Projection._proj_data self' = Some md /\
    length m = length v /\
    (forall i, (i < length v)%nat ->
       m !! i =
       Some (if (0 <? Np.count_true (Np.ma_mask md))%nat && Np.valid_at md i
             then 1
             else if Projection.is_masked src
                     && Np.indexed (length v) mask_idx i
                  then 2 else 0)) /\
    ((forall i, (i < length v)%nat -> Np.valid_at md i = false) ->
     forall i, (i < length v)%nat -> m !! i = Some 0 \/ m !! i = Some 2).
Proof.
  intros Hrun.
  destruct (run_returns_mask _ _ _ _ Hrun) as (o & m & Ho & Hm & Hmask & Hdata).
  exists o, m. split; [exact Ho|]. split; [exact Hmask|].
  apply mask_array_rule in Hm as [Hlen Hrule].
  split; [exact Hdata|]. split; [exact Hlen|]. split; [exact Hrule|].
  intros Hnone i Hi. rewrite (Hrule i Hi), (Hnone i Hi), andb_false_r.
  destruct (_ && _); auto.
Qed.

Lemma projection_mask_rule_witness :
  let self := Scene.line_scene Scene.three_sources (PyInt 3) "activity" in
  let self' :=
    snd (Projection._run_source_projection Scene.projection_colormap
          Scene.log_message self) in
  Projection._run_source_projection Scene.projection_colormap
        Scene.log_message self
  = (Return tt, self') /\
  exists o m,
    Py.get (Projection._proj_on self) (Projection._proj_obj self) = Some o /\
    Projection.mask_of (Projection._proj_on self) self' = Some m /\
    let v := Projection.get_vertices (Projection.mesh o) in
    let md := Projection.projected self v in
    let src := Projection.sources self in
    let mask_idx :=
      Projection.get_masked_index src v (Projection._proj_radius self)
        (Projection._proj_contribute self) in
    Projection._proj_data self' = Some md /\
    length m = length v /\
    (forall i, (i < length v)%nat ->
       m !! i =
       Some (if (0 <? Np.count_true (Np.ma_mask md))%nat && Np.valid_at md i
             then 1
             else if Projection.is_masked src
                     && Np.indexed (length v) mask_idx i
                  then 2 else 0)) /\
    ((forall i, (i < length v)%nat -> Np.valid_at md i = false) ->
     forall i, (i < length v)%nat -> m !! i = Some 0 \/ m !! i = Some 2).
Proof.
  intros self self'.
  assert (Hrun : Projection._run_source_projection Scene.projection_colormap
        Scene.log_message
                   self = (Return tt, self')).
  { unfold self'.
    rewrite (surjective_pairing
               (Projection._run_source_projection Scene.projection_colormap
                     Scene.log_message
                  self)) at 1.
    f_equal; try (vm_compute; reflexivity). }
  split; [exact Hrun|].
  exact (projection_mask_rule Scene.projection_colormap
        Scene.log_message self self' Hrun).
Defined.

(** C1, as stated, fails on the line of four vertices with one source at
    distance 2 of the first vertex and the radius 1: the projection
    returns, its validity mask is True for the four vertices, no vertex
    receives a contribution, and the mask array is 0 for the four
    vertices, not 1. *)
Lemma uncontributed_mask_counterexample :
  let self := Scene.line_scene Scene.one_source (PyInt 1) "repartition" in
  let after :=
    Projection._run_source_projection Scene.projection_colormap
          Scene.log_message self in
  fst after = Return tt /\
  option_map Np.ma_mask (Projection._proj_data (snd after))
  = Some [true; true; true; true] /\
  Projection.mask_of "brain" (snd after) = Some [0; 0; 0; 0] /\
  Projection.mask_of "brain" (snd after) <> Some [1; 1; 1; 1].
Proof.
  vm_compute. repeat split; try reflexivity. discriminate.
Qed.

(** With the radius 3 the source reaches the first vertex alone, and the
    mask array has 1 for that vertex and 0 for the vertices without
    contribution. *)
Example contributed_mask_example :
  let self := Scene.line_scene Scene.one_source (PyInt 3) "repartition" in
  let after :=
    Projection._run_source_projection Scene.projection_colormap
          Scene.log_message self in
  Projection._proj_data (snd after)
  = Some [(1, false); (0, true); (0, true); (0, true)]%Q /\
  Projection.mask_of "brain" (snd after) = Some [1; 0; 0; 0].
Proof. vm_compute. split; reflexivity. Qed.

(** A vertex that a masked source and another source reach has 1, not 2;
    with a radius that lets the sources reach every vertex, the validity
    mask is False everywhere and the masked vertices keep 2. *)
Example masked_mask_example :
  let run := Projection._run_source_projection Scene.projection_colormap
        Scene.log_message in
  Np.indexed 4
    (Scene.get_masked_index Scene.three_sources Scene.line (PyInt 3)
       (PyBool false)) 3 = true /\
  Projection.mask_of "brain"
    (snd (run (Scene.line_scene Scene.three_sources (PyInt 3) "activity")))
  = Some [1; 0; 0; 1] /\
  Projection.mask_of "brain"
    (snd (run (Scene.line_scene Scene.three_sources (PyInt 20) "activity")))
  = Some [2; 2; 2; 2].
Proof. vm_compute. repeat split; reflexivity. Qed.

(** ** The labelled volume *)

(** *** Loading *)


(** The check of the affine comes after three assignments: when it
    fails, the object holds the volume, the ROI count and the affine of the
    call. *)
Lemma change_roi_object_bad_affine
    (load_predefined_roi :
       string -> Np.ndarray Z * Roi.label_array * list Z * Np.ndarray Q * string)
    (as_dtype : list pyval -> pyval -> pyval)
    (name : string) (v : Np.ndarray Z) (lab : Roi.label_array)
    (idx : list Z) (h : Np.ndarray Q) (system' : string)
    (self : Roi.RoiObj) :
  Roi.is_predefined name = false ->
  Np.ndim v = 3%nat -> length idx = Roi.label_len lab ->
  Np.shape h <> [4; 4]%nat ->
  let after :=
    Roi.change_roi_object true load_predefined_roi as_dtype
      name (Some v) (Some lab)
      (Some idx) (Some h) system' self in
  Roi.vol (snd after) = Some v /\
  Roi._n_roi (snd after) = Some (length idx) /\
  Roi.hdr (snd after) = Some h.
Proof.
  intros Hname Hdim Hlen Hshape after. subst after.
  apply Nat.eqb_eq in Hdim. apply Nat.eqb_eq in Hlen.
  unfold Roi.change_roi_object. rewrite Hname. cbn [negb].
  unfold Py.bind, Py.setattr, Py.lift, Py.assert, Py.ret, Py.raise, Roi.opt,
    Roi.attr.
  rewrite Hdim. cbn. rewrite Hlen. cbn.
  rewrite bool_decide_eq_false_2 by exact Hshape.
  cbn. repeat split; reflexivity.
Qed.



(** *** Localization *)

(** The test [self >= sub] of [localize_sources] on a volume of three
    dimensions: every component of the voxel is at most the dimension of
    its axis.  A negative component passes it, and so does a component
    that equals the dimension. *)
Lemma ge_volume (self : Roi.RoiObj) (v : Np.ndarray Z) (n0 n1 n2 : nat)
    (i j k : Z) :
  Roi.vol self = Some v -> Np.shape v = [n0; n1; n2] ->
  Roi.__ge__ [i; j; k] self
  = (Return ((i <=? Z.of_nat n0) && (j <=? Z.of_nat n1) && (k <=? Z.of_nat n2)),
     self).
Proof.
  intros Hv Hsh.
  unfold Roi.__ge__, Roi.compare_shape, Py.bind, Py.assert, Py.ret, Py.lift,
    Roi.attr, Roi.dim.
  cbn. rewrite Hv, Hsh. cbn. rewrite !Z.geb_leb.
  destruct (i <=? Z.of_nat n0); cbn; [|reflexivity].
  destruct (j <=? Z.of_nat n1); cbn; reflexivity.
Qed.

(** An index that equals the length of its axis denotes no position. *)
Lemma index_at_length (n : nat) : Np.index n (Z.of_nat n) = Raise IndexError.
Proof.
  unfold Np.index.
  replace (Z.of_nat n <? Z.of_nat n) with false by (symmetry; apply Z.ltb_irrefl).
  rewrite andb_false_r.
  destruct (Z.ltb_spec (Z.of_nat n) 0) as [H|H]; [lia|].
  now rewrite andb_false_r.
Qed.

(** A negative index denotes the position that it counts from the end. *)
Lemma index_negative (n : nat) (i : Z) :
  - Z.of_nat n <= i < 0 -> Np.index n i = Np.index n (i + Z.of_nat n).
Proof.
  intros H. unfold Np.index.
  destruct (Z.leb_spec 0 i) as [H0|H0]; [lia|]. cbn [andb].
  destruct (Z.leb_spec (- Z.of_nat n) i) as [H1|H1]; [|lia].
  destruct (Z.ltb_spec i 0) as [H2|H2]; [|lia]. cbn [andb].
  destruct (Z.leb_spec 0 (i + Z.of_nat n)) as [H3|H3]; [|lia].
  destruct (Z.ltb_spec (i + Z.of_nat n) (Z.of_nat n)) as [H4|H4]; [|lia].
  reflexivity.
Qed.

Section Locate.

Variable solve_voxel : Np.ndarray Q -> list Q -> list Z.

(** [locate] once the affine has given the voxel [i, j, k] of the point,
    on a volume of three dimensions. *)
Lemma locate_voxel (row : nat) (x y z : Q) (self : Roi.RoiObj)
    (h : Np.ndarray Q) (v : Np.ndarray Z) (n0 n1 n2 : nat) (i j k : Z) :
  Roi.hdr self = Some h -> Roi.vol self = Some v ->
  Np.shape v = [n0; n1; n2] ->
  solve_voxel h [x; y; z; 1%Q] = [i; j; k] ->
  Roi.locate solve_voxel row (x, y, z) self
  = (location <-
       (if (i <=? Z.of_nat n0) && (j <=? Z.of_nat n1) && (k <=? Z.of_nat n2)
        then
          lbl <- lift (Roi.getitem3 v i j k) ;;
          off <- Roi.attr Roi._offset ;;
          Roi._find_roi_label (lbl + off)
        else ret None) ;;
     Roi.update_analysis (Pd.loc_set (Z.of_nat row) location)) self.
Proof.
  intros Hh Hv Hsh Hsub.
  unfold Roi.locate. rewrite bind_unfold.
  unfold Roi.attr at 1. rewrite Hh, Hsub.
  rewrite bind_unfold, (ge_volume self v n0 n1 n2 i j k Hv Hsh).
  destruct ((i <=? Z.of_nat n0) && (j <=? Z.of_nat n1) && (k <=? Z.of_nat n2));
    [|reflexivity].
  rewrite bind_assoc, bind_assoc, (bind_unfold (Roi.attr Roi.vol)).
  unfold Roi.attr at 1. rewrite Hv. cbn [nth].
  symmetry. now rewrite bind_assoc.
Qed.

(** X25.  A voxel with a component that equals the dimension of its axis, and
    no component beyond: the test lets it through and the read of the
    volume raises. *)
Lemma locate_at_dimension (row : nat) (x y z : Q) (self : Roi.RoiObj)
    (h : Np.ndarray Q) (v : Np.ndarray Z) (n0 n1 n2 : nat) (i j k : Z) :
  Roi.hdr self = Some h -> Roi.vol self = Some v ->
  Np.shape v = [n0; n1; n2] ->
  solve_voxel h [x; y; z; 1%Q] = [i; j; k] ->
  i <= Z.of_nat n0 -> j <= Z.of_nat n1 -> k <= Z.of_nat n2 ->
  i = Z.of_nat n0 \/ j = Z.of_nat n1 \/ k = Z.of_nat n2 ->
  Roi.locate solve_voxel row (x, y, z) self = (Raise IndexError, self).
Proof.
  intros Hh Hv Hsh Hsub Hi Hj Hk Hat.
  rewrite (locate_voxel row x y z self h v n0 n1 n2 i j k Hh Hv Hsh Hsub).
  apply Z.leb_le in Hi, Hj, Hk. rewrite Hi, Hj, Hk. cbn [andb].
  rewrite !bind_assoc, bind_unfold. unfold Py.lift, Roi.getitem3.
  rewrite Hsh.
  destruct Hat as [-> | [-> | ->]]; rewrite index_at_length.
  - reflexivity.
  - now destruct (Np.index n0 i).
  - destruct (Np.index n0 i); [|reflexivity]. now destruct (Np.index n1 j).
Qed.

(** X26.  A voxel with a negative first component is located as the voxel that
    the component denotes from the end of the axis. *)
Lemma locate_negative (row : nat) (x y z x' : Q) (self : Roi.RoiObj)
    (h : Np.ndarray Q) (v : Np.ndarray Z) (n0 n1 n2 : nat) (i j k : Z) :
  Roi.hdr self = Some h -> Roi.vol self = Some v ->
  Np.shape v = [n0; n1; n2] ->
  solve_voxel h [x; y; z; 1%Q] = [i; j; k] ->
  solve_voxel h [x'; y; z; 1%Q] = [i + Z.of_nat n0; j; k] ->
  - Z.of_nat n0 <= i < 0 ->
  Roi.locate solve_voxel row (x, y, z) self
  = Roi.locate solve_voxel row (x', y, z) self.
Proof.
  intros Hh Hv Hsh Hsub Hsub' Hi.
  rewrite (locate_voxel row x y z self h v n0 n1 n2 _ _ _ Hh Hv Hsh Hsub).
  rewrite (locate_voxel row x' y z self h v n0 n1 n2 _ _ _ Hh Hv Hsh Hsub').
  replace (i <=? Z.of_nat n0) with true by (symmetry; apply Z.leb_le; lia).
  replace (i + Z.of_nat n0 <=? Z.of_nat n0) with true
    by (symmetry; apply Z.leb_le; lia).
  unfold Roi.getitem3. rewrite Hsh.
  now rewrite (index_negative n0 i Hi).
Qed.

(** X24.  A voxel with a component beyond the dimension of its axis gets the
    row of missing cells, which the end of [localize_sources] fills with
    the sentinel. *)
Lemma locate_beyond (row : nat) (x y z : Q) (self : Roi.RoiObj)
    (h : Np.ndarray Q) (v : Np.ndarray Z) (n0 n1 n2 : nat) (i j k : Z) :
  Roi.hdr self = Some h -> Roi.vol self = Some v ->
  Np.shape v = [n0; n1; n2] ->
  solve_voxel h [x; y; z; 1%Q] = [i; j; k] ->
  Z.of_nat n0 < i \/ Z.of_nat n1 < j \/ Z.of_nat n2 < k ->
  Roi.locate solve_voxel row (x, y, z) self
  = Roi.update_analysis (Pd.loc_set (Z.of_nat row) None) self.
Proof.
  intros Hh Hv Hsh Hsub Hout.
  rewrite (locate_voxel row x y z self h v n0 n1 n2 i j k Hh Hv Hsh Hsub).
  replace ((i <=? Z.of_nat n0) && (j <=? Z.of_nat n1) && (k <=? Z.of_nat n2))
    with false; [reflexivity|].
  symmetry. rewrite !andb_false_iff, !Z.leb_gt. tauto.
Qed.

End Locate.

(** C2, on the volume of shape (10, 10, 10) with the identity transform.
    A point whose voxel has a component equal to the dimension makes
    [localize_sources] raise [IndexError]; a point whose voxel has a
    negative component gets the label of the voxel that the negative index
    denotes from the end of the axis; a point whose voxel has a component
    beyond the dimension gets the sentinel. *)
Theorem localize_at_the_bounds :
  fst (Scene.localize [(10, 5, 5)]%Q Scene.roi10) = Raise IndexError /\
  fst (Scene.localize [(-1, 5, 5)]%Q Scene.roi10)
  = Return
      {| Pd.columns := ["Text"; "label"; "index"; "X"; "Y"; "Z"]%string;
         Pd.index := [0];
         Pd.rows := [[PyStr "s0"; PyStr "A"; PyInt 1; PyStr "Not found";
                      PyFloat 5; PyFloat 5]] |} /\
  fst (Scene.localize [(11, 5, 5)]%Q Scene.roi10)
  = Return
      {| Pd.columns := ["Text"; "label"; "index"; "X"; "Y"; "Z"]%string;
         Pd.index := [0];
         Pd.rows := [[PyStr "s0"; PyStr "Not found"; PyStr "Not found";
                      PyFloat 11; PyFloat 5; PyFloat 5]] |}.
Proof. vm_compute. repeat split; reflexivity. Qed.

(** Inside the volume the labels are those of the voxels. *)
Example localize_inside :
  fst (Scene.localize [(5, 5, 5); (1, 2, 3)]%Q Scene.roi10)
  = Return
      {| Pd.columns := ["Text"; "label"; "index"; "X"; "Y"; "Z"]%string;
         Pd.index := [0; 1];
         Pd.rows := [[PyStr "s0"; PyStr "B"; PyInt 2; PyFloat 5; PyFloat 5;
                      PyFloat 5];
                     [PyStr "s1"; PyStr "A"; PyInt 1; PyFloat 1; PyFloat 2;
                      PyFloat 3]] |}.
Proof. vm_compute. reflexivity. Qed.

(** *** The localization table from call to call *)

Lemma analysis_set (x : Pd.DataFrame) (self : Roi.RoiObj) :
  Roi.analysis (Roi.set_analysis x self) = Some x.
Proof. reflexivity. Qed.

Lemma update_analysis_run (f : Pd.DataFrame -> Pd.DataFrame)
    (self : Roi.RoiObj) (a : Pd.DataFrame) :
  Roi.analysis self = Some a ->
  Roi.update_analysis f self = (Return tt, Roi.set_analysis (f a) self).
Proof.
  intros Ha. unfold Roi.update_analysis, Roi.attr, Py.bind, Py.setattr.
  now rewrite Ha.
Qed.

Lemma analysis_set_column_run (c : string) (values : list pyval)
    (self : Roi.RoiObj) (a : Pd.DataFrame) :
  Roi.analysis self = Some a ->
  Roi.analysis_set_column c values self
  = match Pd.set_column c values a with
    | Return a' => (Return tt, Roi.set_analysis a' self)
    | Raise e => (Raise e, self)
    end.
Proof.
  intros Ha.
  unfold Roi.analysis_set_column, Roi.attr, Py.bind, Py.setattr, Py.lift.
  rewrite Ha. now destruct (Pd.set_column c values a).
Qed.

(** A column that [df[c] = values] accepts has one value per row of the
    table that results. *)
Lemma set_column_rows (c : string) (values : list pyval)
    (a a' : Pd.DataFrame) :
  Pd.set_column c values a = Return a' -> Pd.n_rows a' = length values.
Proof.
  unfold Pd.set_column.
  destruct (Nat.eqb _ _) eqn:E; [|discriminate].
  intros H. injection H as <-. apply Nat.eqb_eq in E.
  unfold Pd.n_rows in *. cbn. lia.
Qed.

(** On a table with rows, [df[c] = values] raises unless there is one
    value per row. *)
Lemma set_column_mismatch (c : string) (values : list pyval)
    (a : Pd.DataFrame) :
  Pd.index a <> [] -> length values <> Pd.n_rows a ->
  Pd.set_column c values a
  = Raise (ValueError "Length of values does not match length of index").
Proof.
  intros Hrows Hlen. unfold Pd.set_column.
  destruct (Pd.index a) as [|k ks] eqn:E; [congruence|].
  apply Nat.eqb_neq in Hlen. now rewrite Hlen.
Qed.

(** The rows of a table after [df[c] = values], when its rows were
    [0 .. m-1]: one per value. *)
Lemma set_column_upto (c : string) (values : list pyval)
    (a a' : Pd.DataFrame) (m : nat) :
  Pd.set_column c values a = Return a' -> Pd.index a = Pd.upto m ->
  Pd.index a' = Pd.upto (length values).
Proof.
  unfold Pd.set_column. intros H Hidx.
  destruct (Nat.eqb _ _) eqn:E; [|discriminate].
  injection H as <-. apply Nat.eqb_eq in E. cbn [Pd.index].
  destruct (Pd.index a) as [|k ks] eqn:Ha.
  - destruct values as [|x values]; [now rewrite Ha | reflexivity].
  - rewrite Ha. unfold Pd.n_rows in E. rewrite Ha in E.
    assert (Hm : length (Pd.upto m) = length values) by (rewrite <- Hidx, E; reflexivity).
    unfold Pd.upto in Hm. rewrite length_map, length_seq in Hm. now subst m.
Qed.

Lemma select_rows (names : list string) (a a' : Pd.DataFrame) :
  Pd.select names a = Return a' -> Pd.index a' = Pd.index a.
Proof.
  unfold Pd.select. destruct (forallb _ _); [|discriminate].
  intros H. now injection H as <-.
Qed.


Lemma In_upto (k m : nat) : In (Z.of_nat k) (Pd.upto m) <-> (k < m)%nat.
Proof.
  unfold Pd.upto. rewrite in_map_iff. split.
  - intros (j & Hj & Hin). apply in_seq in Hin. lia.
  - intros Hk. exists k. split; [reflexivity|]. apply in_seq. lia.
Qed.

Lemma upto_S (m : nat) : Pd.upto (S m) = Pd.upto m ++ [Z.of_nat m].
Proof. unfold Pd.upto. now rewrite seq_S, map_app. Qed.

Lemma position_In (k : Z) (labels : list Z) :
  In k labels -> is_Some (Pd.position k labels).
Proof.
  induction labels as [|l labels IH]; intros Hin; [destruct Hin|].
  cbn. destruct (k =? l) eqn:E; [eauto|].
  apply Z.eqb_neq in E. destruct Hin as [->|Hin]; [congruence|].
  destruct (IH Hin) as [p ->]. cbn. eauto.
Qed.

Lemma position_not_In (k : Z) (labels : list Z) :
  ~ In k labels -> Pd.position k labels = None.
Proof.
  induction labels as [|l labels IH]; intros Hin; [reflexivity|].
  cbn. destruct (k =? l) eqn:E.
  - apply Z.eqb_eq in E. subst. exfalso. apply Hin. now left.
  - rewrite IH; [reflexivity|]. intros H. apply Hin. now right.
Qed.

(** [df.loc[k] = value] on a table with the rows [0 .. m-1]: the rows stay
    for [k < m], and the row [m] is new. *)
Lemma loc_set_upto (k m : nat) (value : option Pd.Series)
    (a : Pd.DataFrame) :
  Pd.index a = Pd.upto m -> (k <= m)%nat ->
  Pd.index (Pd.loc_set (Z.of_nat k) value a) = Pd.upto (Nat.max m (S k)).
Proof.
  intros Ha Hk. unfold Pd.loc_set.
  destruct (Nat.eq_dec k m) as [->|Hne].
  - rewrite position_not_In by (rewrite Ha, In_upto; lia).
    cbn. rewrite Ha, Nat.max_r, upto_S by lia. reflexivity.
  - destruct (position_In (Z.of_nat k) (Pd.index a)) as [p ->].
    { rewrite Ha, In_upto. lia. }
    cbn. rewrite Ha, Nat.max_l by lia. reflexivity.
Qed.

(** What a method that returns has gone through. *)
Lemma bind_returns {St A B} (m : method St A) (k : A -> method St B)
    (s s' : St) (b : B) :
  Py.bind m k s = (Return b, s') ->
  exists a s1, m s = (Return a, s1) /\ k a s1 = (Return b, s').
Proof.
  unfold Py.bind. destruct (m s) as [[a|e] s1]; [eauto | discriminate].
Qed.

Lemma attr_returns {A} (f : Roi.RoiObj -> option A) (s s' : Roi.RoiObj)
    (x : A) :
  Roi.attr f s = (Return x, s') -> f s = Some x /\ s' = s.
Proof.
  unfold Roi.attr. destruct (f s); intros H; [|discriminate].
  injection H as <- <-. auto.
Qed.

Lemma assert_returns {St} (b : bool) (s s' : St) (u : unit) :
  Py.assert b s = (Return u, s') -> b = true /\ s' = s.
Proof.
  destruct b; cbn; intros H; [|discriminate]. injection H as _ <-. auto.
Qed.

Lemma analysis_set_column_returns (c : string) (values : list pyval)
    (s s' : Roi.RoiObj) (u : unit) :
  Roi.analysis_set_column c values s = (Return u, s') ->
  exists a a',
    Roi.analysis s = Some a /\ Pd.set_column c values a = Return a' /\
    s' = Roi.set_analysis a' s.
Proof.
  unfold Roi.analysis_set_column, Roi.attr, Py.bind, Py.setattr, Py.lift.
  destruct (Roi.analysis s) as [a|]; [|discriminate].
  destruct (Pd.set_column c values a) as [a'|e] eqn:E; [|discriminate].
  intros H. injection H as _ <-. exists a, a'. auto.
Qed.

(** The replacement of the bad patterns keeps the rows of the table. *)
Lemma replace_patterns_rows (replace_with : pyval) (patterns : list pyval)
    (start : nat) (s s' : Roi.RoiObj) (a : Pd.DataFrame) :
  Roi.for_each
    (fun _ k => Roi.update_analysis (Pd.replace k replace_with))
    start patterns s = (Return tt, s') ->
  Roi.analysis s = Some a ->
  exists a', Roi.analysis s' = Some a' /\ Pd.index a' = Pd.index a.
Proof.
  revert start s a. induction patterns as [|k patterns IH]; intros start s a.
  - cbn. intros H Ha. injection H as <-. eauto.
  - cbn [Roi.for_each]. intros H Ha.
    apply bind_returns in H as (u & s1 & H1 & H).
    rewrite (update_analysis_run _ _ _ Ha) in H1. injection H1 as _ <-.
    apply (IH _ _ _ H (analysis_set _ _)).
Qed.

Section Localize.

Variable mni2tal : list Roi.vertex -> list Roi.vertex.
Variable solve_voxel : Np.ndarray Q -> list Q -> list Z.

(** One turn of the loop writes one row of the table and leaves the other
    attributes. *)
Lemma locate_run (k : nat) (p : Roi.vertex) (self self' : Roi.RoiObj) :
  Roi.locate solve_voxel k p self = (Return tt, self') ->
  exists a location,
    Roi.analysis self = Some a /\
    self' = Roi.set_analysis (Pd.loc_set (Z.of_nat k) location a) self.
Proof.
  destruct p as [[x y] z].
  unfold Roi.locate, Roi.__ge__, Roi.compare_shape, Roi._find_roi_label,
    Roi.__getitem__, Roi.update_analysis, Roi.attr, Py.bind, Py.setattr,
    Py.assert, Py.lift, Py.ret, Py.raise, Roi.dim.
  repeat (split1; cbn [fst snd]).
  all: intros H; try discriminate H; injection H as <-.
  all: eauto.
Qed.

(** The loop over the sources on a table with the rows [0 .. m-1]
    overwrites or appends rows, but removes none. *)
Lemma for_each_locate_rows (xyz : list Roi.vertex) (start m : nat)
    (s s' : Roi.RoiObj) (a : Pd.DataFrame) :
  Roi.for_each (Roi.locate solve_voxel) start xyz s = (Return tt, s') ->
  Roi.analysis s = Some a -> Pd.index a = Pd.upto m -> (start <= m)%nat ->
  exists a',
    Roi.analysis s' = Some a' /\
    Pd.index a' = Pd.upto (Nat.max m (start + length xyz)).
Proof.
  revert start m s a. induction xyz as [|p xyz IH]; intros start m s a.
  - cbn. intros H Ha Hidx Hm. injection H as <-.
    exists a. split; [exact Ha|]. rewrite Hidx. f_equal. lia.
  - cbn [Roi.for_each length]. intros H Ha Hidx Hm.
    apply bind_returns in H as (u & s1 & H1 & H). destruct u.
    apply locate_run in H1 as (a0 & location & Ha0 & ->).
    assert (a0 = a) by congruence. subst a0.
    destruct (IH _ (Nat.max m (S start)) _ _ H (analysis_set _ _)) as (a' & Ha' & Hidx').
    + now apply loc_set_upto.
    + lia.
    + exists a'. split; [exact Ha'|]. rewrite Hidx'. f_equal. lia.
Qed.

(** X22.  A call of [localize_sources] that returns, returns a table with one
    row per point. *)
Lemma localize_sources_rows (xyz : list Roi.vertex)
    (source_name : option (list string)) (replace_bad : bool)
    (bad_patterns : list pyval) (replace_with : pyval)
    (self self' : Roi.RoiObj) (t : Pd.DataFrame) :
  Roi.localize_sources mni2tal solve_voxel xyz source_name replace_bad
    bad_patterns replace_with self = (Return t, self') ->
  Pd.n_rows t = length xyz.
Proof.
  unfold Roi.localize_sources. intros H.
  apply bind_returns in H as (sys & s0 & Hsys & H).
  apply attr_returns in Hsys as [_ ->].
  set (xyz' := if String.eqb sys "tal" then mni2tal xyz else xyz) in H.
  apply bind_returns in H as (u1 & s1 & H1 & H).
  apply assert_returns in H1 as [_ ->].
  apply bind_returns in H as (u2 & s2 & H2 & H).
  destruct (Nat.eqb (length xyz') (length xyz)) eqn:Hlen; [|discriminate H2].
  apply Nat.eqb_eq in Hlen. clear H2.
  apply bind_returns in H as (u3 & s3 & _ & H).
  apply bind_returns in H as (a3 & s4 & _ & H).
  apply bind_returns in H as (u4 & s5 & _ & H).
  apply bind_returns in H as (u5 & s6 & _ & H).
  apply bind_returns in H as (u6 & s7 & _ & H).
  apply bind_returns in H as (u7 & s8 & HZ & H).
  apply analysis_set_column_returns in HZ as (a7 & a8 & _ & HZ & ->).
  apply set_column_rows in HZ. rewrite length_map in HZ.
  apply bind_returns in H as (a9 & s9 & H9 & H).
  apply attr_returns in H9 as [H9 ->]. rewrite analysis_set in H9.
  injection H9 as <-.
  apply bind_returns in H as (a10 & s10 & H10 & H).
  unfold Py.lift in H10.
  destruct (Pd.select _ a8) as [a11|e] eqn:Hsel; [|discriminate].
  injection H10 as <- <-. apply select_rows in Hsel.
  apply bind_returns in H as (u11 & s11 & H11 & H).
  unfold Py.setattr in H11. injection H11 as _ <-.
  apply bind_returns in H as (u12 & s12 & H12 & H).
  apply attr_returns in H as [Ht _].
  assert (Hrows : exists a', Roi.analysis s12 = Some a' /\
                             Pd.index a' = Pd.index a11).
  { destruct replace_bad.
    - apply bind_returns in H12 as (u13 & s13 & H13 & H12).
      rewrite (update_analysis_run _ _ _ (analysis_set _ _)) in H13.
      injection H13 as _ <-. destruct u12.
      apply (replace_patterns_rows _ _ _ _ _ _ H12 (analysis_set _ _)).
    - unfold Py.ret in H12. injection H12 as _ <-.
      exists a11. split; [apply analysis_set | reflexivity]. }
  destruct Hrows as (a' & Ha' & Hidx).
  assert (t = a') by congruence. subst a'.
  unfold Pd.n_rows in *. rewrite Hidx, Hsel, HZ, Hlen. reflexivity.
Qed.

(** A call that returns on a table with the rows [0 .. m-1] leaves the
    table that it returns on the object, with the rows [0 .. n-1] for [n]
    points. *)
Lemma localize_sources_labels (xyz : list Roi.vertex)
    (source_name : option (list string)) (replace_bad : bool)
    (bad_patterns : list pyval) (replace_with : pyval)
    (self self' : Roi.RoiObj) (a t : Pd.DataFrame) (m : nat) :
  Roi.analysis self = Some a -> Pd.index a = Pd.upto m ->
  Roi.localize_sources mni2tal solve_voxel xyz source_name replace_bad
    bad_patterns replace_with self = (Return t, self') ->
  Roi.analysis self' = Some t /\ Pd.index t = Pd.upto (length xyz).
Proof.
  intros Ha Hidx H. unfold Roi.localize_sources in H.
  apply bind_returns in H as (sys & s0 & Hsys & H).
  apply attr_returns in Hsys as [_ ->].
  set (xyz' := if String.eqb sys "tal" then mni2tal xyz else xyz) in H.
  apply bind_returns in H as (u1 & s1 & H1 & H).
  apply assert_returns in H1 as [_ ->].
  apply bind_returns in H as (u2 & s2 & H2 & H).
  destruct (Nat.eqb (length xyz') (length xyz)) eqn:Hlen; [|discriminate H2].
  apply Nat.eqb_eq in Hlen. unfold Py.ret in H2. injection H2 as _ <-.
  apply bind_returns in H as (u3 & s3 & Hloop & H). destruct u3.
  destruct (for_each_locate_rows _ _ m _ _ _ Hloop Ha Hidx) as (a3 & Ha3 & Hidx3);
    [lia|].
  apply bind_returns in H as (a4 & s4 & H4 & H).
  apply attr_returns in H4 as [_ ->].
  apply bind_returns in H as (u5 & s5 & HT & H).
  apply analysis_set_column_returns in HT as (b0 & b1 & Hb0 & HT & ->).
  assert (b0 = a3) by congruence. subst b0.
  apply (set_column_upto _ _ _ _ _ HT) in Hidx3.
  apply bind_returns in H as (u6 & s6 & HX & H).
  apply analysis_set_column_returns in HX as (b0 & b2 & Hb0' & HX & ->).
  rewrite analysis_set in Hb0'. injection Hb0' as <-.
  apply (set_column_upto _ _ _ _ _ HX) in Hidx3.
  apply bind_returns in H as (u7 & s7 & HY & H).
  apply analysis_set_column_returns in HY as (b0 & b3 & Hb0' & HY & ->).
  rewrite analysis_set in Hb0'. injection Hb0' as <-.
  apply (set_column_upto _ _ _ _ _ HY) in Hidx3.
  apply bind_returns in H as (u8 & s8 & HZ & H).
  apply analysis_set_column_returns in HZ as (b0 & b4 & Hb0' & HZ & ->).
  rewrite analysis_set in Hb0'. injection Hb0' as <-.
  apply (set_column_upto _ _ _ _ _ HZ) in Hidx3.
  rewrite length_map, Hlen in Hidx3.
  apply bind_returns in H as (b5 & s9 & H9 & H).
  apply attr_returns in H9 as [H9 ->]. rewrite analysis_set in H9.
  injection H9 as <-.
  apply bind_returns in H as (b6 & s10 & H10 & H).
  unfold Py.lift in H10.
  destruct (Pd.select _ b4) as [b7|e] eqn:Hsel; [|discriminate].
  injection H10 as <- <-. apply select_rows in Hsel.
  apply bind_returns in H as (u11 & s11 & H11 & H).
  unfold Py.setattr in H11. injection H11 as _ <-.
  apply bind_returns in H as (u12 & s12 & H12 & H).
  apply attr_returns in H as [Ht ->].
  assert (Hrows : exists a', Roi.analysis s12 = Some a' /\
                             Pd.index a' = Pd.index b7).
  { destruct replace_bad.
    - apply bind_returns in H12 as (u13 & s13 & H13 & H12).
      rewrite (update_analysis_run _ _ _ (analysis_set _ _)) in H13.
      injection H13 as _ <-. destruct u12.
      apply (replace_patterns_rows _ _ _ _ _ _ H12 (analysis_set _ _)).
    - unfold Py.ret in H12. injection H12 as _ <-.
      exists b7. split; [apply analysis_set | reflexivity]. }
  destruct Hrows as (a' & Ha' & Hidx').
  assert (t = a') by congruence. subst a'.
  split; [exact Ha'|]. now rewrite Hidx', Hsel.
Qed.

(** On an object whose table still has the rows [0 .. m-1] of an earlier
    call, a call with fewer than [m] points does not return. *)
Lemma localize_sources_after_more (xyz : list Roi.vertex)
    (source_name : option (list string)) (replace_bad : bool)
    (bad_patterns : list pyval) (replace_with : pyval)
    (self : Roi.RoiObj) (a : Pd.DataFrame) (m : nat) :
  Roi.analysis self = Some a -> Pd.index a = Pd.upto m ->
  (length xyz < m)%nat ->
  exists e,
    fst (Roi.localize_sources mni2tal solve_voxel xyz source_name replace_bad
           bad_patterns replace_with self) = Raise e.
Proof.
  intros Ha Hidx Hm.
  destruct (Roi.localize_sources _ _ _ _ _ _ _ _) as [[t|e] self'] eqn:H;
    [exfalso | cbn; eauto].
  unfold Roi.localize_sources in H.
  apply bind_returns in H as (sys & s0 & Hsys & H).
  apply attr_returns in Hsys as [_ ->].
  set (xyz' := if String.eqb sys "tal" then mni2tal xyz else xyz) in H.
  apply bind_returns in H as (u1 & s1 & H1 & H).
  apply assert_returns in H1 as [Hnames ->]. apply Nat.eqb_eq in Hnames.
  apply bind_returns in H as (u2 & s2 & H2 & H).
  destruct (Nat.eqb (length xyz') (length xyz)) eqn:Hlen; [|discriminate H2].
  apply Nat.eqb_eq in Hlen. unfold Py.ret in H2. injection H2 as _ <-.
  apply bind_returns in H as (u3 & s3 & Hloop & H). destruct u3.
  destruct (for_each_locate_rows _ _ m _ _ _ Hloop Ha Hidx) as (a3 & Ha3 & Hidx3);
    [lia|].
  rewrite Nat.max_l in Hidx3 by lia.
  apply bind_returns in H as (a4 & s4 & H4 & H).
  apply attr_returns in H4 as [H4 ->].
  assert (a4 = a3) by congruence. subst a4.
  apply bind_returns in H as (u5 & s5 & HText & _).
  apply analysis_set_column_returns in HText as (a5 & a6 & Ha5 & HText & _).
  assert (a5 = a3) by congruence. subst a5.
  rewrite set_column_mismatch in HText; [discriminate| |].
  - rewrite Hidx3. destruct m; [lia | discriminate].
  - unfold Pd.n_rows. rewrite Hidx3. unfold Pd.upto.
    rewrite !length_map, length_seq. lia.
Qed.

(** X23.  Two calls in a row, the second with fewer points: when the first
    returns, the second does not. *)
Lemma localize_sources_fewer_points (xyz1 xyz2 : list Roi.vertex)
    (names1 names2 : option (list string)) (replace_bad : bool)
    (bad_patterns : list pyval) (replace_with : pyval)
    (self self1 : Roi.RoiObj) (a t1 : Pd.DataFrame) (m : nat) :
  Roi.analysis self = Some a -> Pd.index a = Pd.upto m ->
  Roi.localize_sources mni2tal solve_voxel xyz1 names1 replace_bad
    bad_patterns replace_with self = (Return t1, self1) ->
  (length xyz2 < length xyz1)%nat ->
  exists e,
    fst (Roi.localize_sources mni2tal solve_voxel xyz2 names2 replace_bad
           bad_patterns replace_with self1) = Raise e.
Proof.
  intros Ha Hidx H1 Hlen.
  destruct (localize_sources_labels _ _ _ _ _ _ _ _ _ _ Ha Hidx H1)
    as [Ht1 Hidx1].
  now apply (localize_sources_after_more _ _ _ _ _ _ t1 (length xyz1)).
Qed.

End Localize.

(** C5, on the same volume.  A first call with two points returns a table
    of two rows.  A second call on the same object with one point raises
    [ValueError]: the table of the first call is still there, the loop has
    overwritten its first row, and the column of the one name does not fit
    its two rows.  A second call with two points returns two rows under
    doubled columns. *)
Theorem localize_twice :
  let first := Scene.localize [(5, 5, 5); (1, 2, 3)]%Q Scene.roi10 in
  let fewer := Scene.localize [(5, 5, 5)]%Q (snd first) in
  let as_many := Scene.localize [(5, 5, 5); (1, 2, 3)]%Q (snd first) in
  (exists t, fst first = Return t /\ Pd.n_rows t = 2%nat) /\
  fst fewer
  = Raise (ValueError "Length of values does not match length of index") /\
  option_map Pd.index (Roi.analysis (snd fewer)) = Some [0; 1] /\
  (exists t, fst as_many = Return t /\ Pd.n_rows t = 2%nat /\
             Pd.columns t
             = ["Text"; "Text"; "label"; "index"; "X"; "Y"; "Z";
                "X"; "Y"; "Z"]%string).
Proof.
  vm_compute. split; [eexists; split; reflexivity|].
  split; [reflexivity|]. split; [reflexivity|].
  eexists. repeat split; reflexivity.
Qed.

(** *** Surfaces *)









Section Surface.

Variable smooth_3d : Np.ndarray Z -> pyval -> Np.ndarray Q.
Variable isosurface : Np.ndarray Q -> list Roi.vertex * list Roi.face.
Variable vol : Np.ndarray Z.
Variable smooth : pyval.
Variable cols : list Roi.rgba.





End Surface.












(** * Further properties *)

(** ** Utility functions *)

(** *** [Profiler._new_msg] *)

Section Messages.

Import Stdlib.Strings.Ascii.

Lemma last_char_app (msg : string) (c : ascii) :
  Others.last_char (msg +:+ String c "") = Some c.
Proof.
  induction msg as [|a msg IH]; [reflexivity|].
  change (String a msg +:+ String c "")%string
    with (String a (msg +:+ String c "")).
  destruct (msg +:+ String c "")%string as [|b rest] eqn:E.
  - destruct msg; discriminate E.
  - exact IH.
Qed.

(** X1.  [_new_msg] raises [IndexError] on the empty message, and on no
    other.  A message that ends with a space is returned as it is, any
    other message with one more space at its end; the message that is
    returned ends with a space, and [_new_msg] returns it unchanged. *)
Theorem new_msg_idempotent (msg : string) :
  (msg = ""%string -> Others._new_msg msg = Raise IndexError) /\
  (msg <> ""%string ->
   exists m,
     Others._new_msg msg = Return m /\
     (Others.last_char msg = Some " "%char -> m = msg) /\
     (Others.last_char msg <> Some " "%char -> m = msg +:+ " ") /\
     Others.last_char m = Some " "%char /\
     Others._new_msg m = Return m).
Proof.
  assert (Hnone : Others.last_char msg = None -> msg = ""%string).
  { destruct msg as [|a msg]; [reflexivity|]. intros Hc.
    exfalso. revert a Hc. induction msg as [|b msg IH]; intros a Hc.
    - discriminate Hc.
    - apply (IH b). exact Hc. }
  split; [intros ->; reflexivity|].
  intros Hne. unfold Others._new_msg.
  destruct (Others.last_char msg) as [c|] eqn:Hc;
    [|now destruct Hne; apply Hnone].
  destruct (Ascii.eqb c " ") eqn:E.
  - apply Ascii.eqb_eq in E. subst c. exists msg.
    rewrite append_nil_r, Hc. cbn. rewrite append_nil_r.
    repeat split; auto. intros H. now destruct H.
  - exists (msg +:+ " ")%string. rewrite last_char_app. cbn.
    rewrite append_nil_r. repeat split; auto.
    intros H. injection H as ->. rewrite Ascii.eqb_refl in E. discriminate E.
Qed.

(** The three cases on messages. *)
Example new_msg_cases :
  Others._new_msg "" = Raise IndexError /\
  Others._new_msg "> load " = Return "> load "%string /\
  Others._new_msg "> load" = Return "> load "%string.
Proof. repeat split; reflexivity. Qed.

End Messages.

(** *** [set_log_level] *)

(** X5.  Whatever [str.upper] does: [set_log_level] returns, or raises
    [ValueError] and leaves the logging state as it was.  The level of the
    logger after the call is the level of before or a level of the table;
    handlers that the root logger has are kept; and a [verbose] that is
    neither a [bool] nor a [str], such as [None] or an [int], changes
    nothing. *)
Theorem set_log_level_effect (upper : string -> string) (verbose : pyval)
    (log : Others.Logging) :
  let after := Others.set_log_level upper verbose log in
  (fst after = Return tt \/
   (fst after = Raise (ValueError "verbose must be of a valid type") /\
    snd after = log)) /\
  (Others.level (snd after) = Others.level log \/
   exists name,
     Py.get name Others.logging_types = Some (Others.level (snd after))) /\
  (Others.root_handlers log <> [] ->
   Others.root_handlers (snd after) = Others.root_handlers log) /\
  ((forall b, verbose <> PyBool b) -> (forall s, verbose <> PyStr s) ->
   after = (Return tt, log)).
Proof.
  assert (Hstr : forall s,
    let after :=
      match Py.get (upper s) Others.logging_types with
      | None => Py.raise (ValueError "verbose must be of a valid type")
      | Some l =>
          Py.bind (Py.setattr (Others.basicConfig "%(levelname)s : %(message)s"))
            (fun _ => Py.setattr (Others.setLevel l))
      end log in
    (fst after = Return tt \/
     (fst after = Raise (ValueError "verbose must be of a valid type") /\
      snd after = log)) /\
    (Others.level (snd after) = Others.level log \/
     exists name,
       Py.get name Others.logging_types = Some (Others.level (snd after))) /\
    (Others.root_handlers log <> [] ->
     Others.root_handlers (snd after) = Others.root_handlers log)).
  { intros s. destruct (Py.get (upper s) Others.logging_types) as [l|] eqn:E.
    - cbn. split; [now left|]. split; [right; now exists (upper s)|].
      unfold Others.basicConfig.
      destruct (Others.root_handlers log) eqn:Eh; [congruence|].
      intros _. cbn. now rewrite Eh.
    - cbn. split; [now right|]. split; [now left|]. reflexivity. }
  destruct verbose as [|b|z|q|s|l|l]; cbn zeta.
  all: try (split; [now left|]; split; [now left|]; split; [reflexivity|];
            reflexivity).
  - destruct (Hstr (if b then "INFO" else "WARNING")%string) as (H1 & H2 & H3).
    repeat split; try assumption. intros Hb. now destruct (Hb b).
  - destruct (Hstr s) as (H1 & H2 & H3).
    repeat split; try assumption. intros _ Hs. now destruct (Hs s).
Qed.

(** The name of a level in lower case. *)
Example set_log_level_debug :
  Others.set_log_level Others.ascii_upper (PyStr "debug")
    {| Others.root_handlers := []; Others.level := 30 |}
  = (Return tt,
     {| Others.root_handlers := ["%(levelname)s : %(message)s"%string];
        Others.level := 10 |}).
Proof. reflexivity. Qed.

(** ** The colorbar state, from snapshot to colorbar *)

(** X6.  Every key of the snapshot that [to_dict] takes is a parameter of
    [__init__]: the call of [CbarBase] with the snapshot as keyword
    arguments returns a colorbar.  When [color2tuple] resolves the list of
    components that it gave to that list again, the snapshot of this
    colorbar is the snapshot it was built from.  The colorbar has no
    configuration file, and for range its limits, so that [autoscale]
    leaves it as it is: the range of the data is not part of a
    snapshot. *)
Theorem to_dict_rebuilds (color2tuple : pyval -> list pyval)
    (self : Cbar.CbarBase) :
  (forall c, color2tuple (PyList (color2tuple c)) = color2tuple c) ->
  exists self',
    Cbar.new (Cbar.to_dict color2tuple self) = Return self' /\
    Cbar.to_dict color2tuple self' = Cbar.to_dict color2tuple self /\
    Cbar._config self' = PyNone /\
    Cbar._minmax self' = Cbar._clim self /\
    Cbar.autoscale self' = (Return tt, self').
Proof.
  intros Hresolved. destruct self. eexists. split; [reflexivity|].
  cbn. rewrite !Hresolved. repeat split; reflexivity.
Qed.

Lemma to_dict_rebuilds_witness :
  exists self',
    Cbar.new (Cbar.to_dict (Scene.color2tuple Scene.named) Scene.default_cbar)
    = Return self' /\
    Cbar.to_dict (Scene.color2tuple Scene.named) self'
    = Cbar.to_dict (Scene.color2tuple Scene.named) Scene.default_cbar /\
    Cbar._config self' = PyNone /\
    Cbar._minmax self' = Cbar._clim Scene.default_cbar /\
    Cbar.autoscale self' = (Return tt, self').
Proof.
  apply (to_dict_rebuilds (Scene.color2tuple Scene.named) Scene.default_cbar).
  intros c. reflexivity.
Defined.

(** ** The projection, stage by stage *)

(** An assignment to a key that a [dict] has keeps the keys and their
    order. *)
Lemma keys_set_present {V} (k : string) (v v0 : V) (d : dict V) :
  Py.get k d = Some v0 -> Py.keys (Py.set k v d) = Py.keys d.
Proof.
  induction d as [|[k' v'] d IH]; cbn; [discriminate|].
  destruct (String.eqb k k') eqn:E.
  - intros _. apply String.eqb_eq in E. now subst.
  - intros H. cbn. f_equal. now apply IH.
Qed.

(** The errors of the numpy operations of the run. *)
Lemma set_at_raises {A} (idx : list Z) (x : A) (a : list A) (e : exn) :
  Np.set_at idx x a = Raise e -> e = IndexError.
Proof.
  revert a. induction idx as [|i idx IH]; intros a; cbn; [discriminate|].
  unfold Np.index.
  destruct ((0 <=? i) && (i <? Z.of_nat (length a))); [apply IH|].
  destruct ((- Z.of_nat (length a) <=? i) && (i <? 0)); [apply IH|].
  now intros [= <-].
Qed.

Lemma set_where_raises {A} (b : list bool) (x : A) (a : list A) (e : exn) :
  Np.set_where b x a = Raise e -> e = IndexError.
Proof.
  unfold Np.set_where. destruct (Nat.eqb _ _); [discriminate|].
  now intros [= <-].
Qed.

Lemma ma_reduce_raises (f : Q -> Q -> Q) (m : Np.MaskedArray) (e : exn) :
  Np.ma_reduce f m = Raise e -> exists msg, e = ValueError msg.
Proof.
  unfold Np.ma_reduce. destruct m; [intros [= <-]; eauto|].
  destruct (Np.compressed _); discriminate.
Qed.

Section Stages.

Variable array2colormap :
  option Np.MaskedArray -> dict pyval -> list Projection.rgba.
Variable log_message : string -> pyval -> pyval -> string -> outcome unit.


(** X7.  The checks of the radius and of the type come first: a radius that
    is no number, or a type other than the two projections, makes the run
    raise [AssertionError] with the object as it was. *)
Theorem run_checks_first (self : Projection.Projections) :
  Projection.is_int_or_float (Projection._proj_radius self) = false \/
  Projection.is_proj_type (Projection._proj_type self) = false ->
  Projection._run_source_projection array2colormap log_message self = (Raise AssertionError, self).
Proof.
  intros H. unfold Projection._run_source_projection, Py.bind,
    Py.getattr, Py.assert.
  cbn.
  destruct (Projection.is_int_or_float (Projection._proj_radius self)) eqn:Er;
    [|reflexivity].
  destruct H as [H|H]; [discriminate H|]. cbn. rewrite H. reflexivity.
Qed.

(** X8.  A run on a target that is not registered has passed the checks and
    cleared the data of the previous projection when the lookup raises: it
    leaves the object without projection data, and otherwise as it was. *)
Theorem run_unknown_target (self : Projection.Projections) :
  Projection.is_int_or_float (Projection._proj_radius self) = true ->
  Projection.is_proj_type (Projection._proj_type self) = true ->
  Py.get (Projection._proj_on self) (Projection._proj_obj self) = None ->
  Projection._run_source_projection array2colormap log_message self
  = (Raise (ValueError (Projection._proj_on self +:+ " not found. Use : "
                        +:+ String.concat ", "
                              (Py.keys (Projection._proj_obj self)))),
     Projection.set_proj_data None self).
Proof.
  intros Hr Ht Hget. unfold Projection._run_source_projection.
  unfold Py.bind, Py.getattr, Py.assert, Projection._clean_source_projection,
    Py.setattr.
  cbn. rewrite Hr. cbn. rewrite Ht. cbn.
  unfold Projection._get_obj_vertices. cbn. now rewrite Hget.
Qed.

(** X9.  Whatever its outcome, a run keeps the radius, the target, the type,
    the contribute flag, the colour of the masked sources and the
    colorbars of the object, the keys of the registered objects with their
    order, and the vertices of the target. *)
Theorem run_frame (self : Projection.Projections) :
  let after := snd (Projection._run_source_projection array2colormap log_message self) in
  let on := Projection._proj_on self in
  Projection._proj_radius after = Projection._proj_radius self /\
  Projection._proj_on after = on /\
  Projection._proj_type after = Projection._proj_type self /\
  Projection._proj_contribute after = Projection._proj_contribute self /\
  Projection._proj_mask_color after = Projection._proj_mask_color self /\
  Projection.cbobjs after = Projection.cbobjs self /\
  Py.keys (Projection._proj_obj after) = Py.keys (Projection._proj_obj self) /\
  option_map (fun o => Projection.get_vertices (Projection.mesh o))
    (Py.get on (Projection._proj_obj after))
  = option_map (fun o => Projection.get_vertices (Projection.mesh o))
      (Py.get on (Projection._proj_obj self)).
Proof.
  intros after on. subst after on.
  destruct (Projection._run_source_projection array2colormap log_message self)
    as [o1 s1] eqn:H1.
  cbn [snd]. revert H1.
  destruct self as [objs r on t c mc d vsh [pm pr im gmi mm] cbs].
  unfold Projection._run_source_projection at 1. unfold_methods.
  first_run.
  all: let H := fresh in intros H; injection H as <- <-.
  all: norm; rewrite ?set_set.
  all: repeat split; try reflexivity.
  all: try (erewrite keys_set_present by eassumption; reflexivity).
  all: rewrite ?get_set_eq; use_eqs; reflexivity.
Qed.

(** X10.  What a run that returns leaves besides the mask: the shape of the
    vertices, the least and the greatest projected value on the source
    object, the colour of the masked sources on the target mesh when there
    are masked sources, and for colours of the target mesh those that
    [array2colormap] gives for the projection under the six arguments that
    the colorbar ['Projection'] exports. *)
Theorem run_colors (self self' : Projection.Projections) :
  Projection._run_source_projection array2colormap log_message self = (Return tt, self') ->
  exists o o' cb lo hi,
    Py.get (Projection._proj_on self) (Projection._proj_obj self) = Some o /\
    Py.get (Projection._proj_on self) (Projection._proj_obj self') = Some o' /\
    Py.get "Projection" (Projection.cbobjs self) = Some cb /\
    let v := Projection.get_vertices (Projection.mesh o) in
    let md := Projection.projected self v in
    Projection._vsh self' = Some (length v, 3%nat) /\
    Projection._proj_data self' = Some md /\
    Np.ma_min md = Return lo /\ Np.ma_max md = Return hi /\
    Projection._minmax (Projection.sources self') = Some (lo, hi) /\
    Projection.color (Projection.mesh o')
    = array2colormap (Some md) (Cbar.to_kwargs cb) /\
    Projection.mask_color (Projection.mesh o')
    = (if Projection.is_masked (Projection.sources self)
       then Projection._proj_mask_color self
       else Projection.mask_color (Projection.mesh o)).
Proof.
  revert self'.
  destruct self as [objs r on t c mc d vsh [pm pr im gmi mm] cbs].
  intros self'.
  unfold Projection._run_source_projection. unfold_methods.
  first_run.
  all: let H := fresh in intros H; try discriminate H; injection H as <-.
  all: match goal with
       | Ho : Py.get _ _ = Some ?b, Hc : Py.get _ _ = Some ?k,
         Hlo : Np.ma_min _ = Return ?lo, Hhi : Np.ma_max _ = Return ?hi |- _ =>
           exists b; eexists; exists k, lo, hi
       end.
  all: unfold Projection.projected; norm; rewrite ?set_set, ?get_set_eq.
  all: use_eqs; norm.
  all: repeat split; reflexivity.
Qed.

(** X11.  Without a colorbar ['Projection'] no run returns, and the colours
    of the target mesh stay as they were.  When the log message is
    formatted without an error, a run that raises [KeyError] for the
    colorbar has got as far as the colours: it has assigned the projection
    data and the mask array of the target mesh. *)
Theorem run_missing_colorbar (self : Projection.Projections)
    (o : Projection.BrainObj) :
  Py.get "Projection" (Projection.cbobjs self) = None ->
  Py.get (Projection._proj_on self) (Projection._proj_obj self) = Some o ->
  let after := Projection._run_source_projection array2colormap log_message self in
  let v := Projection.get_vertices (Projection.mesh o) in
  let md := Projection.projected self v in
  fst after <> Return tt /\
  Projection.color_of (Projection._proj_on self) (snd after)
  = Some (Projection.color (Projection.mesh o)) /\
  (log_message (Projection._proj_on self) (Projection._proj_radius self)
     (Projection._proj_contribute self) (Projection._proj_type self)
   = Return tt ->
   fst after = Raise (KeyError "Projection") ->
   Projection._proj_data (snd after) = Some md /\
   exists m,
     Projection.mask_array self v md = Return m /\
     Projection.mask_of (Projection._proj_on self) (snd after) = Some m).
Proof.
  intros Hcb Ho after v md. subst after v md.
  destruct (Projection._run_source_projection array2colormap log_message self) as [o1 s1] eqn:H1. cbn [fst snd]. revert H1.
  revert Hcb Ho.
  destruct self as [objs r on t c mc d vsh [pm pr im gmi mm] cbs].
  norm. intros Hcb Ho.
  unfold Projection._run_source_projection. unfold_methods.
  first_run.
  all: let H := fresh in intros H; injection H as <- <-.
  all: unfold Projection.color_of, Projection.mask_of, Projection.mask_array,
         Projection.projected.
  all: norm; rewrite ?set_set, ?get_set_eq; use_eqs; norm.
  all: split; [discriminate|]; split; [reflexivity|].
  all: intros HL HK; try discriminate HK; try congruence.
  all: try (exfalso; injection HK as ->;
            match goal with
            | H : Np.set_at _ _ _ = Raise _ |- _ =>
                apply set_at_raises in H; discriminate H
            | H : Np.set_where _ _ _ = Raise _ |- _ =>
                apply set_where_raises in H; discriminate H
            | H : Np.ma_min _ = Raise _ |- _ =>
                apply ma_reduce_raises in H; destruct H; discriminate
            | H : Np.ma_max _ = Raise _ |- _ =>
                apply ma_reduce_raises in H; destruct H; discriminate
            end).
  all: split; [reflexivity|]; eexists; split; reflexivity.
Qed.

(** X12.  [Projections.__init__] builds an object exactly when the radius
    is a number and the type one of the two projections, and raises
    [AssertionError] otherwise.  The object has no registered mesh: a run
    on it raises the [ValueError] of the lookup with an empty list of ids,
    and leaves it as it is. *)
Theorem init_then_run (project_radius : pyval) (project_on : string)
    (project_contribute : pyval) (project_type : string)
    (mask_color : Projection.rgba) (srcs : Projection.SourceObj)
    (cbs : dict Cbar.CbarBase) :
  match Projection.__init__ project_radius project_on project_contribute
          project_type mask_color srcs cbs with
  | Return self =>
      Projection.is_int_or_float project_radius = true /\
      Projection.is_proj_type project_type = true /\
      Projection._proj_obj self = [] /\
      Projection._run_source_projection array2colormap log_message self
      = (Raise (ValueError (project_on +:+ " not found. Use : ")), self)
  | Raise e =>
      e = AssertionError /\
      (Projection.is_int_or_float project_radius = false \/
       Projection.is_proj_type project_type = false)
  end.
Proof.
  unfold Projection.__init__.
  destruct (Projection.is_int_or_float project_radius) eqn:Er; cbn [negb];
    [|now split; [|left]].
  destruct (Projection.is_proj_type project_type) eqn:Et; cbn [negb];
    [|now split; [|right]].
  repeat split.
  unfold Projection._run_source_projection, Py.bind, Py.getattr, Py.assert,
    Projection._clean_source_projection, Py.setattr.
  cbn. rewrite Er. cbn. rewrite Et. cbn.
  now rewrite append_nil_r.
Qed.

End Stages.

Lemma run_checks_first_witness :
  Projection._run_source_projection Scene.projection_colormap Scene.log_message
    (Scene.line_scene Scene.one_source (PyStr "10") "activity")
  = (Raise AssertionError,
     Scene.line_scene Scene.one_source (PyStr "10") "activity").
Proof.
  apply (run_checks_first Scene.projection_colormap Scene.log_message
           (Scene.line_scene Scene.one_source (PyStr "10") "activity")).
  left. reflexivity.
Defined.

Lemma run_unknown_target_witness :
  let self :=
    Projection.set_proj_on "roi"
      (Scene.line_scene Scene.one_source (PyInt 3) "activity") in
  Projection._run_source_projection Scene.projection_colormap
        Scene.log_message self
  = (Raise (ValueError "roi not found. Use : brain"),
     Projection.set_proj_data None self).
Proof.
  intros self.
  exact (run_unknown_target Scene.projection_colormap
        Scene.log_message self eq_refl eq_refl
           eq_refl).
Defined.

Lemma run_colors_witness :
  let self := Scene.line_scene Scene.three_sources (PyInt 3) "activity" in
  let self' :=
    snd (Projection._run_source_projection Scene.projection_colormap
          Scene.log_message self) in
  exists o o' cb lo hi,
    Py.get (Projection._proj_on self) (Projection._proj_obj self) = Some o /\
    Py.get (Projection._proj_on self) (Projection._proj_obj self') = Some o' /\
    Py.get "Projection" (Projection.cbobjs self) = Some cb /\
    let v := Projection.get_vertices (Projection.mesh o) in
    let md := Projection.projected self v in
    Projection._vsh self' = Some (length v, 3%nat) /\
    Projection._proj_data self' = Some md /\
    Np.ma_min md = Return lo /\ Np.ma_max md = Return hi /\
    Projection._minmax (Projection.sources self') = Some (lo, hi) /\
    Projection.color (Projection.mesh o')
    = Scene.projection_colormap (Some md) (Cbar.to_kwargs cb) /\
    Projection.mask_color (Projection.mesh o')
    = (if Projection.is_masked (Projection.sources self)
       then Projection._proj_mask_color self
       else Projection.mask_color (Projection.mesh o)).
Proof.
  intros self self'.
  apply (run_colors Scene.projection_colormap Scene.log_message self self').
  unfold self'.
  rewrite (surjective_pairing
             (Projection._run_source_projection Scene.projection_colormap
                   Scene.log_message
                self)) at 1.
  f_equal; try (vm_compute; reflexivity).
Defined.

Lemma run_missing_colorbar_witness :
  let self :=
    {| Projection._proj_obj :=
         [("brain"%string, {| Projection.mesh := Scene.line_mesh |})];
       Projection._proj_radius := PyInt 3;
       Projection._proj_on := "brain";
       Projection._proj_type := "activity";
       Projection._proj_contribute := PyBool false;
       Projection._proj_mask_color := [1; 1 # 2; 0; 1]%Q;
       Projection._proj_data := None;
       Projection._vsh := None;
       Projection.sources := Scene.sources_of Scene.one_source;
       Projection.cbobjs := [] |} in
  let after :=
    Projection._run_source_projection Scene.projection_colormap
          Scene.log_message self in
  fst after = Raise (KeyError "Projection") /\
  Projection.mask_of "brain" (snd after) = Some [1; 0; 0; 0] /\
  Projection.color_of "brain" (snd after) = Some [].
Proof.
  intros self after.
  destruct (run_missing_colorbar Scene.projection_colormap
        Scene.log_message self
              {| Projection.mesh := Scene.line_mesh |} eq_refl eq_refl)
    as (_ & Hcolor & Hpartial).
  assert (Hfst : fst after = Raise (KeyError "Projection"))
    by (vm_compute; reflexivity).
  destruct (Hpartial eq_refl Hfst) as (_ & m & Hm & Hmask).
  split; [exact Hfst|]. split; [|exact Hcolor].
  vm_compute in Hm. injection Hm as <-. exact Hmask.
Defined.

(** ** The labelled volume, loaded *)







Section Loading.

Variable load_predefined_roi :
  string -> Np.ndarray Z * Roi.label_array * list Z * Np.ndarray Q * string.
Variable as_dtype : list pyval -> pyval -> pyval.





End Loading.




(** *** Looking a label up *)






Section Lookup.

Variable load_predefined_roi :
  string -> Np.ndarray Z * Roi.label_array * list Z * Np.ndarray Q * string.
Variable as_dtype : list pyval -> pyval -> pyval.


End Lookup.



(** *** Comparing the volume with a voxel *)

(** The four comparisons on a volume of three dimensions: the test on
    every axis. *)
Lemma compare_volume (cmp : Z -> Z -> bool) (self : Roi.RoiObj)
    (v : Np.ndarray Z) (n0 n1 n2 : nat) (i j k : Z) :
  Roi.vol self = Some v -> Np.shape v = [n0; n1; n2] ->
  Roi.compare_shape cmp [i; j; k] self
  = (Return (cmp (Z.of_nat n0) i && cmp (Z.of_nat n1) j
             && cmp (Z.of_nat n2) k), self).
Proof.
  intros Hv Hsh.
  unfold Roi.compare_shape, Py.bind, Py.assert, Py.ret, Py.lift, Roi.attr,
    Roi.dim.
  cbn. rewrite Hv, Hsh. cbn.
  destruct (cmp (Z.of_nat n0) i); cbn; [|reflexivity].
  destruct (cmp (Z.of_nat n1) j); cbn; reflexivity.
Qed.

(** X16.  A voxel without negative component that the volume is greater than,
    [self > idx], can be read: every component is below the dimension of
    its axis, and [vol[i, j, k]] is the element of the volume at its
    row-major position.  The comparison leaves the object as it is. *)
Theorem gt_guards_read (self self' : Roi.RoiObj) (v : Np.ndarray Z)
    (n0 n1 n2 : nat) (i j k : Z) :
  Roi.vol self = Some v -> Np.shape v = [n0; n1; n2] ->
  length (Np.data v) = (n0 * n1 * n2)%nat ->
  0 <= i -> 0 <= j -> 0 <= k ->
  Roi.__gt__ [i; j; k] self = (Return true, self') ->
  self' = self /\
  (i < Z.of_nat n0 /\ j < Z.of_nat n1 /\ k < Z.of_nat n2) /\
  exists x,
    Roi.getitem3 v i j k = Return x /\
    Np.data v !! ((Z.to_nat i * n1 + Z.to_nat j) * n2 + Z.to_nat k)%nat
    = Some x.
Proof.
  intros Hv Hsh Hdata Hi Hj Hk Hgt.
  unfold Roi.__gt__ in Hgt.
  rewrite (compare_volume Z.gtb self v n0 n1 n2 i j k Hv Hsh) in Hgt.
  injection Hgt as Hgt <-. split; [reflexivity|].
  apply andb_prop in Hgt as [Hgt Hk']. apply andb_prop in Hgt as [Hi' Hj'].
  rewrite Z.gtb_ltb in Hi', Hj', Hk'.
  apply Z.ltb_lt in Hi', Hj', Hk'. split; [auto|].
  assert (Hpos : ((Z.to_nat i * n1 + Z.to_nat j) * n2 + Z.to_nat k
                  < length (Np.data v))%nat).
  { rewrite Hdata.
    assert (Ha : (Z.to_nat i < n0)%nat) by lia.
    assert (Hb : (Z.to_nat j < n1)%nat) by lia.
    assert (Hc : (Z.to_nat k < n2)%nat) by lia.
    revert Ha Hb Hc.
    generalize (Z.to_nat i), (Z.to_nat j), (Z.to_nat k). intros a b c Ha Hb Hc.
    assert (H1 : (a * n1 + b + 1 <= n0 * n1)%nat) by nia.
    assert (H2 : ((a * n1 + b + 1) * n2 <= n0 * n1 * n2)%nat)
      by (apply Nat.mul_le_mono_r; exact H1).
    nia. }
  destruct (lookup_lt_is_Some_2 _ _ Hpos) as [x Hx].
  exists x. split; [|exact Hx].
  unfold Roi.getitem3, Np.index. rewrite Hsh.
  replace ((0 <=? i) && (i <? Z.of_nat n0)) with true
    by (symmetry; apply andb_true_intro; split;
        [apply Z.leb_le|apply Z.ltb_lt]; lia).
  replace ((0 <=? j) && (j <? Z.of_nat n1)) with true
    by (symmetry; apply andb_true_intro; split;
        [apply Z.leb_le|apply Z.ltb_lt]; lia).
  replace ((0 <=? k) && (k <? Z.of_nat n2)) with true
    by (symmetry; apply andb_true_intro; split;
        [apply Z.leb_le|apply Z.ltb_lt]; lia).
  now rewrite Hx.
Qed.

Lemma gt_guards_read_witness :
  (5 < Z.of_nat 10 /\ 5 < Z.of_nat 10 /\ 5 < Z.of_nat 10) /\
  exists x,
    Roi.getitem3 Scene.vol10 5 5 5 = Return x /\
    Np.data Scene.vol10 !! ((Z.to_nat 5 * 10 + Z.to_nat 5) * 10 + Z.to_nat 5)%nat
    = Some x.
Proof.
  assert (Hgt : Roi.__gt__ [5; 5; 5] Scene.roi10 = (Return true, Scene.roi10))
    by reflexivity.
  assert (Hdata : length (Np.data Scene.vol10) = (10 * 10 * 10)%nat)
    by reflexivity.
  destruct (gt_guards_read Scene.roi10 Scene.roi10 Scene.vol10 10 10 10 5 5 5
              eq_refl eq_refl Hdata ltac:(lia) ltac:(lia) ltac:(lia) Hgt)
    as (_ & Hbound & Hread).
  exact (conj Hbound Hread).
Defined.

(** *** The surface of the regions *)

Section Vertices.

Variable smooth_3d : Np.ndarray Z -> pyval -> Np.ndarray Q.
Variable isosurface : Np.ndarray Q -> list Roi.vertex * list Roi.face.
Variable random_uniform : nat -> list Roi.rgba.

(** X17.  Whatever its arguments and its outcome, [get_roi_vertices] keeps the
    volume, the transform, the system, the tables, the offset and the
    number of regions.  Without [plot], and on an object that has a mesh
    already, it leaves the object as it is: a mesh is built once, and a
    later call with other levels does not replace it. *)
Theorem get_roi_vertices_frame (level : pyval) (unique_color : bool)
    (smooth : pyval) (plot : bool) (self : Roi.RoiObj) :
  let after :=
    snd (Roi.get_roi_vertices smooth_3d isosurface random_uniform level
           unique_color smooth plot self) in
  (Roi._offset after = Roi._offset self /\
   Roi.vol after = Roi.vol self /\
   Roi._n_roi after = Roi._n_roi self /\
   Roi.hdr after = Roi.hdr self /\
   Roi.system after = Roi.system self /\
   Roi.ref after = Roi.ref self /\
   Roi.analysis after = Roi.analysis self) /\
  (plot = false \/ Roi.mesh self <> None -> after = self).
Proof.
  intros after. subst after.
  unfold Roi.get_roi_vertices. rewrite bind_unfold.
  match goal with
  | |- context [match ?m self with _ => _ end] => set (surface := m)
  end.
  assert (Hpure : snd (surface self) = self).
  { unfold surface, Roi.attr, Py.bind, Py.assert, Py.lift, Py.ret.
    destruct unique_color; cbn [negb].
    - destruct level; cbn; try reflexivity;
        try (destruct (Roi.vol self); reflexivity).
      all: match goal with
           | |- context [match ?l with [] => _ | _ :: _ => _ end] =>
               destruct l; cbn; try reflexivity
           end.
      all: try (destruct (Roi.vol self); reflexivity).
      all: destruct (Roi.vol self); reflexivity.
    - destruct (Roi.vol self); [|reflexivity].
      now destruct (Roi._get_roi_vertices _ _ _ _ _). }
  destruct (surface self) as [[[[vert faces] color]|e] s1]; cbn [snd] in Hpure;
    subst s1; [|cbn; now repeat split].
  unfold Py.bind, Py.getattr, Py.setattr, Py.ret.
  destruct plot, vert, (Roi.mesh self) eqn:Hmesh; cbn [snd].
  all: split; [repeat split; reflexivity|].
  all: intros [H|H]; try discriminate H; try reflexivity.
  all: now destruct H.
Qed.

End Vertices.

(** *** What localization leaves alone *)

Lemma same_refl (s : Roi.RoiObj) : Roi.same_but_analysis s s.
Proof. now left. Qed.

Lemma same_set (a : Pd.DataFrame) (s : Roi.RoiObj) :
  Roi.same_but_analysis s (Roi.set_analysis a s).
Proof. right. now exists a. Qed.

Lemma same_trans (s1 s2 s3 : Roi.RoiObj) :
  Roi.same_but_analysis s1 s2 -> Roi.same_but_analysis s2 s3 ->
  Roi.same_but_analysis s1 s3.
Proof.
  intros [-> | [a ->]] [-> | [b ->]].
  - apply same_refl.
  - apply same_set.
  - apply same_set.
  - right. now exists b.
Qed.

(** A method keeps everything but the localization table when its parts
    do. *)
Lemma bind_same {A B} (m : method Roi.RoiObj A)
    (k : A -> method Roi.RoiObj B) :
  (forall s, Roi.same_but_analysis s (snd (m s))) ->
  (forall a s, Roi.same_but_analysis s (snd (k a s))) ->
  forall s, Roi.same_but_analysis s (snd (Py.bind m k s)).
Proof.
  intros Hm Hk s. unfold Py.bind. specialize (Hm s).
  destruct (m s) as [[a|e] s1]; cbn [snd] in *; [|exact Hm].
  exact (same_trans _ _ _ Hm (Hk a s1)).
Qed.

Lemma attr_same {A} (f : Roi.RoiObj -> option A) (s : Roi.RoiObj) :
  Roi.same_but_analysis s (snd (Roi.attr f s)).
Proof. unfold Roi.attr. destruct (f s); apply same_refl. Qed.

Lemma lift_same {A} (o : outcome A) (s : Roi.RoiObj) :
  Roi.same_but_analysis s (snd (Py.lift o s)).
Proof. apply same_refl. Qed.

Lemma assert_same (b : bool) (s : Roi.RoiObj) :
  Roi.same_but_analysis s (snd (Py.assert b s)).
Proof. destruct b; apply same_refl. Qed.

Lemma update_analysis_same (f : Pd.DataFrame -> Pd.DataFrame)
    (s : Roi.RoiObj) :
  Roi.same_but_analysis s (snd (Roi.update_analysis f s)).
Proof.
  unfold Roi.update_analysis. apply bind_same.
  - apply attr_same.
  - intros a s'. apply same_set.
Qed.

Lemma analysis_set_column_same (c : string) (values : list pyval)
    (s : Roi.RoiObj) :
  Roi.same_but_analysis s (snd (Roi.analysis_set_column c values s)).
Proof.
  unfold Roi.analysis_set_column. apply bind_same; [apply attr_same|].
  intros a s'. apply bind_same; [apply lift_same|].
  intros a' s''. apply same_set.
Qed.

Lemma for_each_same {A} (body : nat -> A -> method Roi.RoiObj unit)
    (l : list A) :
  (forall k x s, Roi.same_but_analysis s (snd (body k x s))) ->
  forall start s,
    Roi.same_but_analysis s (snd (Roi.for_each body start l s)).
Proof.
  intros Hbody. induction l as [|x l IH]; intros start s; cbn.
  - apply same_refl.
  - apply bind_same; [apply Hbody|]. intros _ s'. apply IH.
Qed.

Lemma compare_shape_same (cmp : Z -> Z -> bool) (idx : list Z)
    (s : Roi.RoiObj) :
  Roi.same_but_analysis s (snd (Roi.compare_shape cmp idx s)).
Proof.
  unfold Roi.compare_shape.
  apply bind_same; [intros; apply assert_same|]. intros _ s1.
  apply bind_same; [intros; apply attr_same|]. intros v s2.
  apply bind_same; [intros; apply lift_same|]. intros d0 s3.
  destruct (negb _); [apply same_refl|].
  apply bind_same; [intros; apply lift_same|]. intros d1 s4.
  destruct (negb _); [apply same_refl|].
  apply bind_same; [intros; apply lift_same|]. intros d2 s5.
  apply same_refl.
Qed.

Lemma find_roi_label_same (z : Z) (s : Roi.RoiObj) :
  Roi.same_but_analysis s (snd (Roi._find_roi_label z s)).
Proof.
  unfold Roi._find_roi_label.
  apply bind_same; [intros; apply attr_same|]. intros r s1.
  apply bind_same; [intros; apply lift_same|]. intros col s2.
  destruct (Roi.first_where _ col); [|apply same_refl].
  apply bind_same; [|intros; apply same_refl].
  intros s3. unfold Roi.__getitem__.
  apply bind_same; [intros; apply attr_same|]. intros; apply lift_same.
Qed.

Section Frame.

Variable mni2tal : list Roi.vertex -> list Roi.vertex.
Variable solve_voxel : Np.ndarray Q -> list Q -> list Z.

Lemma locate_same (k : nat) (p : Roi.vertex) (s : Roi.RoiObj) :
  Roi.same_but_analysis s (snd (Roi.locate solve_voxel k p s)).
Proof.
  destruct p as [[x y] z]. unfold Roi.locate.
  apply bind_same; [intros; apply attr_same|]. intros h s1.
  apply bind_same; [intros; apply compare_shape_same|]. intros inside s2.
  apply bind_same; [|intros; apply update_analysis_same].
  intros s3. destruct inside; [|apply same_refl].
  apply bind_same; [intros; apply attr_same|]. intros v s4.
  apply bind_same; [intros; apply lift_same|]. intros lbl s5.
  apply bind_same; [intros; apply attr_same|]. intros off s6.
  apply find_roi_label_same.
Qed.

(** X18.  Whatever its arguments and its outcome, [localize_sources] changes
    nothing of the object but the localization table: the volume, the
    transform, the system, the reference table, the offset, the number of
    regions and the mesh are those of before the call. *)
Theorem localize_sources_frame (xyz : list Roi.vertex)
    (source_name : option (list string)) (replace_bad : bool)
    (bad_patterns : list pyval) (replace_with : pyval) (self : Roi.RoiObj) :
  let after :=
    snd (Roi.localize_sources mni2tal solve_voxel xyz source_name
           replace_bad bad_patterns replace_with self) in
  Roi._offset after = Roi._offset self /\
  Roi.vol after = Roi.vol self /\
  Roi._n_roi after = Roi._n_roi self /\
  Roi.hdr after = Roi.hdr self /\
  Roi.system after = Roi.system self /\
  Roi.ref after = Roi.ref self /\
  Roi.mesh after = Roi.mesh self.
Proof.
  intros after.
  assert (Hsame : Roi.same_but_analysis self after).
  { subst after. unfold Roi.localize_sources.
    apply bind_same; [intros; apply attr_same|]. intros sys s1.
    apply bind_same; [intros; apply assert_same|]. intros _ s2.
    apply bind_same; [intros; destruct (Nat.eqb _ _); apply same_refl|].
    intros _ s3.
    apply bind_same;
      [intros; apply for_each_same; intros; apply locate_same|].
    intros _ s4.
    apply bind_same; [intros; apply attr_same|]. intros a s5.
    do 4 (apply bind_same; [intros; apply analysis_set_column_same|];
          intros _ ?).
    apply bind_same; [intros; apply attr_same|]. intros a' t1.
    apply bind_same; [intros; apply lift_same|]. intros a'' t2.
    apply bind_same; [intros; apply same_set|]. intros _ t3.
    apply bind_same; [|intros; apply attr_same].
    intros t4. destruct replace_bad; [|apply same_refl].
    apply bind_same; [intros; apply update_analysis_same|]. intros _ t5.
    apply for_each_same. intros; apply update_analysis_same. }
  destruct Hsame as [-> | [a ->]]; repeat split; reflexivity.
Qed.

End Frame.

(** *** The cells of the table that localization returns *)

(** What [df.replace(k, v)] for the patterns [k] in their order makes of a
    cell. *)
Lemma cell_replaced (v : pyval) (patterns : list pyval) (x : pyval) :
  let x' :=
    fold_left (fun x k => if Pd.cell_eqb x k then v else x) patterns x in
  x' = v \/
  (x' = x /\ forall k, In k patterns -> Pd.cell_eqb x k = false).
Proof.
  revert x. induction patterns as [|k patterns IH]; intros x; cbn.
  - right. split; [reflexivity|]. intros k [].
  - destruct (Pd.cell_eqb x k) eqn:E.
    + left. destruct (IH v) as [H|[H _]]; exact H.
    + destruct (IH x) as [H|[H Hall]]; [now left|right].
      split; [exact H|]. intros k' [<-|Hk]; [exact E|now apply Hall].
Qed.

Lemma rows_replaced (v : pyval) (patterns : list pyval) (a : Pd.DataFrame) :
  Pd.rows (fold_left (fun a k => Pd.replace k v a) patterns a)
  = map (map (fun x =>
                fold_left (fun x k => if Pd.cell_eqb x k then v else x)
                          patterns x))
        (Pd.rows a).
Proof.
  revert a. induction patterns as [|k patterns IH]; intros a; cbn.
  - rewrite <- (map_id (Pd.rows a)) at 1. apply map_ext. intros row.
    symmetry. apply map_id.
  - rewrite IH. unfold Pd.replace at 1, Pd.map_cells at 1. cbn [Pd.rows].
    rewrite map_map. apply map_ext. intros row. now rewrite map_map.
Qed.

Lemma replace_patterns_run (v : pyval) (patterns : list pyval)
    (start : nat) (s s' : Roi.RoiObj) (a : Pd.DataFrame) :
  Roi.for_each (fun _ k => Roi.update_analysis (Pd.replace k v))
    start patterns s = (Return tt, s') ->
  Roi.analysis s = Some a ->
  Roi.analysis s'
  = Some (fold_left (fun a k => Pd.replace k v a) patterns a).
Proof.
  revert start s a. induction patterns as [|k patterns IH]; intros start s a.
  - cbn. intros H Ha. injection H as <-. exact Ha.
  - cbn [Roi.for_each fold_left]. intros H Ha.
    apply bind_returns in H as (u & s1 & H1 & H).
    rewrite (update_analysis_run _ _ _ Ha) in H1. injection H1 as _ <-.
    apply (IH _ _ _ H (analysis_set _ _)).
Qed.

Section Cells.

Variable mni2tal : list Roi.vertex -> list Roi.vertex.
Variable solve_voxel : Np.ndarray Q -> list Q -> list Z.

(** X19.  With [replace_bad] and a replacement other than [None], the table
    that [localize_sources] returns has no missing cell, and every cell of
    it is the replacement or equals none of the bad patterns. *)
Theorem localize_sources_replaces_bad (xyz : list Roi.vertex)
    (source_name : option (list string)) (bad_patterns : list pyval)
    (replace_with : pyval) (self self' : Roi.RoiObj) (t : Pd.DataFrame) :
  replace_with <> PyNone ->
  Roi.localize_sources mni2tal solve_voxel xyz source_name true bad_patterns
    replace_with self = (Return t, self') ->
  forall row x, In row (Pd.rows t) -> In x row ->
    x <> PyNone /\
    (x = replace_with \/
     forall k, In k bad_patterns -> Pd.cell_eqb x k = false).
Proof.
  intros Hv H. unfold Roi.localize_sources in H.
  do 11 (apply bind_returns in H as (? & ? & _ & H)).
  apply bind_returns in H as (u & s & Hset & H).
  unfold Py.setattr in Hset. injection Hset as _ <-.
  apply bind_returns in H as (u' & s' & Hbad & H).
  apply attr_returns in H as [Ht _].
  apply bind_returns in Hbad as (u'' & s'' & Hfill & Hbad).
  rewrite (update_analysis_run _ _ _ (analysis_set _ _)) in Hfill.
  injection Hfill as _ <-. destruct u'.
  rewrite (replace_patterns_run _ _ _ _ _ _ Hbad (analysis_set _ _)) in Ht.
  injection Ht as <-.
  intros row cell Hrow Hcell. rewrite rows_replaced in Hrow.
  apply in_map_iff in Hrow as (row0 & <- & Hrow0).
  apply in_map_iff in Hcell as (cell0 & <- & Hcell0).
  unfold Pd.fillna, Pd.map_cells in Hrow0. cbn [Pd.rows] in Hrow0.
  apply in_map_iff in Hrow0 as (row1 & <- & Hrow1).
  apply in_map_iff in Hcell0 as (cell1 & <- & Hcell1).
  set (filled := match cell1 with PyNone => replace_with | _ => cell1 end).
  assert (Hfilled : filled <> PyNone) by (subst filled; now destruct cell1).
  destruct (cell_replaced replace_with bad_patterns filled) as [E|[E Hall]];
    rewrite E.
  - split; [exact Hv|now left].
  - split; [exact Hfilled|now right].
Qed.

End Cells.

Lemma localize_sources_replaces_bad_witness :
  exists t,
    fst (Roi.localize_sources (fun x => x) Scene.identity_voxel
           [(11, 5, 5)]%Q None true Roi.default_bad_patterns
           Roi.default_replace_with Scene.roi10) = Return t /\
    forall row x, In row (Pd.rows t) -> In x row ->
      x <> PyNone /\
      (x = Roi.default_replace_with \/
       forall k, In k Roi.default_bad_patterns -> Pd.cell_eqb x k = false).
Proof.
  assert (Hfst :
    fst (Roi.localize_sources (fun x => x) Scene.identity_voxel
           [(11, 5, 5)]%Q None true Roi.default_bad_patterns
           Roi.default_replace_with Scene.roi10)
    = Return {| Pd.columns := ["Text"; "label"; "index"; "X"; "Y"; "Z"]%string;
                Pd.index := [0];
                Pd.rows := [[PyStr "s0"; PyStr "Not found"; PyStr "Not found";
                             PyFloat 11; PyFloat 5; PyFloat 5]] |})
    by (vm_compute; reflexivity).
  eexists. split; [exact Hfst|].
  apply (localize_sources_replaces_bad (fun x => x) Scene.identity_voxel
           [(11, 5, 5)]%Q None Roi.default_bad_patterns
           Roi.default_replace_with Scene.roi10
           (snd (Roi.localize_sources (fun x => x) Scene.identity_voxel
                   [(11, 5, 5)]%Q None true Roi.default_bad_patterns
                   Roi.default_replace_with Scene.roi10)));
    [discriminate|].
  rewrite <- Hfst. apply surjective_pairing.
Defined.

(** *** Names and rows *)

Section Names.

Variable mni2tal : list Roi.vertex -> list Roi.vertex.
Variable solve_voxel : Np.ndarray Q -> list Q -> list Z.

(** X20.  The names of the sources are checked against the number of points
    before the loop over the points: with more or fewer names than points,
    [localize_sources] raises [AssertionError] and leaves the object, its
    localization table included, as it was. *)
Theorem localize_sources_bad_names (xyz : list Roi.vertex)
    (names : list string) (replace_bad : bool) (bad_patterns : list pyval)
    (replace_with : pyval) (self : Roi.RoiObj) (sys : string) :
  Roi.system self = Some sys -> length names <> length xyz ->
  Roi.localize_sources mni2tal solve_voxel xyz (Some names) replace_bad
    bad_patterns replace_with self = (Raise AssertionError, self).
Proof.
  intros Hsys Hlen. apply Nat.eqb_neq in Hlen.
  unfold Roi.localize_sources.
  rewrite bind_unfold. unfold Roi.attr at 1. rewrite Hsys.
  rewrite bind_unfold. now rewrite Hlen.
Qed.

End Names.

Lemma localize_sources_bad_names_witness :
  Roi.localize_sources (fun x => x) Scene.identity_voxel
    [(5, 5, 5); (1, 2, 3)]%Q (Some ["a"%string]) true
    Roi.default_bad_patterns Roi.default_replace_with Scene.roi10
  = (Raise AssertionError, Scene.roi10).
Proof.
  apply (localize_sources_bad_names (fun x => x) Scene.identity_voxel
           [(5, 5, 5); (1, 2, 3)]%Q ["a"%string] true
           Roi.default_bad_patterns Roi.default_replace_with Scene.roi10
           "mni").
  - reflexivity.
  - cbn. lia.
Defined.

Lemma localize_sources_rows_witness :
  exists t,
    fst (Roi.localize_sources (fun x => x) Scene.identity_voxel
           [(5, 5, 5); (1, 2, 3)]%Q None true Roi.default_bad_patterns
           Roi.default_replace_with Scene.roi10) = Return t /\
    Pd.n_rows t = 2%nat.
Proof.
  assert (Hfst :
    fst (Roi.localize_sources (fun x => x) Scene.identity_voxel
           [(5, 5, 5); (1, 2, 3)]%Q None true Roi.default_bad_patterns
           Roi.default_replace_with Scene.roi10)
    = Return
        {| Pd.columns := ["Text"; "label"; "index"; "X"; "Y"; "Z"]%string;
           Pd.index := [0; 1];
           Pd.rows := [[PyStr "s0"; PyStr "B"; PyInt 2; PyFloat 5; PyFloat 5;
                        PyFloat 5];
                       [PyStr "s1"; PyStr "A"; PyInt 1; PyFloat 1; PyFloat 2;
                        PyFloat 3]] |})
    by (vm_compute; reflexivity).
  eexists. split; [exact Hfst|].
  apply (localize_sources_rows (fun x => x) Scene.identity_voxel
           [(5, 5, 5); (1, 2, 3)]%Q None true Roi.default_bad_patterns
           Roi.default_replace_with Scene.roi10
           (snd (Roi.localize_sources (fun x => x) Scene.identity_voxel
                   [(5, 5, 5); (1, 2, 3)]%Q None true
                   Roi.default_bad_patterns Roi.default_replace_with
                   Scene.roi10))).
  rewrite <- Hfst. apply surjective_pairing.
Defined.

Lemma localize_sources_fewer_points_witness :
  exists e,
    fst (Roi.localize_sources (fun x => x) Scene.identity_voxel
           [(5, 5, 5)]%Q None true Roi.default_bad_patterns
           Roi.default_replace_with
           (snd (Roi.localize_sources (fun x => x) Scene.identity_voxel
                   [(5, 5, 5); (1, 2, 3)]%Q None true
                   Roi.default_bad_patterns Roi.default_replace_with
                   Scene.roi10))) = Raise e.
Proof.
  assert (Hfst :
    fst (Roi.localize_sources (fun x => x) Scene.identity_voxel
           [(5, 5, 5); (1, 2, 3)]%Q None true Roi.default_bad_patterns
           Roi.default_replace_with Scene.roi10)
    = Return
        {| Pd.columns := ["Text"; "label"; "index"; "X"; "Y"; "Z"]%string;
           Pd.index := [0; 1];
           Pd.rows := [[PyStr "s0"; PyStr "B"; PyInt 2; PyFloat 5; PyFloat 5;
                        PyFloat 5];
                       [PyStr "s1"; PyStr "A"; PyInt 1; PyFloat 1; PyFloat 2;
                        PyFloat 3]] |})
    by (vm_compute; reflexivity).
  eapply (localize_sources_fewer_points (fun x => x) Scene.identity_voxel
            [(5, 5, 5); (1, 2, 3)]%Q [(5, 5, 5)]%Q None None true
            Roi.default_bad_patterns Roi.default_replace_with Scene.roi10 _
            (Pd.empty ["label"; "index"]%string) _ 0).
  - reflexivity.
  - reflexivity.
  - rewrite <- Hfst. apply surjective_pairing.
  - cbn. lia.
Defined.

(** *** The table of a first localization *)

Lemma positions_cons (c x : string) (cols : list string) :
  Pd.positions c (x :: cols)
  = (if String.eqb c x then [0%nat] else []) ++ map S (Pd.positions c cols).
Proof.
  unfold Pd.positions. cbn [length seq List.filter nth].
  rewrite <- seq_shift, filter_map_swap. cbn [nth].
  now destruct (String.eqb c x).
Qed.

Lemma positions_absent (c : string) (cols : list string) :
  ~ In c cols -> Pd.positions c cols = [].
Proof.
  induction cols as [|x cols IH]; intros Hc; [reflexivity|].
  rewrite positions_cons.
  destruct (String.eqb c x) eqn:E.
  - apply String.eqb_eq in E. subst. exfalso. apply Hc. now left.
  - rewrite IH; [reflexivity|]. intros H. apply Hc. now right.
Qed.

(** A name that occurs once is at one position. *)
Lemma positions_present (c : string) (cols : list string) :
  List.NoDup cols -> In c cols ->
  map (fun p => nth p cols ""%string) (Pd.positions c cols) = [c].
Proof.
  induction 1 as [|x cols Hx Hnd IH]; intros Hc; [destruct Hc|].
  rewrite positions_cons, map_app, map_map. cbn [nth].
  destruct (String.eqb c x) eqn:E.
  - apply String.eqb_eq in E. subst x.
    now rewrite (positions_absent c cols Hx).
  - destruct Hc as [->|Hc]; [now rewrite String.eqb_refl in E|].
    cbn [map app]. now apply IH.
Qed.

(** [df[names]] on a table whose columns have distinct names: the columns
    of the result are [names]. *)
Lemma select_columns (names : list string) (a a' : Pd.DataFrame) :
  List.NoDup (Pd.columns a) -> Pd.select names a = Return a' ->
  Pd.columns a' = names.
Proof.
  intros Hnd. unfold Pd.select.
  destruct (forallb _ names) eqn:Hall; [|discriminate].
  intros H. injection H as <-. cbn [Pd.columns].
  rewrite forallb_forall in Hall.
  induction names as [|c names IH]; [reflexivity|].
  cbn [map concat]. rewrite map_app. rewrite IH.
  - rewrite positions_present; [reflexivity|exact Hnd|].
    specialize (Hall c (or_introl eq_refl)).
    apply existsb_exists in Hall as (x & Hx & E).
    apply String.eqb_eq in E. now subst.
  - intros c' Hc'. apply Hall. now right.
Qed.

Lemma set_column_columns (c : string) (values : list pyval)
    (a a' : Pd.DataFrame) :
  Pd.set_column c values a = Return a' ->
  Pd.columns a'
  = if existsb (String.eqb c) (Pd.columns a) then Pd.columns a
    else Pd.columns a ++ [c].
Proof.
  unfold Pd.set_column. destruct (Nat.eqb _ _); [|discriminate].
  intros H. injection H as <-. cbn [Pd.columns].
  destruct (Pd.index a); [destruct values|]; reflexivity.
Qed.

Lemma columns_replaced (v : pyval) (patterns : list pyval)
    (a : Pd.DataFrame) :
  Pd.columns (fold_left (fun a k => Pd.replace k v a) patterns a)
  = Pd.columns a.
Proof.
  revert a. induction patterns as [|k patterns IH]; intros a; [reflexivity|].
  cbn. now rewrite IH.
Qed.

Lemma existsb_absent (c : string) (cols : list string) :
  ~ In c cols -> existsb (String.eqb c) cols = false.
Proof.
  intros Hc. destruct (existsb _ cols) eqn:E; [|reflexivity].
  apply existsb_exists in E as (x & Hx & E).
  apply String.eqb_eq in E. now subst.
Qed.

Section Table.

Variable mni2tal : list Roi.vertex -> list Roi.vertex.
Variable solve_voxel : Np.ndarray Q -> list Q -> list Z.

(** The loop over the sources keeps the columns of the table. *)
Lemma for_each_locate_columns (xyz : list Roi.vertex) (start : nat)
    (s s' : Roi.RoiObj) (a : Pd.DataFrame) :
  Roi.for_each (Roi.locate solve_voxel) start xyz s = (Return tt, s') ->
  Roi.analysis s = Some a ->
  exists a', Roi.analysis s' = Some a' /\ Pd.columns a' = Pd.columns a.
Proof.
  revert start s a. induction xyz as [|p xyz IH]; intros start s a.
  - cbn. intros H Ha. injection H as <-. eauto.
  - cbn [Roi.for_each]. intros H Ha.
    apply bind_returns in H as (u & s1 & H1 & H). destruct u.
    apply (locate_run solve_voxel) in H1 as (a0 & location & Ha0 & ->).
    assert (a0 = a) by congruence. subst a0.
    destruct (IH _ _ _ H (analysis_set _ _)) as (a' & Ha' & Hcols).
    exists a'. split; [exact Ha'|]. rewrite Hcols.
    unfold Pd.loc_set. now destruct (Pd.position _ _).
Qed.

(** X21.  On an object whose localization table has no row yet, as a load
    leaves it, with distinct column names other than ['Text'], ['X'],
    ['Y'] and ['Z']: the table that [localize_sources] returns has the
    column ['Text'], the columns of the labels and the columns ['X'],
    ['Y'] and ['Z'], in this order, and the rows [0 .. n-1] for [n]
    points; it is the localization table that the call leaves on the
    object. *)
Theorem localize_sources_table (xyz : list Roi.vertex)
    (source_name : option (list string)) (replace_bad : bool)
    (bad_patterns : list pyval) (replace_with : pyval)
    (self self' : Roi.RoiObj) (cols : list string) (t : Pd.DataFrame) :
  Roi.analysis self = Some (Pd.empty cols) -> List.NoDup cols ->
  (forall c, In c ["Text"; "X"; "Y"; "Z"]%string -> ~ In c cols) ->
  Roi.localize_sources mni2tal solve_voxel xyz source_name replace_bad
    bad_patterns replace_with self = (Return t, self') ->
  Pd.columns t = ("Text" :: cols ++ ["X"; "Y"; "Z"])%string /\
  Pd.index t = Pd.upto (length xyz) /\
  Roi.analysis self' = Some t.
Proof.
  intros Ha Hnd Hfresh H.
  destruct (localize_sources_labels mni2tal solve_voxel _ _ _ _ _ _ _ _ _ 0
              Ha eq_refl H) as [Ht Hidx].
  split; [|now split].
  unfold Roi.localize_sources in H.
  apply bind_returns in H as (sys & s0 & Hsys & H).
  apply attr_returns in Hsys as [_ ->].
  apply bind_returns in H as (u1 & s1 & H1 & H).
  apply assert_returns in H1 as [_ ->].
  apply bind_returns in H as (u2 & s2 & H2 & H).
  destruct (Nat.eqb _ (length xyz)); [|discriminate H2].
  unfold Py.ret in H2. injection H2 as _ <-.
  apply bind_returns in H as (u3 & s3 & Hloop & H). destruct u3.
  destruct (for_each_locate_columns _ _ _ _ _ Hloop Ha) as (a3 & Ha3 & Hc3).
  cbn [Pd.columns Pd.empty] in Hc3.
  apply bind_returns in H as (a4 & s4 & H4 & H).
  apply attr_returns in H4 as [Ha4 ->].
  assert (a4 = a3) by congruence. subst a4. rewrite Hc3 in H.
  assert (HT' : ~ In "Text"%string cols) by (apply Hfresh; cbn; tauto).
  assert (HX' : ~ In "X"%string cols) by (apply Hfresh; cbn; tauto).
  assert (HY' : ~ In "Y"%string cols) by (apply Hfresh; cbn; tauto).
  assert (HZ' : ~ In "Z"%string cols) by (apply Hfresh; cbn; tauto).
  apply bind_returns in H as (u5 & s5 & HT & H).
  apply analysis_set_column_returns in HT as (b0 & b1 & Hb0 & HT & ->).
  assert (b0 = a3) by congruence. subst b0.
  apply set_column_columns in HT. rewrite Hc3, (existsb_absent _ _ HT') in HT.
  apply bind_returns in H as (u6 & s6 & HX & H).
  apply analysis_set_column_returns in HX as (b0 & b2 & Hb0' & HX & ->).
  rewrite analysis_set in Hb0'. injection Hb0' as <-.
  apply set_column_columns in HX. rewrite HT in HX.
  rewrite existsb_absent in HX
    by (rewrite in_app_iff; cbn; intros [?|[?|[]]]; [tauto|discriminate]).
  apply bind_returns in H as (u7 & s7 & HY & H).
  apply analysis_set_column_returns in HY as (b0 & b3 & Hb0' & HY & ->).
  rewrite analysis_set in Hb0'. injection Hb0' as <-.
  apply set_column_columns in HY. rewrite HX in HY.
  rewrite existsb_absent in HY
    by (rewrite !in_app_iff; cbn;
        intros [[?|[?|[]]]|[?|[]]]; [tauto|discriminate|discriminate]).
  apply bind_returns in H as (u8 & s8 & HZ & H).
  apply analysis_set_column_returns in HZ as (b0 & b4 & Hb0' & HZ & ->).
  rewrite analysis_set in Hb0'. injection Hb0' as <-.
  apply set_column_columns in HZ. rewrite HY in HZ.
  rewrite existsb_absent in HZ
    by (rewrite !in_app_iff; cbn;
        intros [[[?|[?|[]]]|[?|[]]]|[?|[]]];
        [tauto|discriminate|discriminate|discriminate]).
  apply bind_returns in H as (b5 & s9 & H9 & H).
  apply attr_returns in H9 as [H9 ->]. rewrite analysis_set in H9.
  injection H9 as <-.
  apply bind_returns in H as (b6 & s10 & H10 & H).
  unfold Py.lift in H10.
  destruct (Pd.select _ b4) as [b7|e] eqn:Hsel; [|discriminate].
  injection H10 as <- <-.
  apply select_columns in Hsel.
  2:{ rewrite HZ, <- !app_assoc. cbn [app].
      apply List.NoDup_app; [exact Hnd| |].
      - repeat constructor; cbn; intros Hin;
          repeat destruct Hin as [Hin|Hin]; try discriminate Hin;
          exact Hin.
      - intros c Hc Hin. apply (Hfresh c); [|exact Hc].
        cbn in Hin |- *. tauto. }
  apply bind_returns in H as (u11 & s11 & H11 & H).
  unfold Py.setattr in H11. injection H11 as _ <-.
  apply bind_returns in H as (u12 & s12 & H12 & H).
  apply attr_returns in H as [Ht' _].
  destruct replace_bad.
  - apply bind_returns in H12 as (u13 & s13 & H13 & H12).
    rewrite (update_analysis_run _ _ _ (analysis_set _ _)) in H13.
    injection H13 as _ <-. destruct u12.
    rewrite (replace_patterns_run _ _ _ _ _ _ H12 (analysis_set _ _)) in Ht'.
    injection Ht' as <-. rewrite columns_replaced. exact Hsel.
  - unfold Py.ret in H12. injection H12 as _ <-.
    rewrite analysis_set in Ht'. injection Ht' as <-. exact Hsel.
Qed.

End Table.

Lemma localize_sources_table_witness :
  exists t,
    fst (Roi.localize_sources (fun x => x) Scene.identity_voxel
           [(5, 5, 5); (1, 2, 3)]%Q None true Roi.default_bad_patterns
           Roi.default_replace_with Scene.roi10) = Return t /\
    Pd.columns t = ["Text"; "label"; "index"; "X"; "Y"; "Z"]%string /\
    Pd.index t = [0; 1].
Proof.
  assert (Hfst :
    fst (Roi.localize_sources (fun x => x) Scene.identity_voxel
           [(5, 5, 5); (1, 2, 3)]%Q None true Roi.default_bad_patterns
           Roi.default_replace_with Scene.roi10)
    = Return
        {| Pd.columns := ["Text"; "label"; "index"; "X"; "Y"; "Z"]%string;
           Pd.index := [0; 1];
           Pd.rows := [[PyStr "s0"; PyStr "B"; PyInt 2; PyFloat 5; PyFloat 5;
                        PyFloat 5];
                       [PyStr "s1"; PyStr "A"; PyInt 1; PyFloat 1; PyFloat 2;
                        PyFloat 3]] |})
    by (vm_compute; reflexivity).
  eexists. split; [exact Hfst|].
  assert (Hnd : List.NoDup ["label"; "index"]%string).
  { repeat constructor; cbn; intros Hin;
      repeat destruct Hin as [Hin|Hin]; try discriminate Hin; exact Hin. }
  assert (Hfresh : forall c, In c ["Text"; "X"; "Y"; "Z"]%string ->
                     ~ In c ["label"; "index"]%string).
  { intros c Hc Hin. cbn in Hc, Hin.
    destruct Hin as [<-|[<-|[]]];
      repeat destruct Hc as [Hc|Hc]; try discriminate Hc; exact Hc. }
  destruct (localize_sources_table (fun x => x) Scene.identity_voxel
              [(5, 5, 5); (1, 2, 3)]%Q None true Roi.default_bad_patterns
              Roi.default_replace_with Scene.roi10
              (snd (Roi.localize_sources (fun x => x) Scene.identity_voxel
                      [(5, 5, 5); (1, 2, 3)]%Q None true
                      Roi.default_bad_patterns Roi.default_replace_with
                      Scene.roi10))
              ["label"; "index"]%string _ eq_refl Hnd Hfresh
              ltac:(rewrite <- Hfst; apply surjective_pairing))
    as (Hcols & Hidx & _).
  exact (conj Hcols Hidx).
Defined.

(** *** The bounds of the volume, on the volume of shape (10, 10, 10) *)

Lemma locate_at_dimension_witness :
  Roi.locate Scene.identity_voxel 0 (10, 5, 5)%Q Scene.roi10
  = (Raise IndexError, Scene.roi10).
Proof.
  apply (locate_at_dimension Scene.identity_voxel 0 10 5 5 Scene.roi10
           Roi.eye4 Scene.vol10 10 10 10 10 5 5);
    try reflexivity; lia.
Defined.

Lemma locate_negative_witness :
  Roi.locate Scene.identity_voxel 0 (-1, 5, 5)%Q Scene.roi10
  = Roi.locate Scene.identity_voxel 0 (9, 5, 5)%Q Scene.roi10.
Proof.
  apply (locate_negative Scene.identity_voxel 0 (-1) 5 5 9 Scene.roi10
           Roi.eye4 Scene.vol10 10 10 10 (-1) 5 5);
    try reflexivity; lia.
Defined.

Lemma locate_beyond_witness :
  Roi.locate Scene.identity_voxel 0 (11, 5, 5)%Q Scene.roi10
  = Roi.update_analysis (Pd.loc_set (Z.of_nat 0) None) Scene.roi10.
Proof.
  apply (locate_beyond Scene.identity_voxel 0 11 5 5 Scene.roi10
           Roi.eye4 Scene.vol10 10 10 10 11 5 5);
    try reflexivity.
  left. lia.
Defined.
